(** * Post-update pipeline of the REST compatibility layer

    A shallow embedding of the TypeScript post-update endpoint
    ([route.ts], [post-update.service.ts], the validation helpers and the
    persistence adapters) together with the properties stated about it.

    Conventions of the embedding:
    - a JavaScript [number] that the code only uses as an integer is a [Z];
      the site offset, which may be fractional, is a [Q];
    - [undefined] is [None]; a field that may also be [null] is an
      [option (option _)], the inner [None] being [null];
    - a value a built-in may turn into [NaN] is an [option], [None] being [NaN];
    - the database behind a connection is an explicit [Db] value threaded
      through every adapter; [async] functions are state-passing functions
      that either return a value or throw. *)

From Stdlib Require Import ZArith QArith List String Ascii Bool Lia.
From Stdlib Require Import DecimalString DecimalZ DecimalNat.
Import ListNotations.

Open Scope string_scope.
Open Scope list_scope.
Open Scope Z_scope.

(* ================================================================= *)
(** * JavaScript values and built-ins used by the code *)

(** A parsed JSON request body. An object lists its own properties in
    insertion order, each key once. *)
#[local] Unset Elimination Schemes.
Inductive json : Type :=
| JNull
| JBool (b : bool)
| JNum (q : Q)
| JStr (s : string)
| JArr (xs : list json)
| JObj (kvs : list (string * json)).
#[local] Set Elimination Schemes.

(** Built-ins of the JavaScript runtime, of the database server and of the
    third-party packages the code calls. They are not code of the repository;
    every definition below is parametric in them. *)
Class Runtime : Type := {
  (** time value of [new Date(s)], [None] for an invalid date *)
  Date_parse : string -> option Z;
  (** [parseFloat(s)], [None] for [NaN] *)
  parseFloat : string -> option Q;
  (** [String(v)] for a JSON value *)
  js_String : json -> string;
  (** [Buffer.from(s, 'base64').toString('utf-8')] *)
  base64_decode : string -> string;
  (** [compare(password, hash)] of bcryptjs *)
  bcrypt_compare : string -> string -> bool;
  (** MySQL [NOW()] and [UTC_TIMESTAMP()] at the time of the statement *)
  NOW : string;
  UTC_TIMESTAMP : string;
  (** default message zod attaches to an issue of a given kind *)
  zod_message : string -> string
}.

(** [String(n)] and [`${n}`] for an integer [n] printed in plain decimal,
    which is every integer below [1e21] in absolute value; the ids, counters
    and calendar fields the code prints are far below. *)
Definition Z_to_string (z : Z) : string :=
  NilEmpty.string_of_int (Z.to_int z).

Fixpoint startsWith (prefix s : string) : bool :=
  match prefix, s with
  | EmptyString, _ => true
  | String a p', String b s' => Ascii.eqb a b && startsWith p' s'
  | String _ _, EmptyString => false
  end.

(** [s.slice(n)] for [0 <= n]. *)
Fixpoint slice_from (n : nat) (s : string) : string :=
  match n, s with
  | O, _ => s
  | S n', String _ s' => slice_from n' s'
  | S _, EmptyString => EmptyString
  end.

(** [s.slice(a, b)] for [0 <= a <= b]. *)
Definition slice (a b : nat) (s : string) : string :=
  substring a (b - a) s.

(** [s.padStart(2, '0')]. *)
Definition padStart2 (s : string) : string :=
  match s with
  | EmptyString => "00"
  | String c EmptyString => String "0" (String c EmptyString)
  | _ => s
  end.

(** [xs.join(sep)]. *)
Fixpoint join (sep : string) (xs : list string) : string :=
  match xs with
  | [] => EmptyString
  | [x] => x
  | x :: rest => (x ++ sep ++ join sep rest)%string
  end.

(** White space matched by [\s], restricted to the one-byte characters. *)
Definition is_space (c : ascii) : bool :=
  let n := nat_of_ascii c in
  ((9 <=? n) && (n <=? 13))%nat || (n =? 32)%nat.

Definition is_digit (c : ascii) : bool :=
  let n := nat_of_ascii c in ((48 <=? n) && (n <=? 57))%nat.

Definition digit_val (c : ascii) : Z := Z.of_nat (nat_of_ascii c) - 48.

Fixpoint skip_spaces (s : string) : string :=
  match s with
  | String c s' => if is_space c then skip_spaces s' else s
  | EmptyString => s
  end.

Fixpoint read_digits (s : string) (acc : option Z) : option Z :=
  match s with
  | String c s' =>
      if is_digit c
      then read_digits s' (Some (10 * match acc with Some a => a | None => 0 end
                                 + digit_val c))
      else acc
  | EmptyString => acc
  end.

(** [parseInt(s, 10)]: leading white space, an optional sign, then the
    longest run of decimal digits; [None] ([NaN]) when there is no digit. The
    result is exact, as [parseInt] is up to [2^53]. *)
Definition parseInt10 (s : string) : option Z :=
  match skip_spaces s with
  | String "-" s' => option_map Z.opp (read_digits s' None)
  | String "+" s' => read_digits s' None
  | s' => read_digits s' None
  end.

(** [s.replace(/\s/g, '')]. *)
Fixpoint strip_spaces (s : string) : string :=
  match s with
  | String c s' => if is_space c then strip_spaces s' else String c (strip_spaces s')
  | EmptyString => EmptyString
  end.

(** [s.indexOf(':')] split: the text before the first colon and the text
    after it, [None] when there is no colon ([indexOf] gives [-1]). *)
Fixpoint split_colon (s : string) : option (string * string) :=
  match s with
  | EmptyString => None
  | String c s' =>
      if Ascii.eqb c ":" then Some (EmptyString, s')
      else match split_colon s' with
           | Some (a, b) => Some (String c a, b)
           | None => None
           end
  end.

(** [s.replace(' ', 'T')]: the first space only. *)
Fixpoint replace_first_space_T (s : string) : string :=
  match s with
  | EmptyString => EmptyString
  | String c s' =>
      if Ascii.eqb c " " then String "T" s' else String c (replace_first_space_T s')
  end.

(** [s.replace(/\/$/, '')]: one trailing slash. *)
Fixpoint strip_trailing_slash (s : string) : string :=
  match s with
  | EmptyString => EmptyString
  | String c EmptyString => if Ascii.eqb c "/" then EmptyString else s
  | String c s' => String c (strip_trailing_slash s')
  end.

(** JavaScript truthiness of a string. *)
Definition truthy (s : string) : bool := negb (String.eqb s EmptyString).

Definition truthy_opt (s : option string) : bool :=
  match s with Some s => truthy s | None => false end.

(* ================================================================= *)
(** * lib/errors/wp-error.ts *)

Record WpError : Type := mkWpError {
  code : string;
  message : string;
  status : Z
}.

(** [toResponse]: the HTTP status mirrors [data.status]. *)
Record HttpResponse (B : Type) : Type := mkResponse {
  http_status : Z;
  http_body : B
}.

Arguments mkResponse {B} http_status http_body.
Arguments http_status {B} h.
Arguments http_body {B} h.

Definition restAuthorizationRequiredCode (isAuthenticated : bool) : Z :=
  if isAuthenticated then 403 else 401.

(* ================================================================= *)
(** * lib/types/index.ts *)

Record WpPostRow : Type := mkPost {
  ID : Z;
  post_author : Z;
  post_date : string;
  post_date_gmt : string;
  post_content : string;
  post_title : string;
  post_excerpt : string;
  post_status : string;
  comment_status : string;
  ping_status : string;
  post_password : string;
  post_name : string;
  to_ping : string;
  pinged : string;
  post_modified : string;
  post_modified_gmt : string;
  post_content_filtered : string;
  post_parent : Z;
  guid : string;
  menu_order : Z;
  post_type : string;
  post_mime_type : string;
  comment_count : Z
}.

(** [WpPostUpdateData]: the column set of an update, each column optional. *)
Record WpPostUpdateData : Type := mkUpdateData {
  d_post_title : option string;
  d_post_content : option string;
  d_post_excerpt : option string;
  d_post_status : option string;
  d_post_date : option string;
  d_post_date_gmt : option string;
  d_post_name : option string;
  d_post_author : option Z;
  d_post_password : option string;
  d_post_parent : option Z;
  d_menu_order : option Z;
  d_comment_status : option string;
  d_ping_status : option string
}.

Definition empty_update : WpPostUpdateData :=
  mkUpdateData None None None None None None None None None None None None None.

(** A [Record<string, boolean>]: own properties in insertion order. *)
Definition capmap : Type := list (string * bool).

Fixpoint cap_get (m : capmap) (k : string) : option bool :=
  match m with
  | [] => None
  | (k', v) :: rest => if String.eqb k' k then Some v else cap_get rest k
  end.

(** [m[k]] used as a condition. *)
Definition has_cap (m : capmap) (k : string) : bool :=
  match cap_get m k with Some true => true | _ => false end.

(** [m[k] = true] on an object. *)
Fixpoint cap_set_true (m : capmap) (k : string) : capmap :=
  match m with
  | [] => [(k, true)]
  | (k', v) :: rest =>
      if String.eqb k' k then (k', true) :: rest else (k', v) :: cap_set_true rest k
  end.

Record AuthenticatedUser : Type := mkUser {
  id : Z;
  login : string;
  email : string;
  roles : list string;
  capabilities : capmap;
  allcaps : capmap
}.

(** [POST_TYPE_CAPS]: every entry used by the code names itself. *)
Definition cap_edit_posts : string := "edit_posts".
Definition cap_edit_others_posts : string := "edit_others_posts".
Definition cap_edit_private_posts : string := "edit_private_posts".
Definition cap_edit_published_posts : string := "edit_published_posts".

(* ================================================================= *)
(** * lib/validation/status.ts *)

(** A function that returns either a value or a [WpError]. *)
Definition result (A : Type) : Type := (A + WpError)%type.

Definition validateAndNormalizeStatus (postStatus : string) (user : AuthenticatedUser)
  : result string :=
  if String.eqb postStatus "draft" || String.eqb postStatus "pending" then
    inl postStatus
  else if String.eqb postStatus "private" then
    if negb (has_cap (allcaps user) "publish_posts") then
      inr (mkWpError "rest_cannot_publish"
             "Sorry, you are not allowed to create private posts in this post type."
             (if has_cap (allcaps user) "edit_posts" then 403 else 401))
    else inl postStatus
  else if String.eqb postStatus "publish" || String.eqb postStatus "future" then
    if negb (has_cap (allcaps user) "publish_posts") then
      inr (mkWpError "rest_cannot_publish"
             "Sorry, you are not allowed to publish posts in this post type."
             (if has_cap (allcaps user) "edit_posts" then 403 else 401))
    else inl postStatus
  else
    inl "draft".

(* ================================================================= *)
(** * lib/auth/capabilities.ts *)

Definition mapMetaCap (cap : string) (user : AuthenticatedUser) (post : WpPostRow)
  : list string :=
  if String.eqb cap "edit_post" then
    if post_author post =? id user then
      if String.eqb (post_status post) "publish"
         || String.eqb (post_status post) "future"
      then [cap_edit_published_posts]
      else if String.eqb (post_status post) "trash" then [cap_edit_posts]
      else [cap_edit_posts]
    else
      cap_edit_others_posts ::
      (if String.eqb (post_status post) "publish"
          || String.eqb (post_status post) "future"
       then [cap_edit_published_posts]
       else if String.eqb (post_status post) "private"
       then [cap_edit_private_posts]
       else [])
  else [cap].

Definition cap_is_true (m : capmap) (k : string) : bool :=
  match cap_get m k with Some true => true | _ => false end.

Definition userCan (user : AuthenticatedUser) (cap : string) (post : option WpPostRow)
  : bool :=
  let metaCaps := ["edit_post"; "delete_post"; "read_post"] in
  match post with
  | Some p =>
      if existsb (String.eqb cap) metaCaps
      then forallb (cap_is_true (allcaps user)) (mapMetaCap cap user p)
      else cap_is_true (allcaps user) cap
  | None => cap_is_true (allcaps user) cap
  end.

Definition checkIsPostTypeAllowed (postType : string) : bool :=
  existsb (String.eqb postType) ["post"; "page"; "attachment"].

Definition checkUpdatePermission (user : AuthenticatedUser) (post : WpPostRow) : bool :=
  if negb (checkIsPostTypeAllowed (post_type post)) then false
  else userCan user "edit_post" (Some post).

(* ================================================================= *)
(** * lib/validation/post-update-schema.ts *)

(** A title, content or excerpt: a bare string or an object with [raw]. *)
Inductive raw_field : Type :=
| Bare (s : string)
| WithRaw (raw : string).

(** [PostUpdateInput], the type zod infers from the schema. *)
Record PostUpdateInput : Type := mkBody {
  title : option raw_field;
  content : option raw_field;
  excerpt : option raw_field;
  b_status : option string;
  date : option (option string);
  date_gmt : option (option string);
  slug : option string;
  author : option Z;
  password : option string;
  featured_media : option Z;
  sticky : option bool;
  template : option string;
  format : option string;
  b_comment_status : option string;
  b_ping_status : option string;
  parent : option Z;
  b_menu_order : option Z;
  categories : option (list Z);
  tags : option (list Z);
  meta : option (list (string * json))
}.

Definition empty_body : PostUpdateInput :=
  mkBody None None None None None None None None None None
         None None None None None None None None None None.

Definition extractRawValue (field : option raw_field) : option string :=
  match field with
  | None => None
  | Some (Bare s) => Some s
  | Some (WithRaw r) => Some r
  end.

(** The first issue of a failed parse: its path and the kind of the issue. *)
Record ZodIssue : Type := mkIssue {
  issue_path : list string;
  issue_kind : string
}.

Definition zresult (A : Type) : Type := (A + ZodIssue)%type.

Fixpoint obj_get (kvs : list (string * json)) (k : string) : option json :=
  match kvs with
  | [] => None
  | (k', v) :: rest => if String.eqb k' k then Some v else obj_get rest k
  end.

(** The integer a JSON number denotes, if it denotes one. *)
Definition Q_int (q : Q) : option Z :=
  if Z.rem (Qnum q) (Zpos (Qden q)) =? 0
  then Some (Z.quot (Qnum q) (Zpos (Qden q))) else None.

(** [.optional()]: a missing key is accepted as [undefined]. *)
Definition z_optional {A} (p : list string -> json -> zresult A)
    (obj : list (string * json)) (k : string) : zresult (option A) :=
  match obj_get obj k with
  | None => inl None
  | Some v => match p [k] v with
              | inl a => inl (Some a)
              | inr e => inr e
              end
  end.

Definition z_string (path : list string) (v : json) : zresult string :=
  match v with
  | JStr s => inl s
  | _ => inr (mkIssue path "invalid_type")
  end.

(** [z.string().nullable()]. *)
Definition z_string_nullable (path : list string) (v : json) : zresult (option string) :=
  match v with
  | JNull => inl None
  | JStr s => inl (Some s)
  | _ => inr (mkIssue path "invalid_type")
  end.

Definition z_boolean (path : list string) (v : json) : zresult bool :=
  match v with
  | JBool b => inl b
  | _ => inr (mkIssue path "invalid_type")
  end.

(** [z.enum([...])]. *)
Definition z_enum (values : list string) (path : list string) (v : json) : zresult string :=
  match v with
  | JStr s => if existsb (String.eqb s) values then inl s
              else inr (mkIssue path "invalid_enum_value")
  | _ => inr (mkIssue path "invalid_type")
  end.

(** [z.number().int()] followed by an optional lower bound: [.positive()]
    is the strict bound 0, [.min(0)] the bound 0 itself. *)
Inductive num_bound : Type := NoBound | Positive | Min0.

Definition z_int (bound : num_bound) (path : list string) (v : json) : zresult Z :=
  match v with
  | JNum q =>
      match Q_int q with
      | None => inr (mkIssue path "invalid_type")
      | Some n =>
          match bound with
          | NoBound => inl n
          | Positive => if 0 <? n then inl n else inr (mkIssue path "too_small")
          | Min0 => if 0 <=? n then inl n else inr (mkIssue path "too_small")
          end
      end
  | _ => inr (mkIssue path "invalid_type")
  end.

(** [z.union([z.string(), z.object({ raw: z.string() })])]: the inner
    object is not strict, other keys of it are dropped. *)
Definition z_raw_field (path : list string) (v : json) : zresult raw_field :=
  match v with
  | JStr s => inl (Bare s)
  | JObj kvs => match obj_get kvs "raw" with
                | Some (JStr r) => inl (WithRaw r)
                | _ => inr (mkIssue path "invalid_union")
                end
  | _ => inr (mkIssue path "invalid_union")
  end.

Fixpoint z_array_items (path : list string) (i : Z) (xs : list json) : zresult (list Z) :=
  match xs with
  | [] => inl []
  | x :: rest =>
      match z_int Positive (path ++ [Z_to_string i]) x with
      | inr e => inr e
      | inl n => match z_array_items path (i + 1) rest with
                 | inr e => inr e
                 | inl ns => inl (n :: ns)
                 end
      end
  end.

(** [z.array(z.number().int().positive())]. *)
Definition z_id_array (path : list string) (v : json) : zresult (list Z) :=
  match v with
  | JArr xs => z_array_items path 0 xs
  | _ => inr (mkIssue path "invalid_type")
  end.

(** [z.record(z.unknown())]: the entries are copied into a new object, on
    which a key [__proto__] is no own property, so that entry is dropped. *)
Definition z_record (path : list string) (v : json) : zresult (list (string * json)) :=
  match v with
  | JObj kvs => inl (filter (fun kv => negb (String.eqb (fst kv) "__proto__")) kvs)
  | _ => inr (mkIssue path "invalid_type")
  end.

Definition status_enum : list string :=
  ["publish"; "future"; "draft"; "pending"; "private"; "trash"].

Definition format_enum : list string :=
  ["standard"; "aside"; "chat"; "gallery"; "link"; "image"; "quote";
   "status"; "video"; "audio"].

Definition schema_keys : list string :=
  ["title"; "content"; "excerpt"; "status"; "date"; "date_gmt"; "slug";
   "author"; "password"; "featured_media"; "sticky"; "template"; "format";
   "comment_status"; "ping_status"; "parent"; "menu_order"; "categories";
   "tags"; "meta"].

Notation "'zdo' x <- e ; k" :=
  (match e with inl x => k | inr err => inr err end)
  (at level 10, x name, e at level 100, k at level 200).

(** [postUpdateSchema.safeParse(rawBody)]: the keys of the shape are
    checked in their order, then [.strict()] rejects any other key. *)
Definition postUpdateSchema (rawBody : json) : zresult PostUpdateInput :=
  match rawBody with
  | JObj o =>
      zdo f_title <- z_optional z_raw_field o "title";
      zdo f_content <- z_optional z_raw_field o "content";
      zdo f_excerpt <- z_optional z_raw_field o "excerpt";
      zdo f_status <- z_optional (z_enum status_enum) o "status";
      zdo f_date <- z_optional z_string_nullable o "date";
      zdo f_date_gmt <- z_optional z_string_nullable o "date_gmt";
      zdo f_slug <- z_optional z_string o "slug";
      zdo f_author <- z_optional (z_int Positive) o "author";
      zdo f_password <- z_optional z_string o "password";
      zdo f_featured_media <- z_optional (z_int Min0) o "featured_media";
      zdo f_sticky <- z_optional z_boolean o "sticky";
      zdo f_template <- z_optional z_string o "template";
      zdo f_format <- z_optional (z_enum format_enum) o "format";
      zdo f_comment_status <- z_optional (z_enum ["open"; "closed"]) o "comment_status";
      zdo f_ping_status <- z_optional (z_enum ["open"; "closed"]) o "ping_status";
      zdo f_parent <- z_optional (z_int Min0) o "parent";
      zdo f_menu_order <- z_optional (z_int NoBound) o "menu_order";
      zdo f_categories <- z_optional z_id_array o "categories";
      zdo f_tags <- z_optional z_id_array o "tags";
      zdo f_meta <- z_optional z_record o "meta";
      if forallb (fun kv => existsb (String.eqb (fst kv)) schema_keys) o
      then inl (mkBody f_title f_content f_excerpt f_status f_date f_date_gmt
                  f_slug f_author f_password f_featured_media f_sticky
                  f_template f_format f_comment_status f_ping_status f_parent
                  f_menu_order f_categories f_tags f_meta)
      else inr (mkIssue [] "unrecognized_keys")
  | _ => inr (mkIssue [] "invalid_type")
  end.

(* ================================================================= *)
(** * lib/validation/date.ts *)

Definition ZERO_DATE : string := "0000-00-00 00:00:00".

(** A [Date]: its time value in milliseconds, [None] for an invalid date. *)
Definition JsDate : Type := option Z.

Definition Qtrunc (q : Q) : Z := Z.quot (Qnum q) (Zpos (Qden q)).

(** [new Date(t)] for a number [t]: [TimeClip] truncates to an integer and
    rejects what lies outside the range of time values. *)
Definition TimeClip (t : option Q) : JsDate :=
  match t with
  | None => None
  | Some q =>
      let n := Qtrunc q in
      if Z.abs n <=? 8640000000000000 then Some n else None
  end.

Definition ms_per_hour : Q := inject_Z (60 * 60 * 1000).

(** [new Date(d.getTime() + sign * gmtOffset * 60 * 60 * 1000)]. *)
Definition shift_hours (d : JsDate) (sign : Z) (gmtOffset : option Q) : JsDate :=
  match d, gmtOffset with
  | Some t, Some o =>
      TimeClip (Some (inject_Z t + inject_Z sign * (o * ms_per_hour))%Q)
  | _, _ => None
  end.

(** The UTC calendar fields of a time value: (year, month from 1, day,
    hours, minutes, seconds), as the [getUTC...] accessors give them. *)
Definition utc_fields (t : Z) : Z * Z * Z * Z * Z * Z :=
  let days := t / 86400000 in
  let ms := t mod 86400000 in
  let z := days + 719468 in
  let era := z / 146097 in
  let doe := z - era * 146097 in
  let yoe := (doe - doe / 1460 + doe / 36524 - doe / 146096) / 365 in
  let doy := doe - (365 * yoe + yoe / 4 - yoe / 100) in
  let mp := (5 * doy + 2) / 153 in
  let d := doy - (153 * mp + 2) / 5 + 1 in
  let m := if mp <? 10 then mp + 3 else mp - 9 in
  let y := yoe + era * 400 + (if m <=? 2 then 1 else 0) in
  (y, m, d, ms / 3600000, (ms / 60000) mod 60, (ms / 1000) mod 60).

Definition NaN_string : string := "NaN".

(** The six fields printed as the template literals print them; an invalid
    date prints [NaN] in every field. *)
Definition date_strings (date : JsDate)
  : string * string * string * string * string * string :=
  match date with
  | None => (NaN_string, NaN_string, NaN_string, NaN_string, NaN_string, NaN_string)
  | Some t =>
      let '(y, m, d, h, mi, s) := utc_fields t in
      (Z_to_string y, padStart2 (Z_to_string m), padStart2 (Z_to_string d),
       padStart2 (Z_to_string h), padStart2 (Z_to_string mi), padStart2 (Z_to_string s))
  end.

Definition formatMysqlDatetime (date : JsDate) : string :=
  let '(year, month, day, hours, minutes, seconds) := date_strings date in
  (year ++ "-" ++ month ++ "-" ++ day ++ " " ++ hours ++ ":" ++ minutes ++ ":" ++ seconds)%string.

Section Dates.
Context {rt : Runtime}.

(** Returns [(localDatetime, utcDatetime)], or [None] for [null]. *)
Definition restGetDateWithGmt (dateString : string) (isUtc : bool)
    (gmtOffset : option Q) : option (string * string) :=
  match Date_parse dateString with
  | None => None
  | Some t =>
      let parsed : JsDate := Some t in
      if isUtc then
        let utcDatetime := formatMysqlDatetime parsed in
        let localDate := shift_hours parsed 1 gmtOffset in
        let localDatetime := formatMysqlDatetime localDate in
        Some (localDatetime, utcDatetime)
      else
        let localDatetime := formatMysqlDatetime parsed in
        let utcDate := shift_hours parsed (-1) gmtOffset in
        let utcDatetime := formatMysqlDatetime utcDate in
        Some (localDatetime, utcDatetime)
  end.

(** [gmtOffsetStr ? parseFloat(gmtOffsetStr) : 0]. *)
Definition gmtOffset_of (gmtOffsetStr : option string) : option Q :=
  match gmtOffsetStr with
  | Some s => if truthy s then parseFloat s else Some (inject_Z 0)
  | None => Some (inject_Z 0)
  end.
End Dates.

(** Returns [None] for [null]. *)
Definition mysqlToRfc3339 (datetime : string) : option string :=
  if negb (truthy datetime) || String.eqb datetime ZERO_DATE then None
  else Some (replace_first_space_T datetime).

(* ================================================================= *)
(** * The database behind a connection *)

Record MetaRow : Type := mkMeta {
  meta_id : Z;
  m_post_id : Z;
  meta_key : string;
  meta_value : string
}.

Record TermRow : Type := mkTerm {
  term_id : Z;
  t_name : string;
  t_slug : string
}.

Record TermTaxonomyRow : Type := mkTT {
  term_taxonomy_id : Z;
  tt_term_id : Z;
  taxonomy : string;
  tt_description : string;
  tt_parent : Z;
  tt_count : Z
}.

Record RelRow : Type := mkRel {
  object_id : Z;
  r_term_taxonomy_id : Z;
  term_order : Z
}.

Record WpUserRow : Type := mkUserRow {
  u_ID : Z;
  user_login : string;
  user_pass : string;
  user_nicename : string;
  user_email : string;
  user_url : string;
  user_registered : string;
  user_activation_key : string;
  user_status : Z;
  display_name : string
}.

Record AppPassword : Type := mkAppPassword {
  uuid : string;
  ap_name : string;
  ap_password : string
}.

Record RoleDef : Type := mkRole {
  role_name : string;
  role_capabilities : option capmap
}.

(** The value of the [sticky_posts] option as [unserialize] hands it to
    [getStickyPosts]. The PHP serialisation is a codec at the boundary of the
    store; the option is kept decoded, every element by its image under
    [Number] ([None] for [NaN]). *)
Inductive StickyOption : Type :=
| StickyMissing                       (* no row, or an empty value *)
| StickyArray (ns : list (option Z))  (* a JavaScript array *)
| StickyObject (ns : list (option Z)) (* an object, by [Object.values] *)
| StickyScalar                        (* any other value *)
| StickyMalformed.                    (* [unserialize] throws *)

(** The tables the post-update flow reads and writes. The serialised blobs
    of [usermeta] and of the role option are kept decoded as well. *)
Record Db : Type := mkDb {
  posts : list WpPostRow;
  postmeta : list MetaRow;
  terms : list TermRow;
  term_taxonomy : list TermTaxonomyRow;
  term_relationships : list RelRow;
  options : list (string * string);
  sticky_posts : StickyOption;
  users : list WpUserRow;
  user_capabilities : list (Z * capmap);
  user_roles : list (string * RoleDef);
  application_passwords : list (Z * list AppPassword)
}.

Definition set_posts (db : Db) (ps : list WpPostRow) : Db :=
  mkDb ps (postmeta db) (terms db) (term_taxonomy db) (term_relationships db)
       (options db) (sticky_posts db) (users db) (user_capabilities db)
       (user_roles db) (application_passwords db).

Definition set_postmeta (db : Db) (ms : list MetaRow) : Db :=
  mkDb (posts db) ms (terms db) (term_taxonomy db) (term_relationships db)
       (options db) (sticky_posts db) (users db) (user_capabilities db)
       (user_roles db) (application_passwords db).

Definition set_term_taxonomy (db : Db) (tts : list TermTaxonomyRow) : Db :=
  mkDb (posts db) (postmeta db) (terms db) tts (term_relationships db)
       (options db) (sticky_posts db) (users db) (user_capabilities db)
       (user_roles db) (application_passwords db).

Definition set_term_relationships (db : Db) (rs : list RelRow) : Db :=
  mkDb (posts db) (postmeta db) (terms db) (term_taxonomy db) rs
       (options db) (sticky_posts db) (users db) (user_capabilities db)
       (user_roles db) (application_passwords db).

Definition set_sticky_posts (db : Db) (s : StickyOption) : Db :=
  mkDb (posts db) (postmeta db) (terms db) (term_taxonomy db) (term_relationships db)
       (options db) s (users db) (user_capabilities db)
       (user_roles db) (application_passwords db).

(* ================================================================= *)
(** * lib/db/queries/options.ts *)

Fixpoint assoc {A} (l : list (string * A)) (k : string) : option A :=
  match l with
  | [] => None
  | (k', v) :: rest => if String.eqb k' k then Some v else assoc rest k
  end.

Fixpoint assocZ {A} (l : list (Z * A)) (k : Z) : option A :=
  match l with
  | [] => None
  | (k', v) :: rest => if k' =? k then Some v else assocZ rest k
  end.

(** For every option except [sticky_posts], which [getStickyPosts] reads. *)
Definition getOption (db : Db) (name : string) : option string :=
  assoc (options db) name.

(** [.filter((n) => !isNaN(n) && n > 0)] after [.map(Number)]. *)
Fixpoint positive_numbers (ns : list (option Z)) : list Z :=
  match ns with
  | [] => []
  | Some n :: rest => if 0 <? n then n :: positive_numbers rest else positive_numbers rest
  | None :: rest => positive_numbers rest
  end.

Definition getStickyPosts (db : Db) : list Z :=
  match sticky_posts db with
  | StickyMissing => []
  | StickyArray ns => positive_numbers ns
  | StickyObject ns => positive_numbers ns
  | StickyScalar => []
  | StickyMalformed => []
  end.

(** [serialize(postIds)] writes a PHP array, read back as an array. *)
Definition setStickyPosts (db : Db) (postIds : list Z) : Db :=
  set_sticky_posts db (StickyArray (map Some postIds)).

(** [xs.includes(x)]. *)
Definition includes (xs : list Z) (x : Z) : bool := existsb (Z.eqb x) xs.

Definition isSticky (db : Db) (postId : Z) : bool :=
  includes (getStickyPosts db) postId.

(* ================================================================= *)
(** * lib/db/queries/postmeta.ts *)

Definition meta_matches (postId : Z) (metaKey : string) (r : MetaRow) : bool :=
  (m_post_id r =? postId) && String.eqb (meta_key r) metaKey.

Definition getPostMeta (db : Db) (postId : Z) (metaKey : string) : option string :=
  option_map meta_value (find (meta_matches postId metaKey) (postmeta db)).

(** The property names a plain object inherits from [Object.prototype]
    (Node.js): [k in {}] is true of each of them. *)
Definition Object_prototype_keys : list string :=
  ["constructor"; "__defineGetter__"; "__defineSetter__"; "hasOwnProperty";
   "__lookupGetter__"; "__lookupSetter__"; "isPrototypeOf";
   "propertyIsEnumerable"; "toString"; "valueOf"; "__proto__"; "toLocaleString"].

(** [k in meta] for the plain object [meta] whose own entries are [acc]: an
    own key or an inherited one. *)
Definition key_in (acc : list (string * string)) (k : string) : bool :=
  match assoc acc k with
  | Some _ => true
  | None => existsb (String.eqb k) Object_prototype_keys
  end.

(** [if (!(row.meta_key in meta)) meta[row.meta_key] = row.meta_value] over
    the rows: the first row of a key is kept, and a key named like a member of
    [Object.prototype] is never copied. *)
Fixpoint getAllPostMeta_rows (rows : list MetaRow) (acc : list (string * string))
  : list (string * string) :=
  match rows with
  | [] => acc
  | r :: rest =>
      getAllPostMeta_rows rest
        (if key_in acc (meta_key r) then acc
         else acc ++ [(meta_key r, meta_value r)])
  end.

Definition getAllPostMeta (db : Db) (postId : Z) : list (string * string) :=
  getAllPostMeta_rows (filter (fun r => m_post_id r =? postId) (postmeta db)) [].

(** The key the server gives to an inserted row: above every key in use. *)
Definition next_meta_id (rows : list MetaRow) : Z :=
  1 + fold_right (fun r acc => Z.max (meta_id r) acc) 0 rows.

Definition updatePostMeta (db : Db) (postId : Z) (metaKey metaValue : string) : Db :=
  match find (meta_matches postId metaKey) (postmeta db) with
  | Some existing =>
      set_postmeta db
        (map (fun r => if meta_id r =? meta_id existing
                       then mkMeta (meta_id r) (m_post_id r) (meta_key r) metaValue
                       else r)
             (postmeta db))
  | None =>
      set_postmeta db
        (postmeta db ++ [mkMeta (next_meta_id (postmeta db)) postId metaKey metaValue])
  end.

Definition deletePostMeta (db : Db) (postId : Z) (metaKey : string) : Db :=
  set_postmeta db (filter (fun r => negb (meta_matches postId metaKey r)) (postmeta db)).

(* ================================================================= *)
(** * lib/db/queries/users.ts *)

Definition getUserByLogin (db : Db) (login : string) : option WpUserRow :=
  find (fun u => String.eqb (user_login u) login) (users db).

Definition userExists (db : Db) (userId : Z) : bool :=
  existsb (fun u => u_ID u =? userId) (users db).

Definition getUserCapabilities (db : Db) (userId : Z) : capmap :=
  match assocZ (user_capabilities db) userId with
  | Some caps => caps
  | None => []
  end.

Definition getRoleDefinitions (db : Db) : list (string * RoleDef) := user_roles db.

Definition getApplicationPasswords (db : Db) (userId : Z) : list AppPassword :=
  match assocZ (application_passwords db) userId with
  | Some l => l
  | None => []
  end.

(* ================================================================= *)
(** * lib/db/queries/posts.ts *)

Definition getPostById (db : Db) (id : Z) : option WpPostRow :=
  find (fun p => ID p =? id) (posts db).

Definition or_old {A} (new : option A) (old : A) : A :=
  match new with Some v => v | None => old end.

Section Posts.
Context {rt : Runtime}.

(** The [SET] clause applied to one row: each column of [fieldMap] that
    the data defines, then the two modification timestamps. *)
Definition apply_update (data : WpPostUpdateData) (p : WpPostRow) : WpPostRow :=
  mkPost (ID p)
    (or_old (d_post_author data) (post_author p))
    (or_old (d_post_date data) (post_date p))
    (or_old (d_post_date_gmt data) (post_date_gmt p))
    (or_old (d_post_content data) (post_content p))
    (or_old (d_post_title data) (post_title p))
    (or_old (d_post_excerpt data) (post_excerpt p))
    (or_old (d_post_status data) (post_status p))
    (or_old (d_comment_status data) (comment_status p))
    (or_old (d_ping_status data) (ping_status p))
    (or_old (d_post_password data) (post_password p))
    (or_old (d_post_name data) (post_name p))
    (to_ping p) (pinged p)
    NOW UTC_TIMESTAMP
    (post_content_filtered p)
    (or_old (d_post_parent data) (post_parent p))
    (guid p)
    (or_old (d_menu_order data) (menu_order p))
    (post_type p) (post_mime_type p) (comment_count p).

(** [UPDATE posts SET ... WHERE ID = ?]; the result is
    [affectedRows > 0], the rows the statement matched. *)
Definition updatePost (db : Db) (id : Z) (data : WpPostUpdateData) : bool * Db :=
  let affectedRows :=
    Z.of_nat (List.length (filter (fun p => ID p =? id) (posts db))) in
  (0 <? affectedRows,
   set_posts db (map (fun p => if ID p =? id then apply_update data p else p)
                     (posts db))).
End Posts.

Definition checkSlugExists (db : Db) (slug postType : string)
    (excludePostId postParent : Z) : bool :=
  existsb (fun p => String.eqb (post_name p) slug
                    && String.eqb (post_type p) postType
                    && negb (ID p =? excludePostId)
                    && (post_parent p =? postParent))
          (posts db).

Definition isValidAttachment (db : Db) (attachmentId : Z) : bool :=
  existsb (fun p => (ID p =? attachmentId) && String.eqb (post_type p) "attachment")
          (posts db).

(* ================================================================= *)
(** * lib/db/queries/terms.ts *)

Record WpTerm : Type := mkWpTerm {
  wt_term_id : Z;
  wt_name : string;
  wt_slug : string;
  wt_taxonomy : string;
  wt_description : string;
  wt_parent : Z;
  wt_count : Z
}.

(** The three-table join, rows in the order of [terms], then
    [term_taxonomy], then [term_relationships]. *)
Definition getObjectTerms (db : Db) (objectId : Z) (tax : string) : list WpTerm :=
  flat_map (fun t =>
    flat_map (fun tt =>
      if (term_id t =? tt_term_id tt) && String.eqb (taxonomy tt) tax then
        flat_map (fun tr =>
          if (term_taxonomy_id tt =? r_term_taxonomy_id tr)
             && (object_id tr =? objectId)
          then [mkWpTerm (term_id t) (t_name t) (t_slug t) (taxonomy tt)
                         (tt_description tt) (tt_parent tt) (tt_count tt)]
          else [])
          (term_relationships db)
      else [])
      (term_taxonomy db))
    (terms db).

(** [currentRelations]: the pairs (term_taxonomy_id, term_id). *)
Definition currentRelations (db : Db) (objectId : Z) (tax : string) : list (Z * Z) :=
  flat_map (fun tr =>
    if object_id tr =? objectId then
      flat_map (fun tt =>
        if (r_term_taxonomy_id tr =? term_taxonomy_id tt) && String.eqb (taxonomy tt) tax
        then [(r_term_taxonomy_id tr, tt_term_id tt)] else [])
        (term_taxonomy db)
    else [])
    (term_relationships db).

Definition with_count (tt : TermTaxonomyRow) (c : Z) : TermTaxonomyRow :=
  mkTT (term_taxonomy_id tt) (tt_term_id tt) (taxonomy tt) (tt_description tt)
       (tt_parent tt) c.

(** One turn of the loop over [termIds]. *)
Definition insert_relationship (db : Db) (objectId : Z) (tax : string) (termId : Z) : Db :=
  match find (fun tt => (tt_term_id tt =? termId) && String.eqb (taxonomy tt) tax)
             (term_taxonomy db) with
  | None => db
  | Some row =>
      let ttId := term_taxonomy_id row in
      let rels := term_relationships db in
      let rels' :=
        if existsb (fun tr => (object_id tr =? objectId)
                              && (r_term_taxonomy_id tr =? ttId)) rels
        then rels else rels ++ [mkRel objectId ttId 0] in
      let db1 := set_term_relationships db rels' in
      set_term_taxonomy db1
        (map (fun tt => if term_taxonomy_id tt =? ttId
                        then with_count tt (tt_count tt + 1) else tt)
             (term_taxonomy db1))
  end.

Definition setObjectTerms (db : Db) (objectId : Z) (termIds : list Z) (tax : string) : Db :=
  let currentTtIds := map fst (currentRelations db objectId tax) in
  let db1 :=
    match currentTtIds with
    | [] => db
    | _ =>
        let db' :=
          set_term_relationships db
            (filter (fun tr => negb ((object_id tr =? objectId)
                                     && includes currentTtIds (r_term_taxonomy_id tr)))
                    (term_relationships db)) in
        set_term_taxonomy db'
          (map (fun tt => if includes currentTtIds (term_taxonomy_id tt)
                          then with_count tt (Z.max (tt_count tt - 1) 0) else tt)
               (term_taxonomy db'))
    end in
  fold_left (fun d termId => insert_relationship d objectId tax termId) termIds db1.

Definition termExists (db : Db) (termId : Z) (tax : string) : bool :=
  existsb (fun t =>
    (term_id t =? termId)
    && existsb (fun tt => (term_id t =? tt_term_id tt) && String.eqb (taxonomy tt) tax)
               (term_taxonomy db))
    (terms db).

(** Returns [None] for [null]. *)
Definition getPostFormatTermId (db : Db) (formatSlug : string) : option Z :=
  let termSlug := ("post-format-" ++ formatSlug)%string in
  option_map term_id
    (find (fun t =>
       String.eqb (t_slug t) termSlug
       && existsb (fun tt => (term_id t =? tt_term_id tt)
                             && String.eqb (taxonomy tt) "post_format")
                  (term_taxonomy db))
       (terms db)).

(* ================================================================= *)
(** * lib/auth/authenticate.ts *)

Definition resolveUserCapabilities (db : Db) (userId : Z) (login email : string)
  : AuthenticatedUser :=
  let userCaps := getUserCapabilities db userId in
  let roles := map fst (filter (fun kv => snd kv) userCaps) in
  let roleDefinitions := getRoleDefinitions db in
  let allcaps :=
    fold_left (fun acc role =>
      match assoc roleDefinitions role with
      | Some roleDef =>
          match role_capabilities roleDef with
          | Some caps =>
              fold_left (fun acc' kv =>
                           if snd kv : bool then cap_set_true acc' (fst kv) else acc')
                        caps acc
          | None => acc
          end
      | None => acc
      end) roles [] in
  mkUser userId login email roles userCaps allcaps.

Section Authenticate.
Context {rt : Runtime}.

(** Returns [None] for [null]. *)
Definition authenticateRequest (authHeader : option string) (db : Db)
  : option AuthenticatedUser :=
  match authHeader with
  | None => None
  | Some header =>
      if negb (truthy header) || negb (startsWith "Basic " header) then None
      else
        let base64Credentials := slice_from 6 header in
        let decoded := base64_decode base64Credentials in
        match split_colon decoded with
        | None => None
        | Some (username, rest) =>
            let password := strip_spaces rest in
            if negb (truthy username) || negb (truthy password) then None
            else
              match getUserByLogin db username with
              | None => None
              | Some user =>
                  let appPasswords := getApplicationPasswords db (u_ID user) in
                  let matched :=
                    existsb (fun ap => bcrypt_compare password (ap_password ap))
                            appPasswords in
                  if negb matched then None
                  else Some (resolveUserCapabilities db (u_ID user)
                               (user_login user) (user_email user))
              end
        end
  end.
End Authenticate.

(* ================================================================= *)
(** * lib/services/post-response.service.ts *)

Record WpPostResponse : Type := mkPostResponse {
  r_id : Z;
  r_date : option string;
  r_date_gmt : option string;
  r_guid_rendered : string;
  r_guid_raw : string;
  r_modified : string;
  r_modified_gmt : string;
  r_slug : string;
  r_status : string;
  r_type : string;
  r_link : string;
  r_title_raw : string;
  r_title_rendered : string;
  r_content_raw : string;
  r_content_rendered : string;
  r_content_protected : bool;
  r_content_block_version : Z;
  r_excerpt_raw : string;
  r_excerpt_rendered : string;
  r_excerpt_protected : bool;
  r_author : Z;
  r_featured_media : option Z;
  r_comment_status : string;
  r_ping_status : string;
  r_sticky : bool;
  r_template : string;
  r_format : string;
  r_meta : list (string * string);
  r_categories : list Z;
  r_tags : list Z;
  r_password : option string;
  r_permalink_template : option string;
  r_generated_slug : option string
}.

Section Response.
Context {rt : Runtime}.

Definition prepareDateGmt (dateGmt dateLocal : string) (gmtOffset : option Q)
  : option string :=
  if String.eqb dateGmt ZERO_DATE then
    match Date_parse (replace_first_space_T dateLocal) with
    | None => None
    | Some t =>
        let utc := shift_hours (Some t) (-1) gmtOffset in
        let '(y, m, d, h, min, s) := date_strings utc in
        Some (y ++ "-" ++ m ++ "-" ++ d ++ "T" ++ h ++ ":" ++ min ++ ":" ++ s)%string
    end
  else mysqlToRfc3339 dateGmt.

Definition getPostFormat (db : Db) (postId : Z) : string :=
  match getObjectTerms db postId "post_format" with
  | t :: _ =>
      let slug := wt_slug t in
      if startsWith "post-format-" slug then slice_from 12 slug else slug
  | [] => "standard"
  end.

Definition buildPermalink (siteUrl : string) (post : WpPostRow) : string :=
  let baseUrl := strip_trailing_slash siteUrl in
  if String.eqb (post_status post) "publish" && truthy (post_name post) then
    let year := slice 0 4 (post_date post) in
    let month := slice 5 7 (post_date post) in
    let day := slice 8 10 (post_date post) in
    (baseUrl ++ "/" ++ year ++ "/" ++ month ++ "/" ++ day ++ "/"
       ++ post_name post ++ "/")%string
  else (baseUrl ++ "/?p=" ++ Z_to_string (ID post))%string.

Definition buildPermalinkTemplate (siteUrl : string) (post : WpPostRow) : string :=
  let baseUrl := strip_trailing_slash siteUrl in
  let year := slice 0 4 (post_date post) in
  let month := slice 5 7 (post_date post) in
  let day := slice 8 10 (post_date post) in
  (baseUrl ++ "/" ++ year ++ "/" ++ month ++ "/" ++ day ++ "/%postname%/")%string.

(** The pattern of [countBlockVersion] matched at the head of [s]. *)
Definition block_delimiter_here (s : string) : bool :=
  startsWith "<!--" s
  && match slice_from 4 s with
     | String c rest => is_space c && startsWith "wp:" (skip_spaces rest)
     | EmptyString => false
     end.

Fixpoint has_block_delimiter (s : string) : bool :=
  block_delimiter_here s
  || match s with
     | String _ s' => has_block_delimiter s'
     | EmptyString => false
     end.

Definition countBlockVersion (content : string) : Z :=
  if has_block_delimiter content then 1 else 0.

Definition buildPostResponse (db : Db) (post : WpPostRow) (context siteUrl : string)
    (gmtOffset : option Q) : WpPostResponse :=
  let date := mysqlToRfc3339 (post_date post) in
  let dateGmt := prepareDateGmt (post_date_gmt post) (post_date post) gmtOffset in
  let modified := mysqlToRfc3339 (post_modified post) in
  let modifiedGmt :=
    prepareDateGmt (post_modified_gmt post) (post_modified post) gmtOffset in
  let thumbnailId := getPostMeta db (ID post) "_thumbnail_id" in
  let featuredMedia :=
    match thumbnailId with
    | Some s => if truthy s then parseInt10 s else Some 0
    | None => Some 0
    end in
  let template :=
    match getPostMeta db (ID post) "_wp_page_template" with
    | Some s => s
    | None => EmptyString
    end in
  let sticky := isSticky db (ID post) in
  let format := getPostFormat db (ID post) in
  let categoryTerms := getObjectTerms db (ID post) "category" in
  let tagTerms := getObjectTerms db (ID post) "post_tag" in
  let categories := map wt_term_id categoryTerms in
  let tags := map wt_term_id tagTerms in
  let allMeta := getAllPostMeta db (ID post) in
  let publicMeta := filter (fun kv => negb (startsWith "_" (fst kv))) allMeta in
  let link := buildPermalink siteUrl post in
  let blockVersion := countBlockVersion (post_content post) in
  let isProtected := truthy (post_password post) in
  let edit := String.eqb context "edit" in
  mkPostResponse (ID post) date dateGmt (guid post) (guid post)
    (match modified with Some s => s | None => EmptyString end)
    (match modifiedGmt with Some s => s | None => EmptyString end)
    (post_name post) (post_status post) (post_type post) link
    (post_title post) (post_title post)
    (post_content post) (if isProtected then EmptyString else post_content post)
    isProtected blockVersion
    (post_excerpt post) (if isProtected then EmptyString else post_excerpt post)
    isProtected
    (post_author post) featuredMedia (comment_status post) (ping_status post)
    sticky template format publicMeta categories tags
    (if edit then Some (post_password post) else None)
    (if edit then Some (buildPermalinkTemplate siteUrl post) else None)
    (if edit then Some (post_name post) else None).
End Response.

(* ================================================================= *)
(** * lib/validation/slug.ts *)

(** The loop of [uniquePostSlug], [fuel] bounding the number of tests of
    its condition; [None] when the bound is reached. *)
Fixpoint uniquePostSlug_loop (fuel : nat) (db : Db) (desiredSlug : string)
    (postId : Z) (postType : string) (postParent : Z)
    (slug : string) (suffix : Z) : option string :=
  match fuel with
  | O => None
  | S fuel' =>
      if checkSlugExists db slug postType postId postParent
      then uniquePostSlug_loop fuel' db desiredSlug postId postType postParent
             (desiredSlug ++ "-" ++ Z_to_string suffix)%string (suffix + 1)
      else Some slug
  end.

(** As many tests as there are rows, and two more, always suffice
    ([uniquePostSlug_loop_returns] below). *)
Definition uniquePostSlug (db : Db) (desiredSlug : string) (postId : Z)
    (postStatus postType : string) (postParent : Z) : string :=
  match uniquePostSlug_loop (2 + List.length (posts db)) db desiredSlug postId
          postType postParent desiredSlug 2 with
  | Some slug => slug
  | None => desiredSlug
  end.

(* ================================================================= *)
(** * lib/services/post-update.service.ts *)

Definition nonempty_list (l : option (list Z)) : bool :=
  match l with Some (_ :: _) => true | _ => false end.

Definition is_true (b : option bool) : bool :=
  match b with Some true => true | _ => false end.

(** The loop over [body.categories] only reads the store and keeps nothing
    of what it reads; it is left out. *)
Definition checkAssignTermsPermission (db : Db) (body : PostUpdateInput)
    (user : AuthenticatedUser) : bool :=
  if nonempty_list (categories body)
     && negb (has_cap (allcaps user) "assign_categories")
     && negb (has_cap (allcaps user) "manage_categories")
     && negb (has_cap (allcaps user) "edit_posts")
  then false
  else if nonempty_list (tags body)
     && negb (has_cap (allcaps user) "assign_post_tags")
     && negb (has_cap (allcaps user) "manage_post_tags")
     && negb (has_cap (allcaps user) "edit_posts")
  then false
  else true.

(** Returns [None] for [null]. *)
Definition checkPermissions (db : Db) (post : WpPostRow) (body : PostUpdateInput)
    (user : AuthenticatedUser) : option WpError :=
  if negb (checkUpdatePermission user post) then
    Some (mkWpError "rest_cannot_edit"
            "Sorry, you are not allowed to edit this post." 403)
  else if match author body with
          | Some a => negb (a =? id user)
                      && negb (has_cap (allcaps user) "edit_others_posts")
          | None => false
          end then
    Some (mkWpError "rest_cannot_edit_others"
            "Sorry, you are not allowed to update posts as this user." 403)
  else if is_true (sticky body)
          && negb (has_cap (allcaps user) "edit_others_posts")
          && negb (has_cap (allcaps user) "publish_posts") then
    Some (mkWpError "rest_cannot_assign_sticky"
            "Sorry, you are not allowed to make posts sticky." 403)
  else if negb (checkAssignTermsPermission db body user) then
    Some (mkWpError "rest_cannot_assign_term"
            "Sorry, you are not allowed to assign the provided terms." 403)
  else None.

Notation "'try' x <- e ; k" :=
  (match e with inl x => k | inr err => inr err end)
  (at level 10, x name, e at level 100, k at level 200).

Section Prepare.
Context {rt : Runtime}.

(** The [post_status] column of the update set. *)
Definition prepare_status (body : PostUpdateInput) (existingPost : WpPostRow)
    (user : AuthenticatedUser) : result (option string) :=
  match b_status body with
  | Some st =>
      if negb (String.eqb st (post_status existingPost)) then
        try statusResult <- validateAndNormalizeStatus st user;
        inl (Some statusResult)
      else inl None
  | None => inl None
  end.

(** The [post_date] and [post_date_gmt] columns of the update set. *)
Definition prepare_dates (body : PostUpdateInput) (gmtOffset : option Q)
  : option string * option string :=
  match date body with
  | Some None => (Some ZERO_DATE, Some ZERO_DATE)
  | Some (Some d) =>
      match restGetDateWithGmt d false gmtOffset with
      | Some dateData => (Some (fst dateData), Some (snd dateData))
      | None => (None, None)
      end
  | None =>
      match date_gmt body with
      | Some None => (Some ZERO_DATE, Some ZERO_DATE)
      | Some (Some d) =>
          match restGetDateWithGmt d true gmtOffset with
          | Some dateData => (Some (fst dateData), Some (snd dateData))
          | None => (None, None)
          end
      | None => (None, None)
      end
  end.

(** The [post_author] column of the update set. *)
Definition prepare_author (db : Db) (body : PostUpdateInput)
    (user : AuthenticatedUser) : result (option Z) :=
  match author body with
  | Some authorId =>
      if negb (authorId =? id user) && negb (userExists db authorId) then
        inr (mkWpError "rest_invalid_author" "Invalid author ID." 400)
      else inl (Some authorId)
  | None => inl None
  end.

(** The [post_password] column of the update set. *)
Definition prepare_password (db : Db) (body : PostUpdateInput)
    (existingPost : WpPostRow) : result (option string) :=
  match password body with
  | Some pw =>
      if negb (String.eqb pw EmptyString) then
        if is_true (sticky body) then
          inr (mkWpError "rest_invalid_field"
                 "A post can not be sticky and have a password." 400)
        else if isSticky db (ID existingPost) then
          inr (mkWpError "rest_invalid_field"
                 "A sticky post can not be password protected." 400)
        else inl (Some pw)
      else inl (Some pw)
  | None => inl None
  end.

(** Sticky against the password the post already has. *)
Definition check_sticky_existing_password (body : PostUpdateInput)
    (existingPost : WpPostRow) : result unit :=
  if is_true (sticky body) && truthy (post_password existingPost) then
    inr (mkWpError "rest_invalid_field"
           "A password protected post can not be set to sticky." 400)
  else inl tt.

(** The [post_parent] column of the update set. *)
Definition prepare_parent (db : Db) (body : PostUpdateInput) : result (option Z) :=
  match parent body with
  | Some p =>
      if p =? 0 then inl (Some 0)
      else match getPostById db p with
           | None => inr (mkWpError "rest_post_invalid_id"
                            "Invalid post parent ID." 400)
           | Some parentPost => inl (Some (ID parentPost))
           end
  | None => inl None
  end.

(** The blocks of the source run in its order; each either adds its
    column or returns its error. *)
Definition prepareItemForDatabase (db : Db) (body : PostUpdateInput)
    (existingPost : WpPostRow) (user : AuthenticatedUser)
  : result WpPostUpdateData :=
  let title := extractRawValue (title body) in
  let content := extractRawValue (content body) in
  let excerpt := extractRawValue (excerpt body) in
  try status <- prepare_status body existingPost user;
  let gmtOffsetStr := getOption db "gmt_offset" in
  let gmtOffset := gmtOffset_of gmtOffsetStr in
  let dates := prepare_dates body gmtOffset in
  let name := slug body in
  try author <- prepare_author db body user;
  try password <- prepare_password db body existingPost;
  try _u <- check_sticky_existing_password body existingPost;
  try parent <- prepare_parent db body;
  inl (mkUpdateData title content excerpt status (fst dates) (snd dates) name
         author password parent (b_menu_order body) (b_comment_status body)
         (b_ping_status body)).
End Prepare.

Definition with_post_name (data : WpPostUpdateData) (name : string) : WpPostUpdateData :=
  mkUpdateData (d_post_title data) (d_post_content data) (d_post_excerpt data)
    (d_post_status data) (d_post_date data) (d_post_date_gmt data) (Some name)
    (d_post_author data) (d_post_password data) (d_post_parent data)
    (d_menu_order data) (d_comment_status data) (d_ping_status data).

Definition handlePostFormat (db : Db) (postId : Z) (format : string) : Db :=
  if String.eqb format "standard" || String.eqb format EmptyString then
    setObjectTerms db postId [] "post_format"
  else
    match getPostFormatTermId db format with
    | Some termId =>
        if negb (termId =? 0) then setObjectTerms db postId [termId] "post_format"
        else db
    | None => db
    end.

Definition handleFeaturedMedia (db : Db) (featuredMedia postId : Z) : result unit * Db :=
  if 0 <? featuredMedia then
    if negb (isValidAttachment db featuredMedia) then
      (inr (mkWpError "rest_invalid_featured_media" "Invalid featured media ID." 400), db)
    else (inl tt, updatePostMeta db postId "_thumbnail_id" (Z_to_string featuredMedia))
  else (inl tt, deletePostMeta db postId "_thumbnail_id").

(** [xs.splice(xs.indexOf(x), 1)] when [x] is in [xs]. *)
Fixpoint remove_first (x : Z) (xs : list Z) : list Z :=
  match xs with
  | [] => []
  | y :: rest => if y =? x then rest else y :: remove_first x rest
  end.

Definition handleStickyStatus (db : Db) (postId : Z) (sticky : bool) : Db :=
  let stickyPosts := getStickyPosts db in
  if sticky then
    if negb (includes stickyPosts postId)
    then setStickyPosts db (stickyPosts ++ [postId])
    else db
  else
    if includes stickyPosts postId
    then setStickyPosts db (remove_first postId stickyPosts)
    else db.

Definition handleTerms (db : Db) (postId : Z) (body : PostUpdateInput) : Db :=
  let db1 := match categories body with
             | Some cs => setObjectTerms db postId cs "category"
             | None => db
             end in
  match tags body with
  | Some ts => setObjectTerms db1 postId ts "post_tag"
  | None => db1
  end.

(** [updateData.post_status || existingPost.post_status]. *)
Definition effectiveStatus (updateData : WpPostUpdateData) (existingPost : WpPostRow)
  : string :=
  if truthy_opt (d_post_status updateData)
  then or_old (d_post_status updateData) EmptyString else post_status existingPost.

(** Step 5: the slug made unique when the post is, or becomes, a draft or
    a pending post. *)
Definition slugForDraftOrPending (db : Db) (postId : Z) (existingPost : WpPostRow)
    (updateData : WpPostUpdateData) : WpPostUpdateData :=
  match d_post_name updateData with
  | Some name =>
      if truthy name
         && existsb (String.eqb (effectiveStatus updateData existingPost))
                    ["draft"; "pending"]
      then with_post_name updateData
             (uniquePostSlug db name postId "publish" (post_type existingPost)
                (or_old (d_post_parent updateData) (post_parent existingPost)))
      else updateData
  | None => updateData
  end.

Section Service.
Context {rt : Runtime}.

(** The loop over [Object.entries(body.meta)]. *)
Definition handleMeta (db : Db) (postId : Z) (entries : list (string * json)) : Db :=
  fold_left (fun d kv =>
               match snd kv with
               | JNull => d
               | v => updatePostMeta d postId (fst kv) (js_String v)
               end) entries db.

(** Step 7: the side effects, each on the store the previous one left;
    a failed featured-media check ends them. *)
Definition sideEffects (db1 : Db) (postId : Z) (body : PostUpdateInput)
  : result unit * Db :=
  let db2 := match format body with
             | Some f => handlePostFormat db1 postId f
             | None => db1
             end in
  let '(mediaResult, db3) :=
    match featured_media body with
    | Some fm => handleFeaturedMedia db2 fm postId
    | None => (inl tt, db2)
    end in
  match mediaResult with
  | inr e => (inr e, db3)
  | inl _ =>
      let db4 := match sticky body with
                 | Some s => handleStickyStatus db3 postId s
                 | None => db3
                 end in
      let db5 := match template body with
                 | Some t => updatePostMeta db4 postId "_wp_page_template" t
                 | None => db4
                 end in
      let db6 := handleTerms db5 postId body in
      let db7 := match meta body with
                 | Some entries => handleMeta db6 postId entries
                 | None => db6
                 end in
      (inl tt, db7)
  end.

(** Steps 5, 6 and 8 around the side effects, once the column set is
    prepared. *)
Definition persistAndRespond (db : Db) (postId : Z) (body : PostUpdateInput)
    (existingPost : WpPostRow) (updateData0 : WpPostUpdateData)
  : result WpPostResponse * Db :=
  let updateData := slugForDraftOrPending db postId existingPost updateData0 in
  let '(updateSuccess, db1) := updatePost db postId updateData in
  if negb updateSuccess then
    (inr (mkWpError "db_update_error" "Could not update post in the database." 500),
     db1)
  else
    match sideEffects db1 postId body with
    | (inr e, db3) => (inr e, db3)
    | (inl _, db7) =>
        match getPostById db7 postId with
        | None =>
            (inr (mkWpError "rest_post_invalid_id" "Post not found after update." 500),
             db7)
        | Some updatedPost =>
            let gmtOffset := gmtOffset_of (getOption db7 "gmt_offset") in
            let siteUrl :=
              match getOption db7 "siteurl" with
              | Some s => if truthy s then s else "http://localhost"
              | None => "http://localhost"
              end in
            (inl (buildPostResponse db7 updatedPost "edit" siteUrl gmtOffset), db7)
        end
    end.

Definition handlePostUpdate (db : Db) (postId : Z) (body : PostUpdateInput)
    (user : AuthenticatedUser) : result WpPostResponse * Db :=
  match getPostById db postId with
  | None => (inr (mkWpError "rest_post_invalid_id" "Invalid post ID." 404), db)
  | Some existingPost =>
      if negb (String.eqb (post_type existingPost) "post") then
        (inr (mkWpError "rest_post_invalid_id" "Invalid post ID." 404), db)
      else
        match checkPermissions db existingPost body user with
        | Some permError => (inr permError, db)
        | None =>
            match prepareItemForDatabase db body existingPost user with
            | inr e => (inr e, db)
            | inl updateData =>
                persistAndRespond db postId body existingPost updateData
            end
        end
  end.
End Service.

(* ================================================================= *)
(** * lib/db/connection.ts *)

(** How a call of an [async] function ends: with a value, or by throwing
    ([None] when the thrown value is not an [Error]). *)
Inductive completion (A : Type) : Type :=
| Returned (a : A)
| Thrown (err : option string).
Arguments Returned {A} a.
Arguments Thrown {A} err.

(** [db] is the committed state when the transaction begins. The callback
    works on its own view of it; [commit] makes that view the committed
    state, [rollback] discards it. *)
Definition withTransaction {T} (fn : Db -> completion T * Db) (db : Db)
  : completion T * Db :=
  match fn db with
  | (Returned result, conn) => (Returned result, conn)
  | (Thrown err, _) => (Thrown err, db)
  end.

(* ================================================================= *)
(** * app/api/sites/[site]/posts/[postId]/route.ts *)

Record Request : Type := mkRequest {
  param_postId : string;
  (** the body, [None] when [request.json()] throws *)
  req_json : option json;
  header_authorization : option string
}.

Definition Response : Type := HttpResponse (result WpPostResponse).

(** [WpError.toResponse]. *)
Definition toResponse (e : WpError) : Response :=
  mkResponse (status e) (inr e).

Section Route.
Context {rt : Runtime}.

(** The callback handed to [withTransaction]. *)
Definition transaction_body (request : Request) (postId : Z) (body : PostUpdateInput)
    (conn : Db) : completion (result WpPostResponse) * Db :=
  match authenticateRequest (header_authorization request) conn with
  | None =>
      (Returned (inr (mkWpError "rest_not_logged_in"
                        "You are not currently logged in." 401)), conn)
  | Some user =>
      let '(r, conn') := handlePostUpdate conn postId body user in
      (Returned r, conn')
  end.

Definition handleUpdate (request : Request) (db : Db) : Response * Db :=
  match parseInt10 (param_postId request) with
  | None =>
      (toResponse (mkWpError "rest_post_invalid_id" "Invalid post ID." 404), db)
  | Some postId =>
      if postId <=? 0 then
        (toResponse (mkWpError "rest_post_invalid_id" "Invalid post ID." 404), db)
      else
        match req_json request with
        | None =>
            (toResponse (mkWpError "rest_invalid_json" "Invalid JSON body." 400), db)
        | Some rawBody =>
            match postUpdateSchema rawBody with
            | inr firstIssue =>
                (toResponse
                   (mkWpError "rest_invalid_param"
                      ("Invalid parameter: " ++ join "." (issue_path firstIssue)
                         ++ " - " ++ zod_message (issue_kind firstIssue))
                      400), db)
            | inl body =>
                match withTransaction (transaction_body request postId body) db with
                | (Returned (inr e), db') => (toResponse e, db')
                | (Returned (inl r), db') => (mkResponse 200 (inl r), db')
                | (Thrown err, db') =>
                    let message :=
                      match err with
                      | Some m => m
                      | None => "An unexpected error occurred."
                      end in
                    (toResponse (mkWpError "rest_internal_error" message 500), db')
                end
            end
        end
  end.
End Route.

(* ================================================================= *)
(** * A reference runtime

    One instance of [Runtime], used to run the code on concrete requests:
    dates in the form [YYYY-MM-DDTHH:mm:ss] read as UTC, offsets written
    as an optional sign, digits and an optional fraction, credentials in
    standard base64, and a password check that compares against the hash
    text [plain:<password>]. *)

Module Reference.

Definition digits_value (s : string) : option Z :=
  if (0 <? String.length s)%nat && forallb is_digit (list_ascii_of_string s)
  then read_digits s None else None.

Definition days_from_civil (y m d : Z) : Z :=
  let y' := if m <=? 2 then y - 1 else y in
  let era := y' / 400 in
  let yoe := y' - era * 400 in
  let mp := (m + 9) mod 12 in
  let doy := (153 * mp + 2) / 5 + d - 1 in
  let doe := yoe * 365 + yoe / 4 - yoe / 100 + doy in
  era * 146097 + doe - 719468.

Definition is_leap (y : Z) : bool :=
  ((y mod 4 =? 0) && negb (y mod 100 =? 0)) || (y mod 400 =? 0).

Definition days_in_month (y m : Z) : Z :=
  if m =? 2 then (if is_leap y then 29 else 28)
  else if (m =? 4) || (m =? 6) || (m =? 9) || (m =? 11) then 30 else 31.

Definition field (a b : nat) (s : string) : option Z := digits_value (slice a b s).

Definition parse_iso (s : string) : option Z :=
  if negb (String.length s =? 19)%nat then None
  else if negb (String.eqb (slice 4 5 s) "-" && String.eqb (slice 7 8 s) "-"
                && String.eqb (slice 10 11 s) "T" && String.eqb (slice 13 14 s) ":"
                && String.eqb (slice 16 17 s) ":") then None
  else
    match field 0 4 s, field 5 7 s, field 8 10 s,
          field 11 13 s, field 14 16 s, field 17 19 s with
    | Some y, Some m, Some d, Some h, Some mi, Some sec =>
        if (1 <=? m) && (m <=? 12) && (1 <=? d) && (d <=? days_in_month y m)
           && (h <=? 23) && (mi <=? 59) && (sec <=? 59)
        then Some (days_from_civil y m d * 86400000
                   + h * 3600000 + mi * 60000 + sec * 1000)
        else None
    | _, _, _, _, _, _ => None
    end.

Fixpoint split_dot (s : string) : string * option string :=
  match s with
  | EmptyString => (EmptyString, None)
  | String c s' =>
      if Ascii.eqb c "." then (EmptyString, Some s')
      else let '(a, b) := split_dot s' in (String c a, b)
  end.

Definition parse_unsigned (s : string) : option Q :=
  match split_dot s with
  | (ip, None) => option_map inject_Z (digits_value ip)
  | (ip, Some fp) =>
      match digits_value ip, digits_value fp with
      | Some i, Some f =>
          Some (inject_Z i + (f # Pos.of_nat (Nat.pow 10 (String.length fp))))%Q
      | _, _ => None
      end
  end.

Definition parse_float (s : string) : option Q :=
  match skip_spaces s with
  | String "-" s' => option_map Qopp (parse_unsigned s')
  | String "+" s' => parse_unsigned s'
  | s' => parse_unsigned s'
  end.

Definition b64_value (c : ascii) : option N :=
  let n := N_of_ascii c in
  if ((65 <=? n) && (n <=? 90))%N then Some (n - 65)%N
  else if ((97 <=? n) && (n <=? 122))%N then Some (n - 71)%N
  else if ((48 <=? n) && (n <=? 57))%N then Some (n + 4)%N
  else if (n =? 43)%N then Some 62%N
  else if (n =? 47)%N then Some 63%N
  else None.

(** Sextets to bytes, [bits] pending bits held in [acc]. *)
Fixpoint b64_bytes (vs : list N) (acc : N) (bits : nat) : string :=
  match vs with
  | [] => EmptyString
  | v :: rest =>
      let acc' := (acc * 64 + v)%N in
      match bits with
      | 0%nat => b64_bytes rest acc' 6
      | 2%nat => String (ascii_of_N acc') (b64_bytes rest 0%N 0)
      | 4%nat => String (ascii_of_N (acc' / 4)) (b64_bytes rest (acc' mod 4)%N 2)
      | _ => String (ascii_of_N (acc' / 16)) (b64_bytes rest (acc' mod 16)%N 4)
      end
  end.

Fixpoint b64_values (s : string) : list N :=
  match s with
  | EmptyString => []
  | String c s' => match b64_value c with
                   | Some v => v :: b64_values s'
                   | None => b64_values s'
                   end
  end.

Definition decode_base64 (s : string) : string := b64_bytes (b64_values s) 0%N 0.

Definition plain_compare (password hash : string) : bool :=
  String.eqb hash ("plain:" ++ password).

Definition string_of_json (v : json) : string :=
  match v with
  | JNull => "null"
  | JBool true => "true"
  | JBool false => "false"
  | JNum q => match Q_int q with
              | Some n => Z_to_string n
              | None => "NaN"
              end
  | JStr s => s
  | JArr _ => EmptyString
  | JObj _ => "[object Object]"
  end.

#[export] Instance runtime : Runtime := {
  Date_parse := parse_iso;
  parseFloat := parse_float;
  js_String := string_of_json;
  base64_decode := decode_base64;
  bcrypt_compare := plain_compare;
  NOW := "2024-06-01 12:00:00";
  UTC_TIMESTAMP := "2024-06-01 10:00:00";
  zod_message := fun kind => kind
}.

End Reference.

(* ================================================================= *)
(** * A small site

    Five accounts with one role each, a handful of posts and one
    attachment; the requests of the examples below run against it. *)

Module Site.
Import Reference.

Definition a_post (i author : Z) (status name : string) : WpPostRow :=
  mkPost i author "2024-01-15 10:30:00" "2024-01-15 08:30:00"
         "Some text" "Old title" EmptyString status "open" "open" EmptyString name EmptyString EmptyString
         "2024-01-15 10:30:00" "2024-01-15 08:30:00" EmptyString 0
         ("http://example.com/?p=" ++ Z_to_string i) 0 "post" EmptyString 0.

Definition an_attachment (i author : Z) : WpPostRow :=
  mkPost i author "2024-01-10 09:00:00" "2024-01-10 07:00:00"
         EmptyString "picture" EmptyString "inherit" "open" "closed" EmptyString "picture" EmptyString EmptyString
         "2024-01-10 09:00:00" "2024-01-10 07:00:00" EmptyString 0
         "http://example.com/picture.png" 0 "attachment" "image/png" 0.

Definition an_account (i : Z) (name : string) : WpUserRow :=
  mkUserRow i name EmptyString name (name ++ "@example.com") EmptyString "2024-01-01 00:00:00" EmptyString 0 name.

Definition granted (caps : list string) : option capmap :=
  Some (map (fun c => (c, true)) caps).

Definition db0 : Db := {|
  posts := [ a_post 42 2 "draft" "hello-world";
             a_post 43 1 "publish" "first";
             a_post 44 3 "publish" "second";
             a_post 45 4 "publish" "third";
             a_post 46 1 "draft" "first-2";
             an_attachment 50 1 ];
  postmeta := [ mkMeta 1 43 "_thumbnail_id" "50" ];
  terms := [ mkTerm 1 "Uncategorized" "uncategorized";
             mkTerm 2 "News" "news";
             mkTerm 3 "post-format-aside" "post-format-aside" ];
  term_taxonomy := [ mkTT 1 1 "category" EmptyString 0 2;
                     mkTT 2 2 "category" EmptyString 0 0;
                     mkTT 3 3 "post_format" EmptyString 0 0 ];
  term_relationships := [ mkRel 42 1 0; mkRel 43 1 0 ];
  options := [ ("siteurl", "http://example.com/"); ("gmt_offset", "2") ];
  sticky_posts := StickyArray [Some 43];
  users := [ an_account 1 "alice"; an_account 2 "bob"; an_account 3 "carol";
             an_account 4 "dave"; an_account 5 "erin" ];
  user_capabilities := [ (1, [("administrator", true)]);
                         (2, [("contributor", true)]);
                         (3, [("reviser", true)]);
                         (4, [("proofreader", true)]);
                         (5, [("moderator", true)]) ];
  user_roles :=
    [ ("administrator",
       mkRole "Administrator"
         (granted ["edit_posts"; "edit_others_posts"; "edit_published_posts";
                   "edit_private_posts"; "publish_posts"; "manage_categories"]));
      ("contributor", mkRole "Contributor" (granted ["edit_posts"]));
      ("reviser", mkRole "Reviser" (granted ["edit_posts"; "edit_published_posts"]));
      ("proofreader", mkRole "Proofreader" (granted ["edit_published_posts"]));
      ("moderator", mkRole "Moderator" (granted ["edit_posts"; "edit_others_posts"])) ];
  application_passwords :=
    [ (1, [mkAppPassword "u1" "cli" "plain:secret"]);
      (2, [mkAppPassword "u2" "cli" "plain:secret"]);
      (3, [mkAppPassword "u3" "cli" "plain:secret"]);
      (4, [mkAppPassword "u4" "cli" "plain:secret"]);
      (5, [mkAppPassword "u5" "cli" "plain:secret"]) ]
|}.

(** The principal the authenticator builds for an account. *)
Definition principal (i : Z) (name : string) : AuthenticatedUser :=
  resolveUserCapabilities db0 i name (name ++ "@example.com").

(** [Authorization] headers of the five accounts, password [secret]. *)
Definition alice : option string := Some "Basic YWxpY2U6c2VjcmV0".
Definition bob : option string := Some "Basic Ym9iOnNlY3JldA==".
Definition carol : option string := Some "Basic Y2Fyb2w6c2VjcmV0".
Definition dave : option string := Some "Basic ZGF2ZTpzZWNyZXQ=".
Definition erin : option string := Some "Basic ZXJpbjpzZWNyZXQ=".

Definition patch (postId : string) (who : option string) (fields : list (string * json))
  : Request :=
  mkRequest postId (Some (JObj fields)) who.

Definition num (n : Z) : json := JNum (inject_Z n).

Definition status_of (r : Response * Db) : Z := http_status (fst r).

Definition code_of (r : Response * Db) : string :=
  match http_body (fst r) with
  | inr e => code e
  | inl _ => "ok"
  end.

Definition row_of (r : Response * Db) (i : Z) : option WpPostRow :=
  getPostById (snd r) i.
End Site.

(* ================================================================= *)
(** * Columns of a post row

    The columns of [wp_posts] by name, to state which of them a statement
    writes. [data_col] is the [fieldMap] of [updatePost]; [patch_col] tells
    whether the patch carries the field a column is computed from. *)

Inductive value : Type :=
| VStr (s : string)
| VInt (n : Z).

Inductive column : Type :=
| c_ID | c_post_author | c_post_date | c_post_date_gmt | c_post_content
| c_post_title | c_post_excerpt | c_post_status | c_comment_status
| c_ping_status | c_post_password | c_post_name | c_to_ping | c_pinged
| c_post_modified | c_post_modified_gmt | c_post_content_filtered
| c_post_parent | c_guid | c_menu_order | c_post_type | c_post_mime_type
| c_comment_count.

Definition col (c : column) (p : WpPostRow) : value :=
  match c with
  | c_ID => VInt (ID p)
  | c_post_author => VInt (post_author p)
  | c_post_date => VStr (post_date p)
  | c_post_date_gmt => VStr (post_date_gmt p)
  | c_post_content => VStr (post_content p)
  | c_post_title => VStr (post_title p)
  | c_post_excerpt => VStr (post_excerpt p)
  | c_post_status => VStr (post_status p)
  | c_comment_status => VStr (comment_status p)
  | c_ping_status => VStr (ping_status p)
  | c_post_password => VStr (post_password p)
  | c_post_name => VStr (post_name p)
  | c_to_ping => VStr (to_ping p)
  | c_pinged => VStr (pinged p)
  | c_post_modified => VStr (post_modified p)
  | c_post_modified_gmt => VStr (post_modified_gmt p)
  | c_post_content_filtered => VStr (post_content_filtered p)
  | c_post_parent => VInt (post_parent p)
  | c_guid => VStr (guid p)
  | c_menu_order => VInt (menu_order p)
  | c_post_type => VStr (post_type p)
  | c_post_mime_type => VStr (post_mime_type p)
  | c_comment_count => VInt (comment_count p)
  end.

Definition data_col (c : column) (d : WpPostUpdateData) : option value :=
  match c with
  | c_post_title => option_map VStr (d_post_title d)
  | c_post_content => option_map VStr (d_post_content d)
  | c_post_excerpt => option_map VStr (d_post_excerpt d)
  | c_post_status => option_map VStr (d_post_status d)
  | c_post_date => option_map VStr (d_post_date d)
  | c_post_date_gmt => option_map VStr (d_post_date_gmt d)
  | c_post_name => option_map VStr (d_post_name d)
  | c_post_author => option_map VInt (d_post_author d)
  | c_post_password => option_map VStr (d_post_password d)
  | c_post_parent => option_map VInt (d_post_parent d)
  | c_menu_order => option_map VInt (d_menu_order d)
  | c_comment_status => option_map VStr (d_comment_status d)
  | c_ping_status => option_map VStr (d_ping_status d)
  | _ => None
  end.

Definition is_some {A} (o : option A) : bool :=
  match o with Some _ => true | None => false end.

Definition patch_col (c : column) (b : PostUpdateInput) : bool :=
  match c with
  | c_post_title => is_some (title b)
  | c_post_content => is_some (content b)
  | c_post_excerpt => is_some (excerpt b)
  | c_post_status => is_some (b_status b)
  | c_post_date => is_some (date b) || is_some (date_gmt b)
  | c_post_date_gmt => is_some (date b) || is_some (date_gmt b)
  | c_post_name => is_some (slug b)
  | c_post_author => is_some (author b)
  | c_post_password => is_some (password b)
  | c_post_parent => is_some (parent b)
  | c_menu_order => is_some (b_menu_order b)
  | c_comment_status => is_some (b_comment_status b)
  | c_ping_status => is_some (b_ping_status b)
  | _ => false
  end.

Definition is_timestamp (c : column) : bool :=
  match c with
  | c_post_modified | c_post_modified_gmt => true
  | _ => false
  end.

(** A patch with its [status] field taken out. *)
Definition without_status (b : PostUpdateInput) : PostUpdateInput :=
  mkBody (title b) (content b) (excerpt b) None (date b) (date_gmt b) (slug b)
    (author b) (password b) (featured_media b) (sticky b) (template b) (format b)
    (b_comment_status b) (b_ping_status b) (parent b) (b_menu_order b)
    (categories b) (tags b) (meta b).

(** A patch with its [date_gmt] field replaced. *)
Definition with_date_gmt (b : PostUpdateInput) (d : option (option string))
  : PostUpdateInput :=
  mkBody (title b) (content b) (excerpt b) (b_status b) (date b) d (slug b)
    (author b) (password b) (featured_media b) (sticky b) (template b) (format b)
    (b_comment_status b) (b_ping_status b) (parent b) (b_menu_order b)
    (categories b) (tags b) (meta b).

(** The patch that carries a [status] and nothing else. *)
Definition status_patch (st : string) : PostUpdateInput :=
  mkBody None None None (Some st) None None None None None None
         None None None None None None None None None None.

(** The patch sets a password that is not empty. *)
Definition sets_password (b : PostUpdateInput) : bool :=
  match password b with
  | Some pw => negb (String.eqb pw EmptyString)
  | None => false
  end.

(** The mutual exclusion as the specification words it: the patch makes the
    post sticky while the post has, or is given, a password; or the patch
    gives a password while the post is, or is made, sticky. *)
Definition sticky_password_conflict (db : Db) (b : PostUpdateInput)
    (existingPost : WpPostRow) : bool :=
  (is_true (sticky b) && (truthy (post_password existingPost) || sets_password b))
  || (sets_password b && (isSticky db (ID existingPost) || is_true (sticky b))).

(** The statuses the normalizer has a case for. *)
Definition normalizer_statuses : list string :=
  ["draft"; "pending"; "private"; "publish"; "future"].

(** The patch resets its dates: [date] is [null], or [date] is absent and
    [date_gmt] is [null]. *)
Definition resets_date (b : PostUpdateInput) : Prop :=
  date b = Some None \/ (date b = None /\ date_gmt b = Some None).

(** The candidate slug with the suffix [k]. *)
Definition suffixed (desiredSlug : string) (k : Z) : string :=
  (desiredSlug ++ "-" ++ Z_to_string k)%string.

(** The slug collides: another row of the same type and parent has it. *)
Definition collides (db : Db) (slug postType : string) (postId postParent : Z) : Prop :=
  exists p, In p (posts db) /\ post_name p = slug /\ post_type p = postType
            /\ ID p <> postId /\ post_parent p = postParent.

(** [r] is the desired slug if that is free, and otherwise the desired slug
    with the first integer suffix from 2 on that is free. *)
Definition first_free_slug (db : Db) (desiredSlug postType : string)
    (postId postParent : Z) (r : string) : Prop :=
  checkSlugExists db r postType postId postParent = false
  /\ ((checkSlugExists db desiredSlug postType postId postParent = false
       /\ r = desiredSlug)
      \/ (checkSlugExists db desiredSlug postType postId postParent = true
          /\ exists k, 2 <= k /\ r = suffixed desiredSlug k
                       /\ forall j, 2 <= j < k ->
                            checkSlugExists db (suffixed desiredSlug j)
                              postType postId postParent = true)).

(** The patch of a request body the schema accepts. *)
Definition patch_of (fields : list (string * json)) : PostUpdateInput :=
  match postUpdateSchema (JObj fields) with
  | inl b => b
  | inr _ => empty_body
  end.

(** The site address the response is built with. *)
Definition siteUrl_of (db : Db) : string :=
  match getOption db "siteurl" with
  | Some s => if truthy s then s else "http://localhost"
  | None => "http://localhost"
  end.

(** Two stores with the same [posts] table and the same plain options. *)
Definition same_rows (db db' : Db) : Prop :=
  posts db' = posts db /\ options db' = options db.

(* ================================================================= *)
(** * Notions for the properties of the adapters and of the service *)

(** The number a run of decimal digits denotes after the digits read so
    far, which denote [acc]. *)
Fixpoint uint_value (d : Decimal.uint) (acc : Z) : Z :=
  match d with
  | Decimal.Nil => acc
  | Decimal.D0 l => uint_value l (10 * acc)
  | Decimal.D1 l => uint_value l (10 * acc + 1)
  | Decimal.D2 l => uint_value l (10 * acc + 2)
  | Decimal.D3 l => uint_value l (10 * acc + 3)
  | Decimal.D4 l => uint_value l (10 * acc + 4)
  | Decimal.D5 l => uint_value l (10 * acc + 5)
  | Decimal.D6 l => uint_value l (10 * acc + 6)
  | Decimal.D7 l => uint_value l (10 * acc + 7)
  | Decimal.D8 l => uint_value l (10 * acc + 8)
  | Decimal.D9 l => uint_value l (10 * acc + 9)
  end.

(** The keys of [wp_postmeta] are pairwise distinct. *)
Definition meta_ids_distinct (db : Db) : Prop :=
  NoDup (map meta_id (postmeta db)).

(** [u'] is the account of [u] holding at least the capabilities of [u]. *)
Definition caps_included (u u' : AuthenticatedUser) : Prop :=
  id u = id u'
  /\ forall c, cap_is_true (allcaps u) c = true -> cap_is_true (allcaps u') c = true.

(** Some role assigned in [userCaps] grants the capability [c] in the role
    definitions of the store. *)
Definition role_grants (db : Db) (userCaps : capmap) (c : string) : Prop :=
  exists role def caps,
    In (role, true) userCaps
    /\ assoc (getRoleDefinitions db) role = Some def
    /\ role_capabilities def = Some caps
    /\ In (c, true) caps.

(** A patch with its title, content and excerpt in the bare-string form. *)
Definition bare_fields (b : PostUpdateInput) : PostUpdateInput :=
  mkBody (option_map Bare (extractRawValue (title b)))
    (option_map Bare (extractRawValue (content b)))
    (option_map Bare (extractRawValue (excerpt b)))
    (b_status b) (date b) (date_gmt b) (slug b)
    (author b) (password b) (featured_media b) (sticky b) (template b) (format b)
    (b_comment_status b) (b_ping_status b) (parent b) (b_menu_order b)
    (categories b) (tags b) (meta b).

(** What [setObjectTerms] may not touch in a row of [term_taxonomy]:
    everything but the counter. *)
Definition tt_identity (tt : TermTaxonomyRow) : Z * Z * string * string * Z :=
  (term_taxonomy_id tt, tt_term_id tt, taxonomy tt, tt_description tt, tt_parent tt).

(** The relationships of one object. *)
Definition relationships_of (db : Db) (objectId : Z) : list RelRow :=
  filter (fun tr => object_id tr =? objectId) (term_relationships db).

(** What holds of the store all along [setObjectTerms]. *)
Definition terms_frame (db : Db) (objectId : Z) (tax : string) (d : Db) : Prop :=
  posts d = posts db /\ postmeta d = postmeta db /\ terms d = terms db
  /\ options d = options db /\ sticky_posts d = sticky_posts db
  /\ users d = users db
  /\ map tt_identity (term_taxonomy d) = map tt_identity (term_taxonomy db)
  /\ (forall j, j <> objectId -> relationships_of d j = relationships_of db j)
  /\ (forall tr, In tr (term_relationships db) ->
        (forall tt, In tt (term_taxonomy db) ->
           term_taxonomy_id tt = r_term_taxonomy_id tr -> taxonomy tt <> tax) ->
        In tr (term_relationships d))
  /\ (Forall (fun tt => 0 <= tt_count tt) (term_taxonomy db) ->
      Forall (fun tt => 0 <= tt_count tt) (term_taxonomy d)).

(** The relationships of the object in the taxonomy come from [termIds]. *)
Definition from_termIds (db : Db) (objectId : Z) (tax : string)
    (termIds : list Z) (d : Db) : Prop :=
  terms d = terms db
  /\ map tt_identity (term_taxonomy d) = map tt_identity (term_taxonomy db)
  /\ forall tr, In tr (term_relationships d) -> object_id tr = objectId ->
       forall tt, In tt (term_taxonomy db) ->
         term_taxonomy_id tt = r_term_taxonomy_id tr -> taxonomy tt = tax ->
         exists row, In row (term_taxonomy db) /\ In (tt_term_id row) termIds
                     /\ taxonomy row = tax
                     /\ term_taxonomy_id row = r_term_taxonomy_id tr.

(** A relationship inserted by the loop is still there at its end. *)
Definition related_to (db : Db) (objectId : Z) (tax : string) (termId : Z)
    (d : Db) : Prop :=
  exists row tr, In row (term_taxonomy db) /\ tt_term_id row = termId
                 /\ taxonomy row = tax /\ In tr (term_relationships d)
                 /\ object_id tr = objectId
                 /\ r_term_taxonomy_id tr = term_taxonomy_id row.

(** The fields of the store that no step of the service writes are in [db']
    as they are in [db]; [options] holds the options other than [sticky_posts],
    which the store keeps apart in decoded form. *)
Definition same_accounts (db db' : Db) : Prop :=
  users db' = users db /\ user_capabilities db' = user_capabilities db
  /\ user_roles db' = user_roles db
  /\ application_passwords db' = application_passwords db
  /\ options db' = options db /\ terms db' = terms db.

(** What a request may not alter: the accounts, their role assignments, the
    role definitions, the application passwords, the terms, and every option
    other than [sticky_posts], the one option the side effects write. *)
Definition accounts_unaltered (db db' : Db) : Prop :=
  users db' = users db /\ user_capabilities db' = user_capabilities db
  /\ user_roles db' = user_roles db
  /\ application_passwords db' = application_passwords db
  /\ terms db' = terms db
  /\ forall name, name <> "sticky_posts" -> getOption db' name = getOption db name.

(** How a field of the parsed patch reads the JSON body: [undefined] when
    the key is absent, and otherwise a value that the JSON value at the key
    denotes according to [R]. *)
Definition reads_as {A : Type} (R : json -> A -> Prop)
    (o : list (string * json)) (k : string) (field : option A) : Prop :=
  match obj_get o k, field with
  | None, None => True
  | Some j, Some v => R j v
  | _, _ => False
  end.

(** A title, content or excerpt: the string itself, or the string at [raw]
    of an object. *)
Definition raw_value (j : json) (f : raw_field) : Prop :=
  match j, f with
  | JStr s, Bare s' => s' = s
  | JObj kvs, WithRaw r => obj_get kvs "raw" = Some (JStr r)
  | _, _ => False
  end.

Definition string_value (j : json) (s : string) : Prop := j = JStr s.

Definition nullable_string_value (j : json) (v : option string) : Prop :=
  match v with
  | None => j = JNull
  | Some s => j = JStr s
  end.

Definition boolean_value (j : json) (b : bool) : Prop := j = JBool b.

(** A string that is one of [values]. *)
Definition enum_value (values : list string) (j : json) (s : string) : Prop :=
  j = JStr s /\ In s values.

(** A number that is the integer [n], not below [lowest] when there is
    one. *)
Definition integer_value (lowest : option Z) (j : json) (n : Z) : Prop :=
  exists q, j = JNum q /\ (q == inject_Z n)%Q
            /\ match lowest with Some l => l <= n | None => True end.

(** An array of positive integers, element by element. *)
Definition id_array_value (j : json) (ns : list Z) : Prop :=
  exists xs, j = JArr xs /\ Forall2 (integer_value (Some 1)) xs ns.

(** An object, entry by entry in its order, without an entry [__proto__]. *)
Definition record_value (j : json) (entries : list (string * json)) : Prop :=
  exists kvs, j = JObj kvs
              /\ entries = filter (fun kv => negb (String.eqb (fst kv) "__proto__")) kvs.

(** The lowest integer a bound of the schema admits. *)
Definition lowest_of (bound : num_bound) : option Z :=
  match bound with
  | NoBound => None
  | Positive => Some 1
  | Min0 => Some 0
  end.

(* ================================================================= *)
(** * Properties *)

(** The examples run on the reference runtime; every general statement
    binds its own runtime. *)
#[local] Existing Instance Reference.runtime.

(** ** Strings and lists *)

Lemma String_eqb_true (a b : string) : String.eqb a b = true -> a = b.
Proof. apply String.eqb_eq. Qed.

Lemma append_cancel_l (s a b : string) : (s ++ a)%string = (s ++ b)%string -> a = b.
Proof.
  induction s as [|c s IH]; simpl; intro H.
  - exact H.
  - injection H as H. auto.
Qed.

Lemma Z_to_string_inj (a b : Z) : Z_to_string a = Z_to_string b -> a = b.
Proof.
  unfold Z_to_string. intro H.
  apply DecimalZ.to_int_inj.
  assert (E : Some (Z.to_int a) = Some (Z.to_int b)).
  { rewrite <- (NilEmpty.isi (Z.to_int a)), <- (NilEmpty.isi (Z.to_int b)).
    now rewrite H. }
  now injection E.
Qed.

Lemma includes_true (xs : list Z) (x : Z) : includes xs x = true <-> In x xs.
Proof.
  unfold includes. rewrite existsb_exists. split.
  - intros [y [Hy E]]. apply Z.eqb_eq in E. now subst.
  - intro H. exists x. split; [assumption | apply Z.eqb_refl].
Qed.

Lemma includes_false (xs : list Z) (x : Z) : includes xs x = false <-> ~ In x xs.
Proof.
  rewrite <- includes_true. destruct (includes xs x); split; congruence.
Qed.

(** ** Reading a post after rows were rewritten *)

Lemma find_ID_some (l : list WpPostRow) (i : Z) (p : WpPostRow) :
  find (fun q => ID q =? i) l = Some p -> In p l /\ ID p = i.
Proof.
  intro H. apply find_some in H. destruct H as [H1 H2].
  apply Z.eqb_eq in H2. auto.
Qed.

Lemma getPostById_ID (db : Db) (i : Z) (p : WpPostRow) :
  getPostById db i = Some p -> ID p = i.
Proof. intro H. apply find_ID_some in H. tauto. Qed.

Lemma find_map_keep_ID (f : WpPostRow -> WpPostRow) (l : list WpPostRow) (i : Z) :
  (forall p, ID (f p) = ID p) ->
  find (fun q => ID q =? i) (map f l) = option_map f (find (fun q => ID q =? i) l).
Proof.
  intro Hf. induction l as [|p l IH]; simpl.
  - reflexivity.
  - rewrite Hf. destruct (ID p =? i); [reflexivity | exact IH].
Qed.

(** ** What the side effects leave alone

    No step after the row update touches the [posts] table or the plain
    options. *)

Lemma same_rows_refl (db : Db) : same_rows db db.
Proof. split; reflexivity. Qed.

Lemma same_rows_trans (a b c : Db) : same_rows a b -> same_rows b c -> same_rows a c.
Proof. intros [H1 H2] [H3 H4]. split; congruence. Qed.

Ltac break_match :=
  match goal with
  | |- context [match ?x with _ => _ end] => destruct x eqn:?
  | |- context [if ?x then _ else _] => destruct x eqn:?
  end.

Lemma updatePostMeta_same_rows (db : Db) (i : Z) (k v : string) :
  same_rows db (updatePostMeta db i k v).
Proof. unfold updatePostMeta. break_match; split; reflexivity. Qed.

Lemma deletePostMeta_same_rows (db : Db) (i : Z) (k : string) :
  same_rows db (deletePostMeta db i k).
Proof. split; reflexivity. Qed.

Lemma insert_relationship_same_rows (db : Db) (i : Z) (tax : string) (t : Z) :
  same_rows db (insert_relationship db i tax t).
Proof. unfold insert_relationship. break_match; split; reflexivity. Qed.

Lemma fold_insert_same_rows (ts : list Z) (db : Db) (i : Z) (tax : string) :
  same_rows db (fold_left (fun d t => insert_relationship d i tax t) ts db).
Proof.
  revert db. induction ts as [|t ts IH]; intro db; simpl.
  - apply same_rows_refl.
  - eapply same_rows_trans; [apply insert_relationship_same_rows | apply IH].
Qed.

Lemma setObjectTerms_same_rows (db : Db) (i : Z) (ts : list Z) (tax : string) :
  same_rows db (setObjectTerms db i ts tax).
Proof.
  unfold setObjectTerms.
  eapply same_rows_trans; [| apply fold_insert_same_rows].
  break_match; split; reflexivity.
Qed.

Lemma handlePostFormat_same_rows (db : Db) (i : Z) (f : string) :
  same_rows db (handlePostFormat db i f).
Proof.
  unfold handlePostFormat.
  repeat break_match; auto using setObjectTerms_same_rows, same_rows_refl.
Qed.

Lemma handleFeaturedMedia_same_rows (db : Db) (fm i : Z) :
  same_rows db (snd (handleFeaturedMedia db fm i)).
Proof.
  unfold handleFeaturedMedia.
  repeat break_match; simpl;
    auto using updatePostMeta_same_rows, deletePostMeta_same_rows, same_rows_refl.
Qed.

Lemma handleStickyStatus_same_rows (db : Db) (i : Z) (s : bool) :
  same_rows db (handleStickyStatus db i s).
Proof.
  unfold handleStickyStatus. repeat break_match; split; reflexivity.
Qed.

Lemma handleTerms_same_rows (db : Db) (i : Z) (b : PostUpdateInput) :
  same_rows db (handleTerms db i b).
Proof.
  unfold handleTerms.
  repeat break_match;
    eauto using setObjectTerms_same_rows, same_rows_refl, same_rows_trans.
Qed.

Lemma handleMeta_same_rows {rt : Runtime} (entries : list (string * json))
    (db : Db) (i : Z) :
  same_rows db (handleMeta db i entries).
Proof.
  unfold handleMeta. revert db.
  induction entries as [|[k v] es IH]; intro db; simpl.
  - apply same_rows_refl.
  - eapply same_rows_trans; [| apply IH].
    destruct v; auto using updatePostMeta_same_rows, same_rows_refl.
Qed.

Lemma sideEffects_same_rows {rt : Runtime} (db1 : Db) (postId : Z)
    (body : PostUpdateInput) :
  same_rows db1 (snd (sideEffects db1 postId body)).
Proof.
  unfold sideEffects.
  set (db2 := match format body with Some f => _ | None => _ end).
  assert (H2 : same_rows db1 db2).
  { subst db2. destruct (format body); auto using handlePostFormat_same_rows, same_rows_refl. }
  destruct (featured_media body) as [fm|].
  - pose proof (handleFeaturedMedia_same_rows db2 fm postId) as H3.
    destruct (handleFeaturedMedia db2 fm postId) as [[u|e] db3]; simpl in *.
    + eapply same_rows_trans; [exact H2|].
      eapply same_rows_trans; [exact H3|].
      eapply same_rows_trans
        with (b := match sticky body with
                   | Some s => handleStickyStatus db3 postId s | None => db3 end).
      { destruct (sticky body); auto using handleStickyStatus_same_rows, same_rows_refl. }
      eapply same_rows_trans
        with (b := match template body with
                   | Some t => updatePostMeta _ postId "_wp_page_template" t
                   | None => _ end).
      { destruct (template body); auto using updatePostMeta_same_rows, same_rows_refl. }
      eapply same_rows_trans; [apply handleTerms_same_rows|].
      destruct (meta body); auto using handleMeta_same_rows, same_rows_refl.
    + eapply same_rows_trans; eassumption.
  - simpl.
    eapply same_rows_trans; [exact H2|].
    eapply same_rows_trans
      with (b := match sticky body with
                 | Some s => handleStickyStatus db2 postId s | None => db2 end).
    { destruct (sticky body); auto using handleStickyStatus_same_rows, same_rows_refl. }
    eapply same_rows_trans
      with (b := match template body with
                 | Some t => updatePostMeta _ postId "_wp_page_template" t
                 | None => _ end).
    { destruct (template body); auto using updatePostMeta_same_rows, same_rows_refl. }
    eapply same_rows_trans; [apply handleTerms_same_rows|].
    destruct (meta body); auto using handleMeta_same_rows, same_rows_refl.
Qed.

(** ** The row update *)

Section RowUpdate.
Context {rt : Runtime}.

Lemma apply_update_ID (data : WpPostUpdateData) (p : WpPostRow) :
  ID (apply_update data p) = ID p.
Proof. reflexivity. Qed.

Lemma updatePost_read (db : Db) (i j : Z) (data : WpPostUpdateData) :
  getPostById (snd (updatePost db i data)) j
  = option_map (fun p => if ID p =? i then apply_update data p else p)
               (getPostById db j).
Proof.
  unfold getPostById, updatePost. simpl.
  apply find_map_keep_ID. intro p. destruct (ID p =? i); reflexivity.
Qed.

Lemma updatePost_read_same (db : Db) (i : Z) (data : WpPostUpdateData) :
  getPostById (snd (updatePost db i data)) i
  = option_map (apply_update data) (getPostById db i).
Proof.
  rewrite updatePost_read. destruct (getPostById db i) as [p|] eqn:E; simpl.
  - apply getPostById_ID in E. rewrite E, Z.eqb_refl. reflexivity.
  - reflexivity.
Qed.

Lemma updatePost_read_other (db : Db) (i j : Z) (data : WpPostUpdateData) :
  j <> i -> getPostById (snd (updatePost db i data)) j = getPostById db j.
Proof.
  intro Hne. rewrite updatePost_read.
  destruct (getPostById db j) as [p|] eqn:E; simpl; [|reflexivity].
  apply getPostById_ID in E. rewrite E.
  destruct (Z.eqb_spec j i); [contradiction | reflexivity].
Qed.

(** The statement matches a row exactly when the post can be read. *)
Lemma updatePost_succeeds (db : Db) (i : Z) (data : WpPostUpdateData) :
  fst (updatePost db i data) = is_some (getPostById db i).
Proof.
  unfold updatePost, getPostById. simpl.
  induction (posts db) as [|p l IH]; simpl.
  - reflexivity.
  - destruct (ID p =? i); simpl.
    + rewrite Zpos_P_of_succ_nat. apply Z.ltb_lt. lia.
    + exact IH.
Qed.

Lemma updatePost_tables (db : Db) (i : Z) (data : WpPostUpdateData) :
  let db' := snd (updatePost db i data) in
  postmeta db' = postmeta db /\ terms db' = terms db
  /\ term_taxonomy db' = term_taxonomy db
  /\ term_relationships db' = term_relationships db
  /\ options db' = options db /\ sticky_posts db' = sticky_posts db
  /\ users db' = users db.
Proof. simpl. repeat split. Qed.

(** What a successful request leaves in the store and answers. *)
Lemma persistAndRespond_ok (db db' : Db) (postId : Z) (body : PostUpdateInput)
    (existingPost : WpPostRow) (data0 : WpPostUpdateData) (r : WpPostResponse) :
  getPostById db postId = Some existingPost ->
  persistAndRespond db postId body existingPost data0 = (inl r, db') ->
  let data := slugForDraftOrPending db postId existingPost data0 in
  let updated := apply_update data existingPost in
  getPostById db' postId = Some updated
  /\ (forall j, j <> postId -> getPostById db' j = getPostById db j)
  /\ options db' = options db
  /\ r = buildPostResponse db' updated "edit" (siteUrl_of db')
           (gmtOffset_of (getOption db' "gmt_offset")).
Proof.
  intros Hget H. unfold persistAndRespond in H.
  set (data := slugForDraftOrPending db postId existingPost data0) in *.
  pose proof (updatePost_read_same db postId data) as Hread.
  pose proof (fun j => updatePost_read_other db postId j data) as Hother.
  pose proof (updatePost_tables db postId data) as Htab.
  destruct (updatePost db postId data) as [ok db1]. simpl in *.
  destruct (negb ok); [discriminate|].
  pose proof (sideEffects_same_rows db1 postId body) as [Hp Ho].
  destruct (sideEffects db1 postId body) as [[u|e] db7]; [|discriminate].
  simpl in *.
  assert (Hg : forall j, getPostById db7 j = getPostById db1 j).
  { intro j. unfold getPostById. now rewrite Hp. }
  rewrite Hg, Hread, Hget in H. simpl in H.
  injection H as Hr Hdb. subst db'.
  repeat split.
  - rewrite Hg, Hread, Hget. reflexivity.
  - intros j Hj. rewrite Hg. now apply Hother.
  - rewrite Ho. tauto.
  - subst r. reflexivity.
Qed.

(** A request that has passed its checks, on a post that can be read,
    fails afterwards only by the featured-media check. *)
Lemma persistAndRespond_returns (db : Db) (postId : Z) (body : PostUpdateInput)
    (existingPost : WpPostRow) (data0 : WpPostUpdateData) :
  getPostById db postId = Some existingPost ->
  (forall fm, featured_media body = Some fm ->
              (0 <? fm) = true -> isValidAttachment db fm = true) ->
  exists r db', persistAndRespond db postId body existingPost data0 = (inl r, db').
Proof.
  intros Hget Hfm. unfold persistAndRespond.
  set (data := slugForDraftOrPending db postId existingPost data0).
  pose proof (updatePost_read_same db postId data) as Hread.
  pose proof (updatePost_succeeds db postId data) as Hok.
  assert (Hposts : forall fm, isValidAttachment (snd (updatePost db postId data)) fm
                              = isValidAttachment db fm).
  { intro fm. unfold isValidAttachment, updatePost. simpl.
    induction (posts db) as [|p l IH]; simpl; [reflexivity|].
    rewrite IH. destruct (ID p =? postId); reflexivity. }
  destruct (updatePost db postId data) as [ok db1]. simpl in *.
  rewrite Hget in Hok. simpl in Hok. subst ok. simpl.
  pose proof (sideEffects_same_rows db1 postId body) as [Hp Ho].
  assert (Hside : exists db7, sideEffects db1 postId body = (inl tt, db7)).
  { unfold sideEffects.
    destruct (featured_media body) as [fm|] eqn:Efm.
    - unfold handleFeaturedMedia.
      destruct (0 <? fm) eqn:Epos.
      + assert (Hv : isValidAttachment
                       (match format body with
                        | Some f => handlePostFormat db1 postId f
                        | None => db1 end) fm = true).
        { specialize (Hfm fm eq_refl Epos). rewrite <- Hposts in Hfm.
          unfold isValidAttachment in *.
          destruct (format body) as [f|]; [|exact Hfm].
          destruct (handlePostFormat_same_rows db1 postId f) as [Hq _].
          now rewrite Hq. }
        rewrite Hv. simpl. eexists. reflexivity.
      + eexists. reflexivity.
    - eexists. reflexivity. }
  destruct Hside as [db7 Hside]. rewrite Hside in *. simpl in *.
  assert (Hg : getPostById db7 postId = getPostById db1 postId).
  { unfold getPostById. now rewrite Hp. }
  rewrite Hg, Hread, Hget. simpl. eauto.
Qed.
End RowUpdate.

(** ** The column set of a patch *)

Section Columns.
Context {rt : Runtime}.

(** The parts of a prepared column set, block by block. *)
Lemma prepareItemForDatabase_inv (db : Db) (body : PostUpdateInput)
    (existingPost : WpPostRow) (user : AuthenticatedUser) (data : WpPostUpdateData) :
  prepareItemForDatabase db body existingPost user = inl data ->
  exists st au pw pa,
    prepare_status body existingPost user = inl st
    /\ prepare_author db body user = inl au
    /\ prepare_password db body existingPost = inl pw
    /\ check_sticky_existing_password body existingPost = inl tt
    /\ prepare_parent db body = inl pa
    /\ data = mkUpdateData (extractRawValue (title body))
                (extractRawValue (content body)) (extractRawValue (excerpt body)) st
                (fst (prepare_dates body (gmtOffset_of (getOption db "gmt_offset"))))
                (snd (prepare_dates body (gmtOffset_of (getOption db "gmt_offset"))))
                (slug body) au pw pa (b_menu_order body) (b_comment_status body)
                (b_ping_status body).
Proof.
  unfold prepareItemForDatabase. intro H.
  destruct (prepare_status body existingPost user) as [st|]; [|discriminate].
  destruct (prepare_author db body user) as [au|]; [|discriminate].
  destruct (prepare_password db body existingPost) as [pw|]; [|discriminate].
  destruct (check_sticky_existing_password body existingPost) as [[]|]; [|discriminate].
  destruct (prepare_parent db body) as [pa|]; [|discriminate].
  injection H as H. exists st, au, pw, pa. repeat split; auto.
Qed.

Lemma prepare_dates_absent (body : PostUpdateInput) (o : option Q) :
  date body = None -> date_gmt body = None -> prepare_dates body o = (None, None).
Proof. unfold prepare_dates. intros -> ->. reflexivity. Qed.

(** A column whose field the patch does not carry is not in the set. *)
Lemma prepare_columns (db : Db) (body : PostUpdateInput)
    (existingPost : WpPostRow) (user : AuthenticatedUser) (data : WpPostUpdateData) :
  prepareItemForDatabase db body existingPost user = inl data ->
  forall c, patch_col c body = false -> data_col c data = None.
Proof.
  intro H. apply prepareItemForDatabase_inv in H.
  destruct H as (st & au & pw & pa & Hst & Hau & Hpw & _ & Hpa & ->).
  unfold prepare_status in Hst. unfold prepare_author in Hau.
  unfold prepare_password in Hpw. unfold prepare_parent in Hpa.
  intros c Hc. destruct c; simpl in *; try reflexivity;
    repeat match goal with
           | H : _ || _ = false |- _ => apply orb_false_iff in H; destruct H
           | H : is_some ?x = false |- _ =>
               destruct x eqn:?; [discriminate | clear H]
           end;
    try (rewrite prepare_dates_absent by assumption);
    try (injection Hst as <-); try (injection Hau as <-);
    try (injection Hpw as <-); try (injection Hpa as <-); reflexivity.
Qed.

(** Step 5 rewrites the slug of the set and nothing else. *)
Lemma slugForDraftOrPending_cols (db : Db) (postId : Z) (existingPost : WpPostRow)
    (data : WpPostUpdateData) (c : column) :
  c <> c_post_name ->
  data_col c (slugForDraftOrPending db postId existingPost data) = data_col c data.
Proof.
  intro Hc. unfold slugForDraftOrPending.
  destruct (d_post_name data); [|reflexivity].
  break_match; [|reflexivity].
  destruct c; try reflexivity. contradiction.
Qed.

Lemma slugForDraftOrPending_none (db : Db) (postId : Z) (existingPost : WpPostRow)
    (data : WpPostUpdateData) (c : column) :
  data_col c data = None ->
  data_col c (slugForDraftOrPending db postId existingPost data) = None.
Proof.
  intro H. unfold slugForDraftOrPending.
  destruct (d_post_name data) eqn:E; [|exact H].
  break_match; [|exact H].
  destruct c; try exact H. simpl in H. rewrite E in H. discriminate.
Qed.

Lemma apply_update_provided (data : WpPostUpdateData) (p : WpPostRow)
    (c : column) (v : value) :
  data_col c data = Some v -> col c (apply_update data p) = v.
Proof.
  destruct c; simpl; try discriminate;
    match goal with
    | |- option_map _ ?x = _ -> _ => destruct x; simpl; intro H; now inversion H
    end.
Qed.

Lemma apply_update_absent (data : WpPostUpdateData) (p : WpPostRow) (c : column) :
  data_col c data = None -> is_timestamp c = false ->
  col c (apply_update data p) = col c p.
Proof.
  destruct c; simpl; try reflexivity; try discriminate;
    match goal with
    | |- option_map _ ?x = _ -> _ => destruct x; simpl; intros H _; now inversion H
    end.
Qed.

Lemma apply_update_timestamps (data : WpPostUpdateData) (p : WpPostRow) :
  post_modified (apply_update data p) = NOW
  /\ post_modified_gmt (apply_update data p) = UTC_TIMESTAMP.
Proof. split; reflexivity. Qed.

(** The shape of a successful update: the post was read, passed the
    checks, and its row is the old row under the prepared column set. *)
Lemma handlePostUpdate_ok (db db' : Db) (postId : Z) (body : PostUpdateInput)
    (user : AuthenticatedUser) (r : WpPostResponse) :
  handlePostUpdate db postId body user = (inl r, db') ->
  exists old data0,
    getPostById db postId = Some old
    /\ post_type old = "post"
    /\ checkPermissions db old body user = None
    /\ prepareItemForDatabase db body old user = inl data0
    /\ persistAndRespond db postId body old data0 = (inl r, db').
Proof.
  unfold handlePostUpdate. intro H.
  destruct (getPostById db postId) as [old|] eqn:Hget; [|discriminate].
  destruct (String.eqb (post_type old) "post") eqn:Ety; simpl in H; [|discriminate].
  destruct (checkPermissions db old body user) eqn:Hperm; [discriminate|].
  destruct (prepareItemForDatabase db body old user) as [data0|] eqn:Hprep;
    [|discriminate].
  exists old, data0. apply String.eqb_eq in Ety. auto.
Qed.
End Columns.

(** ** C9 and C10: the status of a patch *)

Section Status.
Context {rt : Runtime}.

Lemma slugForDraftOrPending_status (db : Db) (postId : Z) (existingPost : WpPostRow)
    (data : WpPostUpdateData) :
  d_post_status (slugForDraftOrPending db postId existingPost data) = d_post_status data.
Proof.
  unfold slugForDraftOrPending. destruct (d_post_name data); [|reflexivity].
  break_match; reflexivity.
Qed.

Lemma prepared_status (db : Db) (body : PostUpdateInput) (existingPost : WpPostRow)
    (user : AuthenticatedUser) (data : WpPostUpdateData) :
  prepareItemForDatabase db body existingPost user = inl data ->
  prepare_status body existingPost user = inl (d_post_status data).
Proof.
  intro H. apply prepareItemForDatabase_inv in H.
  destruct H as (st & au & pw & pa & Hst & _ & _ & _ & _ & ->). exact Hst.
Qed.

(** The status a successful request leaves and reports. *)
Lemma status_after_update (db db' : Db) (postId : Z) (body : PostUpdateInput)
    (user : AuthenticatedUser) (r : WpPostResponse) (old : WpPostRow) :
  getPostById db postId = Some old ->
  handlePostUpdate db postId body user = (inl r, db') ->
  exists new st,
    prepare_status body old user = inl st
    /\ getPostById db' postId = Some new
    /\ post_status new = or_old st (post_status old)
    /\ r_status r = post_status new.
Proof.
  intros Hget H. apply handlePostUpdate_ok in H.
  destruct H as (old' & data0 & Hget' & _ & _ & Hprep & Hrun).
  rewrite Hget in Hget'. injection Hget' as <-.
  destruct (persistAndRespond_ok _ _ _ _ _ _ _ Hget Hrun) as (Hnew & _ & _ & Hr).
  eexists. exists (d_post_status data0).
  split; [now apply prepared_status with (db := db)|].
  split; [exact Hnew|]. split.
  - simpl. now rewrite slugForDraftOrPending_status.
  - subst r. reflexivity.
Qed.
End Status.

(** C9: For every update whose patch sets status "trash" on a post whose
    current status is not "trash", the value written to [post_status] is
    "draft": the schema's enumeration accepts "trash", the normalizer has no
    case for it and answers with its fallback, so the prepared column set
    carries "draft" and a successful request leaves, and reports, a draft. *)
Theorem C9_trash_is_saved_as_draft {rt : Runtime} :
  postUpdateSchema (JObj [("status", JStr "trash")]) = inl (status_patch "trash")
  /\ (forall user, validateAndNormalizeStatus "trash" user = inl "draft")
  /\ (forall (db : Db) (body : PostUpdateInput) (old : WpPostRow)
             (user : AuthenticatedUser) (data : WpPostUpdateData),
        b_status body = Some "trash" -> post_status old <> "trash" ->
        prepareItemForDatabase db body old user = inl data ->
        d_post_status data = Some "draft")
  /\ (forall (db db' : Db) (postId : Z) (body : PostUpdateInput) (old : WpPostRow)
             (user : AuthenticatedUser) (r : WpPostResponse),
        b_status body = Some "trash" ->
        getPostById db postId = Some old -> post_status old <> "trash" ->
        handlePostUpdate db postId body user = (inl r, db') ->
        exists new,
          getPostById db' postId = Some new
          /\ post_status new = "draft" /\ r_status r = "draft").
Proof.
  assert (Hst : forall body old user,
             b_status body = Some "trash" -> post_status old <> "trash" ->
             prepare_status body old user = inl (Some "draft")).
  { intros body old user Hb Hne. unfold prepare_status. rewrite Hb.
    destruct (String.eqb_spec "trash" (post_status old)) as [E|_].
    - symmetry in E. contradiction.
    - reflexivity. }
  split; [reflexivity|]. split; [reflexivity|]. split.
  - intros db body old user data Hb Hne Hprep.
    apply prepared_status in Hprep. rewrite (Hst _ _ _ Hb Hne) in Hprep.
    now injection Hprep as <-.
  - intros db db' postId body old user r Hb Hget Hne H.
    destruct (status_after_update _ _ _ _ _ _ _ Hget H) as (new & st & Hs & Hnew & Hps & Hr).
    rewrite (Hst _ _ _ Hb Hne) in Hs. injection Hs as <-. simpl in Hps.
    exists new. rewrite Hr. auto.
Qed.

(** At the reference site the administrator trashes the published post 43;
    the request succeeds and the post is a draft. *)
Lemma C9_trash_is_saved_as_draft_witness :
  let request := Site.patch "43" Site.alice [("status", JStr "trash")] in
  let user := Site.principal 1 "alice" in
  authenticateRequest Site.alice Site.db0 = Some user
  /\ Site.status_of (handleUpdate request Site.db0) = 200
  /\ option_map post_status (getPostById Site.db0 43) = Some "publish"
  /\ exists r db',
      handlePostUpdate Site.db0 43 (status_patch "trash") user = (inl r, db')
      /\ exists new,
          getPostById db' 43 = Some new
          /\ post_status new = "draft" /\ r_status r = "draft".
Proof.
  intros request user.
  split; [reflexivity|]. split; [reflexivity|]. split; [reflexivity|].
  destruct (handlePostUpdate Site.db0 43 (status_patch "trash") user)
    as [[r|e] db'] eqn:Hrun.
  - exists r, db'. split; [reflexivity|].
    apply (proj2 (proj2 (proj2 C9_trash_is_saved_as_draft))
             Site.db0 db' 43 (status_patch "trash")
             (Site.a_post 43 1 "publish" "first") user r);
      [reflexivity | reflexivity | discriminate | exact Hrun].
  - exfalso. vm_compute in Hrun. discriminate.
Defined.

(** C10: For every patch whose status equals the post's current status the
    normalizer is not run: the status block yields no column whoever the
    principal is, the prepared set is the one of the same patch without its
    status, and a principal who may edit the post, with or without the publish
    capability, resending the status the post already has receives the
    success response with that status. *)
Theorem C10_same_status_skips_normalizer {rt : Runtime} :
  (forall (db : Db) (body : PostUpdateInput) (old : WpPostRow) (user : AuthenticatedUser),
      b_status body = Some (post_status old) ->
      prepare_status body old user = inl None
      /\ prepareItemForDatabase db body old user
         = prepareItemForDatabase db (without_status body) old user
      /\ (forall data, prepareItemForDatabase db body old user = inl data ->
                       d_post_status data = None))
  /\ (forall (db : Db) (postId : Z) (old : WpPostRow) (user : AuthenticatedUser),
        getPostById db postId = Some old ->
        post_type old = "post" ->
        checkUpdatePermission user old = true ->
        exists r db',
          handlePostUpdate db postId (status_patch (post_status old)) user = (inl r, db')
          /\ r_status r = post_status old).
Proof.
  assert (Hst : forall body old user,
             b_status body = Some (post_status old) ->
             prepare_status body old user = inl None).
  { intros body old user Hb. unfold prepare_status.
    rewrite Hb, String.eqb_refl. reflexivity. }
  split.
  - intros db body old user Hb. split; [now apply Hst|]. split.
    + unfold prepareItemForDatabase. rewrite (Hst _ _ _ Hb). reflexivity.
    + intros data Hprep. apply prepared_status in Hprep.
      rewrite (Hst _ _ _ Hb) in Hprep. now injection Hprep.
  - intros db postId old user Hget Hty Hperm.
    assert (Hprep : prepareItemForDatabase db (status_patch (post_status old)) old user
                    = inl empty_update).
    { unfold prepareItemForDatabase.
      rewrite (Hst (status_patch (post_status old)) old user eq_refl). reflexivity. }
    destruct (persistAndRespond_returns db postId (status_patch (post_status old))
                old empty_update Hget) as (r & db' & Hrun).
    { intros fm Hfm. discriminate. }
    exists r, db'.
    assert (H : handlePostUpdate db postId (status_patch (post_status old)) user
                = (inl r, db')).
    { unfold handlePostUpdate. rewrite Hget, Hty. simpl.
      unfold checkPermissions. rewrite Hperm. simpl.
      rewrite Hprep. exact Hrun. }
    split; [exact H|].
    destruct (status_after_update _ _ _ _ _ _ _ Hget H) as (new & st & Hs & _ & Hps & Hr).
    rewrite (Hst (status_patch (post_status old)) old user eq_refl) in Hs.
    injection Hs as <-.
    rewrite Hr, Hps. reflexivity.
Qed.

(** At the reference site carol, who may edit her published post 44 and
    does not hold [publish_posts], resends status "publish". *)
Lemma C10_same_status_skips_normalizer_witness :
  let user := Site.principal 3 "carol" in
  authenticateRequest Site.carol Site.db0 = Some user
  /\ has_cap (allcaps user) "publish_posts" = false
  /\ Site.status_of
       (handleUpdate (Site.patch "44" Site.carol [("status", JStr "publish")]) Site.db0)
     = 200
  /\ exists r db',
      handlePostUpdate Site.db0 44 (status_patch "publish") user = (inl r, db')
      /\ r_status r = "publish".
Proof.
  intro user.
  split; [reflexivity|]. split; [reflexivity|]. split; [reflexivity|].
  apply (proj2 C10_same_status_skips_normalizer Site.db0 44
           (Site.a_post 44 3 "publish" "second") user); reflexivity.
Defined.

(** ** C1: what the transaction keeps *)

Lemma withTransaction_commits {T : Type} (fn : Db -> completion T * Db)
    (db conn : Db) (r : T) :
  fn db = (Returned r, conn) -> withTransaction fn db = (Returned r, conn).
Proof. unfold withTransaction. intros ->. reflexivity. Qed.

Lemma withTransaction_rolls_back {T : Type} (fn : Db -> completion T * Db)
    (db conn : Db) (err : option string) :
  fn db = (Thrown err, conn) -> withTransaction fn db = (Thrown err, db).
Proof. unfold withTransaction. intros ->. reflexivity. Qed.

(** The callback of the route returns whatever the service answers, an
    error value included; it never throws. *)
Lemma transaction_body_returns {rt : Runtime} (request : Request) (postId : Z)
    (body : PostUpdateInput) (conn : Db) :
  exists r conn', transaction_body request postId body conn = (Returned r, conn').
Proof.
  unfold transaction_body.
  destruct (authenticateRequest (header_authorization request) conn) as [user|].
  - destruct (handlePostUpdate conn postId body user) as [r conn']. eauto.
  - eauto.
Qed.

(** C1: The claim is that a failure after the row update aborts the
    transaction and nothing of the persist or side-effect steps is kept. The
    code answers a failed featured-media check with an error value, not an
    exception, and [withTransaction] commits every returned value: at the
    reference site bob's patch of post 42 with a new title and the
    featured media 999, which is no attachment, is answered 400
    [rest_invalid_featured_media], and the title and the modification time
    of the row are the new ones all the same. *)
Theorem C1_failed_side_effect_is_committed :
  let request := Site.patch "42" Site.bob
                   [("title", JStr "New"); ("featured_media", Site.num 999)] in
  let answer := handleUpdate request Site.db0 in
  isValidAttachment Site.db0 999 = false
  /\ Site.status_of answer = 400
  /\ Site.code_of answer = "rest_invalid_featured_media"
  /\ option_map post_title (getPostById Site.db0 42) = Some "Old title"
  /\ option_map post_title (getPostById (snd answer) 42) = Some "New"
  /\ option_map post_modified (getPostById Site.db0 42) = Some "2024-01-15 10:30:00"
  /\ option_map post_modified (getPostById (snd answer) 42) = Some "2024-06-01 12:00:00"
  /\ snd answer <> Site.db0.
Proof.
  intros request answer.
  repeat (split; [vm_compute; reflexivity|]).
  intro H.
  assert (E : option_map post_title (getPostById (snd answer) 42)
              = option_map post_title (getPostById Site.db0 42)) by (rewrite H; reflexivity).
  vm_compute in E. discriminate.
Qed.

(** ** C3: the status of a denial *)

(** The checks of [checkPermissions] all answer 403. *)
Lemma checkPermissions_403 (db : Db) (post : WpPostRow) (body : PostUpdateInput)
    (user : AuthenticatedUser) (e : WpError) :
  checkPermissions db post body user = Some e -> status e = 403.
Proof.
  unfold checkPermissions. intro H.
  repeat match type of H with
         | (if ?c then _ else _) = _ => destruct c
         end; try discriminate; injection H as <-; reflexivity.
Qed.

(** The status check answers by the [edit_posts] capability. *)
Lemma validateAndNormalizeStatus_denial (st : string) (user : AuthenticatedUser)
    (e : WpError) :
  validateAndNormalizeStatus st user = inr e ->
  code e = "rest_cannot_publish"
  /\ has_cap (allcaps user) "publish_posts" = false
  /\ status e = if has_cap (allcaps user) "edit_posts" then 403 else 401.
Proof.
  unfold validateAndNormalizeStatus. intro H.
  repeat match type of H with
         | (if ?c then _ else _) = _ => destruct c eqn:?
         end; try discriminate; injection H as <-;
    match goal with
    | E : negb _ = true |- _ => apply negb_true_iff in E; rewrite E
    end; auto.
Qed.

(** C3: The claim is that a denied request is answered 401 exactly when
    it is unauthenticated and 403 whenever the principal is authenticated,
    the same in every check. The status-change check answers by the
    [edit_posts] capability instead: at the reference site dave is
    authenticated, may edit his published post 45 through
    [edit_published_posts], holds neither [edit_posts] nor [publish_posts],
    and his patch to "private" is answered 401 [rest_cannot_publish], where
    [restAuthorizationRequiredCode] gives 403 for an authenticated principal. *)
Theorem C3_authenticated_principal_answered_401 :
  let request := Site.patch "45" Site.dave [("status", JStr "private")] in
  let user := Site.principal 4 "dave" in
  let answer := handleUpdate request Site.db0 in
  authenticateRequest Site.dave Site.db0 = Some user
  /\ checkPermissions Site.db0 (Site.a_post 45 4 "publish" "third")
       (status_patch "private") user = None
  /\ Site.status_of answer = 401
  /\ Site.code_of answer = "rest_cannot_publish"
  /\ restAuthorizationRequiredCode true = 403.
Proof. intros request user answer. repeat split; vm_compute; reflexivity. Qed.

(** ** C2: a status outside the enumeration *)

Lemma schema_rejects_status (fields : list (string * json)) (v : json) :
  obj_get fields "status" = Some v ->
  (forall st, v = JStr st -> existsb (String.eqb st) status_enum = false) ->
  exists issue, postUpdateSchema (JObj fields) = inr issue.
Proof.
  intros Hget Hv. unfold postUpdateSchema.
  destruct (z_optional z_raw_field fields "title"); [|eauto].
  destruct (z_optional z_raw_field fields "content"); [|eauto].
  destruct (z_optional z_raw_field fields "excerpt"); [|eauto].
  assert (E : exists issue,
             z_optional (z_enum status_enum) fields "status" = inr issue).
  { unfold z_optional. rewrite Hget. unfold z_enum.
    destruct v; eauto. rewrite (Hv s eq_refl). eauto. }
  destruct E as [issue ->]. eauto.
Qed.

(** A body the schema rejects is answered 400 and the store is not read. *)
Lemma handleUpdate_schema_failure {rt : Runtime} (request : Request) (db : Db)
    (postId : Z) (rawBody : json) (issue : ZodIssue) :
  parseInt10 (param_postId request) = Some postId -> 0 < postId ->
  req_json request = Some rawBody ->
  postUpdateSchema rawBody = inr issue ->
  exists e, handleUpdate request db = (toResponse e, db)
            /\ code e = "rest_invalid_param" /\ status e = 400.
Proof.
  intros Hid Hpos Hjson Hschema. unfold handleUpdate.
  rewrite Hid. destruct (Z.leb_spec postId 0) as [Hle|_]; [lia|].
  rewrite Hjson, Hschema. eexists. split; [reflexivity|]. split; reflexivity.
Qed.

(** C2, as amended: For every principal the status normalizer maps a
    value it has no case for, such as "bogus-value", to "draft"; at the
    endpoint a patch whose status is not a value of the schema's enumeration
    is rejected with 400 [rest_invalid_param] before the store is read, and
    the post is left as it was. *)
Theorem C2_unrecognized_status_normalizer_and_schema {rt : Runtime} :
  (forall (st : string) (user : AuthenticatedUser),
      existsb (String.eqb st) normalizer_statuses = false ->
      validateAndNormalizeStatus st user = inl "draft")
  /\ (forall (request : Request) (db : Db) (postId : Z)
             (fields : list (string * json)) (v : json),
        parseInt10 (param_postId request) = Some postId -> 0 < postId ->
        req_json request = Some (JObj fields) ->
        obj_get fields "status" = Some v ->
        (forall st, v = JStr st -> existsb (String.eqb st) status_enum = false) ->
        exists e, handleUpdate request db = (toResponse e, db)
                  /\ code e = "rest_invalid_param" /\ status e = 400).
Proof.
  split.
  - intros st user H. unfold normalizer_statuses in H. simpl in H.
    repeat (apply orb_false_iff in H; destruct H as [? H]).
    unfold validateAndNormalizeStatus.
    repeat match goal with E : String.eqb _ _ = false |- _ => rewrite E; clear E end.
    reflexivity.
  - intros request db postId fields v Hid Hpos Hjson Hget Hv.
    destruct (schema_rejects_status fields v Hget Hv) as [issue Hissue].
    exact (handleUpdate_schema_failure request db postId (JObj fields) issue
             Hid Hpos Hjson Hissue).
Qed.

(** The administrator's patch of post 43 with the status "bogus-value". *)
Lemma C2_unrecognized_status_normalizer_and_schema_witness :
  let request := Site.patch "43" Site.alice [("status", JStr "bogus-value")] in
  validateAndNormalizeStatus "bogus-value" (Site.principal 1 "alice") = inl "draft"
  /\ exists e, handleUpdate request Site.db0 = (toResponse e, Site.db0)
               /\ code e = "rest_invalid_param" /\ status e = 400.
Proof.
  intro request. split.
  - apply (proj1 C2_unrecognized_status_normalizer_and_schema). reflexivity.
  - apply (proj2 C2_unrecognized_status_normalizer_and_schema request Site.db0 43
             [("status", JStr "bogus-value")] (JStr "bogus-value"));
      try reflexivity.
    intros st E. injection E as <-. reflexivity.
Defined.

(** The claim as stated fails: the administrator, who holds
    [publish_posts], sends the status "bogus-value" for the published post
    43; the request does not succeed and the post is not saved as a draft. *)
Lemma C2_bogus_status_is_rejected :
  let request := Site.patch "43" Site.alice [("status", JStr "bogus-value")] in
  let answer := handleUpdate request Site.db0 in
  has_cap (allcaps (Site.principal 1 "alice")) "publish_posts" = true
  /\ ~ (Site.status_of answer = 200
        /\ option_map post_status (getPostById (snd answer) 43) = Some "draft")
  /\ Site.status_of answer = 400
  /\ Site.code_of answer = "rest_invalid_param"
  /\ option_map post_status (getPostById (snd answer) 43) = Some "publish".
Proof.
  intros request answer. split; [reflexivity|]. split.
  - intros [H _]. vm_compute in H. discriminate.
  - repeat split; vm_compute; reflexivity.
Qed.

(** ** C5: sticky and password *)

Section StickyPassword.
Context {rt : Runtime}.

(** Under the conflict one of the two password blocks returns its error. *)
Lemma conflict_blocks (db : Db) (body : PostUpdateInput) (existingPost : WpPostRow) :
  sticky_password_conflict db body existingPost = true ->
  (exists msg, prepare_password db body existingPost
               = inr (mkWpError "rest_invalid_field" msg 400))
  \/ (exists pw msg,
        prepare_password db body existingPost = inl pw
        /\ check_sticky_existing_password body existingPost
           = inr (mkWpError "rest_invalid_field" msg 400)).
Proof.
  unfold sticky_password_conflict, sets_password, prepare_password,
    check_sticky_existing_password.
  intro H.
  destruct (password body) as [pw|]; simpl in *.
  - destruct (String.eqb pw EmptyString); simpl in *.
    + rewrite orb_false_r, orb_false_r in H. rewrite H. right. eauto.
    + destruct (is_true (sticky body)); simpl in *; [left; eauto|].
      rewrite orb_false_r in H. rewrite H. left. eauto.
  - rewrite orb_false_r, orb_false_r in H. rewrite H. right. eauto.
Qed.

Lemma conflict_prepare (db : Db) (body : PostUpdateInput) (existingPost : WpPostRow)
    (user : AuthenticatedUser) :
  sticky_password_conflict db body existingPost = true ->
  (exists e, prepareItemForDatabase db body existingPost user = inr e)
  /\ (forall st au,
        prepare_status body existingPost user = inl st ->
        prepare_author db body user = inl au ->
        exists msg, prepareItemForDatabase db body existingPost user
                    = inr (mkWpError "rest_invalid_field" msg 400)).
Proof.
  intro H. apply conflict_blocks in H. unfold prepareItemForDatabase.
  split.
  - destruct (prepare_status body existingPost user); [|eauto].
    destruct (prepare_author db body user); [|eauto].
    destruct H as [[msg ->] | (pw & msg & -> & ->)]; eauto.
  - intros st au -> ->.
    destruct H as [[msg ->] | (pw & msg & -> & ->)]; eauto.
Qed.
End StickyPassword.

(** C5, as amended: Every patch that sets sticky=true while the post has
    or is given a non-empty password, and every patch that sets a non-empty
    password while the post is or is made sticky, is rejected before any
    persistence: the service answers an error and the store is the one it was
    given, whichever of the two fields the payload lists first. The error is
    [rest_invalid_field] with status 400 whenever the request passes the checks
    that run before the password blocks (the post is a post, the permission
    checks, the status check and the author check); otherwise it is the error
    of the first of those checks that fails. *)
Theorem C5_sticky_password_conflict_rejected {rt : Runtime}
    (db : Db) (postId : Z) (body : PostUpdateInput) (user : AuthenticatedUser)
    (existingPost : WpPostRow) :
  getPostById db postId = Some existingPost ->
  sticky_password_conflict db body existingPost = true ->
  (exists e, handlePostUpdate db postId body user = (inr e, db))
  /\ (post_type existingPost = "post" ->
      checkPermissions db existingPost body user = None ->
      (exists st, prepare_status body existingPost user = inl st) ->
      (exists au, prepare_author db body user = inl au) ->
      exists msg, handlePostUpdate db postId body user
                  = (inr (mkWpError "rest_invalid_field" msg 400), db)).
Proof.
  intros Hget Hconf.
  destruct (conflict_prepare db body existingPost user Hconf) as [[e He] Hfield].
  unfold handlePostUpdate. rewrite Hget. split.
  - destruct (negb (String.eqb (post_type existingPost) "post")); [eauto|].
    destruct (checkPermissions db existingPost body user); [eauto|].
    rewrite He. eauto.
  - intros Hty Hperm [st Hst] [au Hau].
    rewrite Hty, Hperm. simpl.
    destruct (Hfield st au Hst Hau) as [msg ->]. eauto.
Qed.

(** Erin makes the draft 42 sticky and gives it a password, in either
    order of the two fields. *)
Lemma C5_sticky_password_conflict_rejected_witness :
  let user := Site.principal 5 "erin" in
  let old := Site.a_post 42 2 "draft" "hello-world" in
  let b1 := patch_of [("sticky", JBool true); ("password", JStr "x")] in
  let b2 := patch_of [("password", JStr "x"); ("sticky", JBool true)] in
  b1 = b2
  /\ exists msg, handlePostUpdate Site.db0 42 b1 user
                 = (inr (mkWpError "rest_invalid_field" msg 400), Site.db0).
Proof.
  intros user old b1 b2. split; [reflexivity|].
  apply (proj2 (C5_sticky_password_conflict_rejected Site.db0 42 b1 user old
                  eq_refl eq_refl)); try reflexivity.
  - exists None. reflexivity.
  - exists None. reflexivity.
Defined.

(** The claim as stated fails: erin, who may edit the draft 42 and may make
    posts sticky, sends sticky=true with a password and the status "publish",
    which she may not set; the answer is 403 [rest_cannot_publish], not the
    400 of the field conflict. *)
Lemma C5_conflict_answered_403 :
  let body := patch_of [("status", JStr "publish"); ("sticky", JBool true);
                        ("password", JStr "x")] in
  let request := Site.patch "42" Site.erin
                   [("status", JStr "publish"); ("sticky", JBool true);
                    ("password", JStr "x")] in
  let answer := handleUpdate request Site.db0 in
  sticky_password_conflict Site.db0 body (Site.a_post 42 2 "draft" "hello-world") = true
  /\ ~ (Site.status_of answer = 400)
  /\ Site.status_of answer = 403
  /\ Site.code_of answer = "rest_cannot_publish".
Proof.
  intros body request answer. split; [reflexivity|]. split.
  - intro H. vm_compute in H. discriminate.
  - split; vm_compute; reflexivity.
Qed.

(** ** C8: the sticky registry *)

Lemma positive_numbers_map_Some (l : list Z) :
  positive_numbers (map Some l) = filter (fun n => 0 <? n) l.
Proof.
  induction l as [|n l IH]; simpl; [reflexivity|].
  rewrite IH. reflexivity.
Qed.

Lemma positive_numbers_positive (ns : list (option Z)) :
  Forall (fun n => 0 < n) (positive_numbers ns).
Proof.
  induction ns as [|[n|] ns IH]; simpl; auto.
  destruct (Z.ltb_spec 0 n); auto.
Qed.

Lemma getStickyPosts_positive (db : Db) : Forall (fun n => 0 < n) (getStickyPosts db).
Proof.
  unfold getStickyPosts.
  destruct (sticky_posts db); auto using positive_numbers_positive.
Qed.

Lemma filter_positive_id (l : list Z) :
  Forall (fun n => 0 < n) l -> filter (fun n => 0 <? n) l = l.
Proof.
  induction 1 as [|n l Hn _ IH]; simpl; [reflexivity|].
  apply Z.ltb_lt in Hn. rewrite Hn, IH. reflexivity.
Qed.

Lemma getStickyPosts_setStickyPosts (db : Db) (l : list Z) :
  getStickyPosts (setStickyPosts db l) = filter (fun n => 0 <? n) l.
Proof. unfold getStickyPosts. simpl. apply positive_numbers_map_Some. Qed.

Lemma setStickyPosts_twice (db : Db) (a b : list Z) :
  setStickyPosts (setStickyPosts db a) b = setStickyPosts db b.
Proof. reflexivity. Qed.

(** What the registry reads after the id was pushed. *)
Lemma getStickyPosts_pushed (db : Db) (postId : Z) :
  getStickyPosts (setStickyPosts db (getStickyPosts db ++ [postId]))
  = getStickyPosts db ++ (if 0 <? postId then [postId] else []).
Proof.
  rewrite getStickyPosts_setStickyPosts, filter_app.
  rewrite (filter_positive_id _ (getStickyPosts_positive db)).
  simpl. destruct (0 <? postId); reflexivity.
Qed.

Lemma remove_first_In (x y : Z) (l : list Z) : In y (remove_first x l) -> In y l.
Proof.
  induction l as [|z l IH]; simpl; [tauto|].
  destruct (z =? x); simpl; tauto.
Qed.

Lemma remove_first_positive (x : Z) (l : list Z) :
  Forall (fun n => 0 < n) l -> Forall (fun n => 0 < n) (remove_first x l).
Proof.
  rewrite !Forall_forall. intros H y Hy. apply H. eapply remove_first_In. exact Hy.
Qed.

Lemma remove_first_NoDup (x : Z) (l : list Z) : NoDup l -> NoDup (remove_first x l).
Proof.
  induction 1 as [|z l Hz Hl IH]; simpl; [constructor|].
  destruct (z =? x); [exact Hl|].
  constructor; [|exact IH]. intro Hin. apply Hz. eapply remove_first_In. exact Hin.
Qed.

(** C8: The sticky side effect is idempotent: applying sticky=true a
    second time leaves the store the first application produced; for the id of
    a post, in a registry that holds it at most once, the registry holds it
    exactly once afterwards, whether or not it was there before; applying
    sticky=false when the id is absent leaves the store unchanged; and neither
    direction ever puts a duplicate into a registry that has none. *)
Theorem C8_sticky_side_effect_idempotent (db : Db) (postId : Z) :
  handleStickyStatus (handleStickyStatus db postId true) postId true
  = handleStickyStatus db postId true
  /\ (0 < postId ->
      (count_occ Z.eq_dec (getStickyPosts db) postId <= 1)%nat ->
      count_occ Z.eq_dec (getStickyPosts (handleStickyStatus db postId true)) postId
      = 1%nat)
  /\ (includes (getStickyPosts db) postId = false ->
      handleStickyStatus db postId false = db)
  /\ (forall sticky : bool,
        NoDup (getStickyPosts db) ->
        NoDup (getStickyPosts (handleStickyStatus db postId sticky))).
Proof.
  split; [|split; [|split]].
  - destruct (includes (getStickyPosts db) postId) eqn:Hin.
    + assert (E : handleStickyStatus db postId true = db)
        by (unfold handleStickyStatus; rewrite Hin; reflexivity).
      rewrite E. exact E.
    + assert (E : handleStickyStatus db postId true
                  = setStickyPosts db (getStickyPosts db ++ [postId]))
        by (unfold handleStickyStatus; rewrite Hin; reflexivity).
      rewrite E. unfold handleStickyStatus. rewrite getStickyPosts_pushed.
      destruct (Z.ltb_spec 0 postId) as [Hpos|Hneg].
      * assert (E' : includes (getStickyPosts db ++ [postId]) postId = true).
        { apply includes_true, in_or_app. right. now left. }
        rewrite E'. reflexivity.
      * rewrite app_nil_r, Hin. simpl. apply setStickyPosts_twice.
  - intros Hpos Hcount. unfold handleStickyStatus.
    destruct (includes (getStickyPosts db) postId) eqn:Hin; simpl.
    + apply includes_true in Hin.
      apply (count_occ_In Z.eq_dec) in Hin. lia.
    + apply includes_false in Hin.
      rewrite getStickyPosts_pushed.
      apply Z.ltb_lt in Hpos. rewrite Hpos.
      rewrite count_occ_app. simpl.
      apply (count_occ_not_In Z.eq_dec) in Hin. rewrite Hin.
      destruct (Z.eq_dec postId postId); [reflexivity | contradiction].
  - intro Hin. unfold handleStickyStatus. rewrite Hin. reflexivity.
  - intros sticky Hnd. unfold handleStickyStatus.
    destruct sticky, (includes (getStickyPosts db) postId) eqn:Hin;
      simpl; try exact Hnd.
    + rewrite getStickyPosts_pushed. apply includes_false in Hin.
      destruct (0 <? postId); [|now rewrite app_nil_r].
      apply NoDup_app; [exact Hnd | repeat constructor; tauto |].
      intros y Hy [<-|[]]. contradiction.
    + rewrite getStickyPosts_setStickyPosts, filter_positive_id.
      * now apply remove_first_NoDup.
      * apply remove_first_positive, getStickyPosts_positive.
Qed.

(** At the reference site the registry is [43]: making 42 sticky twice
    gives [43; 42], and unsticking 44, which is absent, changes nothing. *)
Lemma C8_sticky_side_effect_idempotent_witness :
  getStickyPosts Site.db0 = [43]
  /\ getStickyPosts (handleStickyStatus (handleStickyStatus Site.db0 42 true) 42 true)
     = [43; 42]
  /\ count_occ Z.eq_dec (getStickyPosts (handleStickyStatus Site.db0 42 true)) 42 = 1%nat
  /\ handleStickyStatus Site.db0 44 false = Site.db0.
Proof.
  destruct (C8_sticky_side_effect_idempotent Site.db0 42) as (H1 & H2 & _).
  destruct (C8_sticky_side_effect_idempotent Site.db0 44) as (_ & _ & H3 & _).
  split; [reflexivity|]. split; [rewrite H1; reflexivity|]. split.
  - apply H2; [lia | simpl; lia].
  - apply H3. reflexivity.
Defined.

(** ** C7: the date of a patch *)

Section DatePaths.
Context {rt : Runtime}.

Lemma slugForDraftOrPending_dates (db : Db) (postId : Z) (existingPost : WpPostRow)
    (data : WpPostUpdateData) :
  d_post_date (slugForDraftOrPending db postId existingPost data) = d_post_date data
  /\ d_post_date_gmt (slugForDraftOrPending db postId existingPost data)
     = d_post_date_gmt data.
Proof.
  unfold slugForDraftOrPending. destruct (d_post_name data); [|split; reflexivity].
  break_match; split; reflexivity.
Qed.

Lemma prepare_dates_reset (body : PostUpdateInput) (off : option Q) :
  resets_date body -> prepare_dates body off = (Some ZERO_DATE, Some ZERO_DATE).
Proof.
  unfold prepare_dates. intros [-> | [-> ->]]; reflexivity.
Qed.

(** A whole number of hours moves a time value by that many hours. *)
Lemma shift_hours_whole (t k sign : Z) :
  Z.abs (t + sign * (k * 3600000)) <= 8640000000000000 ->
  shift_hours (Some t) sign (Some (inject_Z k)) = Some (t + sign * (k * 3600000)).
Proof.
  intro H. unfold shift_hours, TimeClip, Qtrunc, ms_per_hour. simpl.
  rewrite Z.quot_1_r.
  replace ((t * 1 + sign * (k * 3600000) * 1)) with (t + sign * (k * 3600000)) by ring.
  apply Z.leb_le in H. rewrite H. reflexivity.
Qed.

(** The dates a successful request leaves, and the two it reports. *)
Lemma dates_after_update (db db' : Db) (postId : Z) (body : PostUpdateInput)
    (user : AuthenticatedUser) (r : WpPostResponse) :
  handlePostUpdate db postId body user = (inl r, db') ->
  exists old new,
    getPostById db postId = Some old
    /\ getPostById db' postId = Some new
    /\ let dates := prepare_dates body (gmtOffset_of (getOption db "gmt_offset")) in
       post_date new = or_old (fst dates) (post_date old)
       /\ post_date_gmt new = or_old (snd dates) (post_date_gmt old)
       /\ r_date r = mysqlToRfc3339 (post_date new)
       /\ r_date_gmt r = prepareDateGmt (post_date_gmt new) (post_date new)
                           (gmtOffset_of (getOption db' "gmt_offset")).
Proof.
  intro H. apply handlePostUpdate_ok in H.
  destruct H as (old & data0 & Hget & _ & _ & Hprep & Hrun).
  destruct (persistAndRespond_ok _ _ _ _ _ _ _ Hget Hrun) as (Hnew & _ & _ & Hr).
  apply prepareItemForDatabase_inv in Hprep.
  destruct Hprep as (st & au & pw & pa & _ & _ & _ & _ & _ & Hdata).
  exists old. eexists. split; [exact Hget|]. split; [exact Hnew|].
  destruct (slugForDraftOrPending_dates db postId old data0) as [E1 E2].
  subst r. simpl. rewrite E1, E2. subst data0. simpl.
  repeat split; reflexivity.
Qed.
End DatePaths.

(** C7: When a patch supplies a date exactly one derivation runs, [date]
    before [date_gmt]: with [date] present the columns do not depend on
    [date_gmt]; a local date is stored as given and its UTC value is the time
    moved back by the site offset; a GMT date, taken when [date] is absent, is
    stored as given and its local value is the time moved forward by the
    offset; a whole number of hours moves the time by exactly that much. A
    [null] in the field that is taken resets both columns to the zero date, and
    the response of such a request reports [date] and [date_gmt] as [null],
    the runtime's [Date] rejecting the zero date. *)
Theorem C7_date_derivation_and_reset {rt : Runtime} :
  (forall (body : PostUpdateInput) (off : option Q) (d : option string),
      date body = Some d ->
      forall g, prepare_dates body off = prepare_dates (with_date_gmt body g) off)
  /\ (forall (body : PostUpdateInput) (off : option Q) (s : string) (t : Z),
        date body = Some (Some s) -> Date_parse s = Some t ->
        prepare_dates body off
        = (Some (formatMysqlDatetime (Some t)),
           Some (formatMysqlDatetime (shift_hours (Some t) (-1) off))))
  /\ (forall (body : PostUpdateInput) (off : option Q) (s : string) (t : Z),
        date body = None -> date_gmt body = Some (Some s) -> Date_parse s = Some t ->
        prepare_dates body off
        = (Some (formatMysqlDatetime (shift_hours (Some t) 1 off)),
           Some (formatMysqlDatetime (Some t))))
  /\ (forall (t k : Z),
        Z.abs (t - k * 3600000) <= 8640000000000000 ->
        Z.abs (t + k * 3600000) <= 8640000000000000 ->
        shift_hours (Some t) (-1) (Some (inject_Z k)) = Some (t - k * 3600000)
        /\ shift_hours (Some t) 1 (Some (inject_Z k)) = Some (t + k * 3600000))
  /\ (forall (body : PostUpdateInput) (off : option Q),
        resets_date body ->
        prepare_dates body off = (Some ZERO_DATE, Some ZERO_DATE))
  /\ (forall (db db' : Db) (postId : Z) (body : PostUpdateInput)
             (user : AuthenticatedUser) (r : WpPostResponse),
        Date_parse "0000-00-00T00:00:00" = None ->
        resets_date body ->
        handlePostUpdate db postId body user = (inl r, db') ->
        exists new,
          getPostById db' postId = Some new
          /\ post_date new = ZERO_DATE /\ post_date_gmt new = ZERO_DATE
          /\ r_date r = None /\ r_date_gmt r = None).
Proof.
  split; [|split; [|split; [|split; [|split]]]].
  - intros body off d Hd g. unfold prepare_dates. simpl. rewrite Hd. reflexivity.
  - intros body off s t Hd Hp. unfold prepare_dates, restGetDateWithGmt.
    rewrite Hd, Hp. reflexivity.
  - intros body off s t Hd Hg Hp. unfold prepare_dates, restGetDateWithGmt.
    rewrite Hd, Hg, Hp. reflexivity.
  - intros t k Hsub Hadd. split.
    + rewrite shift_hours_whole.
      * f_equal; ring.
      * replace (t + -1 * (k * 3600000)) with (t - k * 3600000) by ring. assumption.
    + rewrite shift_hours_whole.
      * f_equal; ring.
      * replace (t + 1 * (k * 3600000)) with (t + k * 3600000) by ring. assumption.
  - intros body off. apply prepare_dates_reset.
  - intros db db' postId body user r Hzero Hreset H.
    apply dates_after_update in H.
    destruct H as (old & new & _ & Hnew & Hd & Hg & Hrd & Hrg).
    rewrite (prepare_dates_reset body _ Hreset) in Hd, Hg. simpl in Hd, Hg.
    exists new. split; [exact Hnew|]. split; [exact Hd|]. split; [exact Hg|].
    rewrite Hrd, Hrg, Hd, Hg. split; [reflexivity|].
    unfold prepareDateGmt. simpl. rewrite Hzero. reflexivity.
Qed.

(** At the reference site, whose offset is two hours: a local date is
    stored with its UTC value two hours earlier, and the administrator's patch
    of post 42 with [date] [null] resets both columns and is answered with
    both dates [null]. *)
Lemma C7_date_derivation_and_reset_witness :
  let user := Site.principal 1 "alice" in
  let off := gmtOffset_of (getOption Site.db0 "gmt_offset") in
  prepare_dates (patch_of [("date", JStr "2024-01-15T10:30:00")]) off
  = (Some "2024-01-15 10:30:00", Some "2024-01-15 08:30:00")
  /\ exists r db',
      handlePostUpdate Site.db0 42 (patch_of [("date", JNull)]) user = (inl r, db')
      /\ exists new,
          getPostById db' 42 = Some new
          /\ post_date new = ZERO_DATE /\ post_date_gmt new = ZERO_DATE
          /\ r_date r = None /\ r_date_gmt r = None.
Proof.
  intros user off.
  destruct C7_date_derivation_and_reset as (_ & Hlocal & _ & _ & _ & Hend).
  split.
  - rewrite (Hlocal _ off "2024-01-15T10:30:00" 1705314600000);
      reflexivity.
  - destruct (handlePostUpdate Site.db0 42 (patch_of [("date", JNull)]) user)
      as [[r|e] db'] eqn:Hrun.
    + exists r, db'. split; [reflexivity|].
      apply (Hend Site.db0 db' 42 (patch_of [("date", JNull)]) user r);
        [reflexivity | left; reflexivity | exact Hrun].
    + exfalso. vm_compute in Hrun. discriminate.
Defined.

(** ** C4: the slug of a draft or pending post *)

Lemma checkSlugExists_collides (db : Db) (slug postType : string) (postId postParent : Z) :
  checkSlugExists db slug postType postId postParent = true
  <-> collides db slug postType postId postParent.
Proof.
  unfold checkSlugExists, collides. rewrite existsb_exists.
  split; intros [p [Hin H]]; exists p; split; try assumption.
  - repeat (apply andb_true_iff in H; destruct H as [H ?]).
    apply String.eqb_eq in H. apply String.eqb_eq in H2.
    apply negb_true_iff, Z.eqb_neq in H1. apply Z.eqb_eq in H0. auto.
  - destruct H as (H1 & H2 & H3 & H4).
    repeat (apply andb_true_iff; split).
    + now apply String.eqb_eq.
    + now apply String.eqb_eq.
    + now apply negb_true_iff, Z.eqb_neq.
    + now apply Z.eqb_eq.
Qed.

Lemma suffixed_inj (desiredSlug : string) (a b : Z) :
  suffixed desiredSlug a = suffixed desiredSlug b -> a = b.
Proof.
  unfold suffixed. intro H. apply append_cancel_l in H.
  simpl in H. injection H as H. now apply Z_to_string_inj.
Qed.

Section SlugLoop.
Variables (db : Db) (desiredSlug postType : string) (postId postParent : Z).

Let taken (s : string) : bool := checkSlugExists db s postType postId postParent.
Let loop (fuel : nat) (s : string) (k : Z) : option string :=
  uniquePostSlug_loop fuel db desiredSlug postId postType postParent s k.

Lemma uniquePostSlug_loop_step (fuel : nat) (s : string) (suffix : Z) :
  loop (S fuel) s suffix
  = if taken s then loop fuel (suffixed desiredSlug suffix) (suffix + 1) else Some s.
Proof. reflexivity. Qed.

(** What the loop returns is free, and is either the slug it was entered
    with or the first free suffixed candidate from [suffix] on. *)
Lemma uniquePostSlug_loop_sound (fuel : nat) :
  forall (s : string) (suffix : Z) (r : string),
    loop fuel s suffix = Some r ->
    taken r = false
    /\ ((taken s = false /\ r = s)
        \/ (taken s = true
            /\ exists k, suffix <= k /\ r = suffixed desiredSlug k
                         /\ forall j, suffix <= j < k ->
                              taken (suffixed desiredSlug j) = true)).
Proof.
  induction fuel as [|fuel IH]; intros s suffix r H; [discriminate|].
  rewrite uniquePostSlug_loop_step in H.
  destruct (taken s) eqn:Hs.
  - apply IH in H. destruct H as [Hfree Hcase]. split; [exact Hfree|].
    right. split; [reflexivity|].
    destruct Hcase as [[_ ->] | (Hsuf & k & Hk & -> & Hall)].
    + exists suffix. split; [lia|]. split; [reflexivity|]. intros j Hj. lia.
    + exists k. split; [lia|]. split; [reflexivity|].
      intros j Hj. destruct (Z.eq_dec j suffix) as [->|Hne]; [exact Hsuf|].
      apply Hall. lia.
  - injection H as <-. split; [exact Hs|]. left. auto.
Qed.

(** With a free candidate among the next [n] suffixes, [n] tests after the
    first one are enough. *)
Lemma uniquePostSlug_loop_enough (n : nat) :
  forall (s : string) (suffix : Z),
    (exists k, suffix <= k < suffix + Z.of_nat n
               /\ taken (suffixed desiredSlug k) = false) ->
    exists r, loop (S n) s suffix = Some r.
Proof.
  induction n as [|n IH]; intros s suffix [k [Hk Hfree]]; [lia|].
  rewrite uniquePostSlug_loop_step.
  destruct (taken s); [|eauto].
  destruct (Z.eq_dec k suffix) as [->|Hne].
  - rewrite uniquePostSlug_loop_step, Hfree. eauto.
  - apply IH. exists k. split; [lia | exact Hfree].
Qed.

(** More candidates than rows: one of them is free. *)
Lemma free_candidate_exists :
  exists k, 2 <= k < 2 + Z.of_nat (S (List.length (posts db)))
            /\ taken (suffixed desiredSlug k) = false.
Proof.
  set (n := List.length (posts db)).
  set (cand := fun i : nat => suffixed desiredSlug (2 + Z.of_nat i)).
  destruct (existsb (fun i => negb (taken (cand i))) (seq 0 (S n))) eqn:E.
  - apply existsb_exists in E. destruct E as [i [Hi Hf]].
    apply in_seq in Hi. apply negb_true_iff in Hf.
    exists (2 + Z.of_nat i). split; [lia | exact Hf].
  - exfalso.
    assert (Hall : forall i, In i (seq 0 (S n)) -> taken (cand i) = true).
    { intros i Hi. destruct (taken (cand i)) eqn:Ht; [reflexivity|].
      assert (X : existsb (fun i => negb (taken (cand i))) (seq 0 (S n)) = true).
      { apply existsb_exists. exists i. rewrite Ht. auto. }
      congruence. }
    assert (Hnd : NoDup (map cand (seq 0 (S n)))).
    { apply NoDup_map_NoDup_ForallPairs; [|apply seq_NoDup].
      intros a b _ _ Hab. apply suffixed_inj in Hab. lia. }
    assert (Hincl : incl (map cand (seq 0 (S n))) (map post_name (posts db))).
    { intros s Hs. apply in_map_iff in Hs. destruct Hs as [i [<- Hi]].
      specialize (Hall i Hi). unfold taken in Hall.
      apply checkSlugExists_collides in Hall. destruct Hall as [p [Hp [Hname _]]].
      apply in_map_iff. exists p. auto. }
    pose proof (NoDup_incl_length Hnd Hincl) as Hlen.
    rewrite !length_map, length_seq in Hlen. subst n. lia.
Qed.

(** The loop of [uniquePostSlug] returns within the tests it is given. *)
Lemma uniquePostSlug_loop_returns :
  exists r, loop (2 + List.length (posts db)) desiredSlug 2 = Some r.
Proof.
  apply (uniquePostSlug_loop_enough (S (List.length (posts db)))).
  apply free_candidate_exists.
Qed.

Lemma uniquePostSlug_first_free (postStatus : string) :
  first_free_slug db desiredSlug postType postId postParent
    (uniquePostSlug db desiredSlug postId postStatus postType postParent).
Proof.
  unfold uniquePostSlug. destruct uniquePostSlug_loop_returns as [r Hr].
  unfold loop in Hr. rewrite Hr.
  apply uniquePostSlug_loop_sound in Hr. exact Hr.
Qed.
End SlugLoop.

Lemma validateAndNormalizeStatus_truthy (st : string) (user : AuthenticatedUser)
    (x : string) :
  validateAndNormalizeStatus st user = inl x -> truthy x = true.
Proof.
  unfold validateAndNormalizeStatus. intro H.
  repeat match type of H with
         | (if ?c then _ else _) = _ => destruct c eqn:?
         end; try discriminate; injection H as <-; try reflexivity;
    repeat match goal with
           | E : _ || _ = true |- _ => apply orb_true_iff in E; destruct E
           | E : String.eqb _ _ = true |- _ => apply String.eqb_eq in E; subst
           end; reflexivity.
Qed.

Section SlugStored.
Context {rt : Runtime}.

Lemma prepare_status_truthy (body : PostUpdateInput) (existingPost : WpPostRow)
    (user : AuthenticatedUser) (x : string) :
  prepare_status body existingPost user = inl (Some x) -> truthy x = true.
Proof.
  unfold prepare_status. intro H.
  destruct (b_status body) as [st|]; [|discriminate].
  destruct (negb (String.eqb st (post_status existingPost))); [|discriminate].
  destruct (validateAndNormalizeStatus st user) as [y|] eqn:E; [|discriminate].
  injection H as <-. eapply validateAndNormalizeStatus_truthy. exact E.
Qed.

(** The effective status of step 5 is the status the row ends with. *)
Lemma effectiveStatus_is_resulting (db : Db) (body : PostUpdateInput)
    (existingPost : WpPostRow) (user : AuthenticatedUser) (data : WpPostUpdateData) :
  prepareItemForDatabase db body existingPost user = inl data ->
  effectiveStatus data existingPost
  = or_old (d_post_status data) (post_status existingPost).
Proof.
  intro H. apply prepared_status in H. unfold effectiveStatus.
  destruct (d_post_status data) as [x|]; [|reflexivity].
  simpl. rewrite (prepare_status_truthy _ _ _ _ H). reflexivity.
Qed.

(** The slug a successful request stores, by the row it leaves. *)
Lemma slug_after_update (db db' : Db) (postId : Z) (body : PostUpdateInput)
    (user : AuthenticatedUser) (r : WpPostResponse) (name : string) :
  slug body = Some name ->
  handlePostUpdate db postId body user = (inl r, db') ->
  exists new,
    getPostById db' postId = Some new
    /\ post_name new
       = if truthy name
            && existsb (String.eqb (post_status new)) ["draft"; "pending"]
         then uniquePostSlug db name postId "publish" (post_type new) (post_parent new)
         else name.
Proof.
  intros Hslug H. apply handlePostUpdate_ok in H.
  destruct H as (old & data0 & Hget & _ & _ & Hprep & Hrun).
  destruct (persistAndRespond_ok _ _ _ _ _ _ _ Hget Hrun) as (Hnew & _ & _ & _).
  eexists. split; [exact Hnew|].
  pose proof (effectiveStatus_is_resulting _ _ _ _ _ Hprep) as Heff.
  apply prepareItemForDatabase_inv in Hprep.
  destruct Hprep as (st & au & pw & pa & _ & _ & _ & _ & _ & Hdata).
  assert (Hname : d_post_name data0 = Some name) by (subst data0; exact Hslug).
  unfold slugForDraftOrPending. rewrite Hname, Heff.
  destruct (truthy name
            && existsb (String.eqb (or_old (d_post_status data0) (post_status old)))
                 ["draft"; "pending"]) eqn:E;
    cbn [post_name post_status post_type post_parent apply_update with_post_name
         d_post_name d_post_status d_post_parent];
    rewrite ?Hname; cbn [or_old]; rewrite E; reflexivity.
Qed.
End SlugStored.




(* ================================================================= *)
(** * Further properties of the adapters and of the service *)

(** ** Printing and reading integers *)

Lemma read_digits_uint (d : Decimal.uint) (acc : Z) :
  read_digits (NilEmpty.string_of_uint d) (Some acc) = Some (uint_value d acc).
Proof.
  revert acc.
  induction d; intro acc; cbn [NilEmpty.string_of_uint uint_value read_digits];
    try reflexivity;
    match goal with
    | |- context [is_digit ?c] =>
        let v := eval vm_compute in (digit_val c) in
        change (is_digit c) with true; change (digit_val c) with v
    end;
    cbv iota; rewrite IHd; do 2 f_equal; lia.
Qed.

Lemma read_digits_uint_start (d : Decimal.uint) :
  d <> Decimal.Nil ->
  read_digits (NilEmpty.string_of_uint d) None = Some (uint_value d 0).
Proof.
  destruct d; intro H; try contradiction;
    cbn [NilEmpty.string_of_uint uint_value read_digits];
    match goal with
    | |- context [is_digit ?c] =>
        let v := eval vm_compute in (digit_val c) in
        change (is_digit c) with true; change (digit_val c) with v
    end;
    cbv iota; rewrite read_digits_uint; do 2 f_equal.
Qed.

Lemma uint_value_acc (d : Decimal.uint) (acc : positive) :
  uint_value d (Zpos acc) = Zpos (Pos.of_uint_acc d acc).
Proof.
  revert acc.
  induction d; intro acc; cbn [uint_value Pos.of_uint_acc]; try reflexivity;
    rewrite <- IHd; f_equal; lia.
Qed.

Lemma uint_value_of_uint (d : Decimal.uint) :
  uint_value d 0 = Z.of_N (Pos.of_uint d).
Proof.
  induction d; cbn [uint_value Pos.of_uint Z.of_N]; try reflexivity;
    try (rewrite <- uint_value_acc; f_equal; lia).
  exact IHd.
Qed.

Lemma read_digits_positive (p : positive) :
  read_digits (NilEmpty.string_of_uint (Pos.to_uint p)) None = Some (Zpos p).
Proof.
  rewrite read_digits_uint_start by apply DecimalPos.Unsigned.to_uint_nonnil.
  rewrite uint_value_of_uint, DecimalPos.Unsigned.of_to. reflexivity.
Qed.

Lemma string_of_uint_head (d : Decimal.uint) :
  d <> Decimal.Nil ->
  exists c s, NilEmpty.string_of_uint d = String c s /\ is_digit c = true.
Proof.
  destruct d; intro H; try contradiction; simpl; eexists; eexists; split;
    reflexivity.
Qed.

Lemma parseInt10_printed (n : Z) :
  parseInt10 (Z_to_string n) = Some n /\ truthy (Z_to_string n) = true.
Proof.
  unfold Z_to_string, parseInt10. destruct n as [|p|p]; simpl.
  - split; reflexivity.
  - destruct (string_of_uint_head (Pos.to_uint p)
                (DecimalPos.Unsigned.to_uint_nonnil p)) as (c & s & E & Hc).
    pose proof (read_digits_positive p) as Hr.
    rewrite E in *. split; [|reflexivity].
    assert (Hs : is_space c = false).
    { unfold is_digit, is_space in *. destruct c as [[] [] [] [] [] [] [] []];
        simpl in *; try discriminate; reflexivity. }
    simpl. rewrite Hs.
    destruct c as [[] [] [] [] [] [] [] []]; try discriminate Hc; exact Hr.
  - split; [|reflexivity].
    rewrite read_digits_positive. reflexivity.
Qed.

(** ** Post metadata *)

Lemma find_map_pred {A : Type} (p : A -> bool) (f : A -> A) (l : list A) :
  (forall x, p (f x) = p x) ->
  find p (map f l) = option_map f (find p l).
Proof.
  intro Hp. induction l as [|x l IH]; simpl; [reflexivity|].
  rewrite Hp. destruct (p x); [reflexivity | exact IH].
Qed.

Lemma find_map_fixed {A : Type} (p : A -> bool) (f : A -> A) (l : list A) :
  (forall x, p (f x) = p x) ->
  (forall x, In x l -> p x = true -> f x = x) ->
  find p (map f l) = find p l.
Proof.
  intros Hp Hfix. rewrite find_map_pred by exact Hp.
  destruct (find p l) as [x|] eqn:E; [|reflexivity].
  apply find_some in E. simpl. f_equal. now apply Hfix.
Qed.

Lemma find_app_none {A : Type} (p : A -> bool) (l l' : list A) :
  find p l = None -> find p (l ++ l') = find p l'.
Proof.
  induction l as [|x l IH]; simpl; [reflexivity|].
  destruct (p x); [discriminate | exact IH].
Qed.

Lemma find_app_some {A : Type} (p : A -> bool) (l l' : list A) (x : A) :
  find p l = Some x -> find p (l ++ l') = Some x.
Proof.
  induction l as [|y l IH]; simpl; [discriminate|].
  destruct (p y); [trivial | exact IH].
Qed.

Lemma meta_matches_other (i j : Z) (k k' : string) (r : MetaRow) :
  j <> i \/ k' <> k ->
  meta_matches i k r = true -> meta_matches j k' r = false.
Proof.
  unfold meta_matches. intros Hne H.
  apply andb_true_iff in H. destruct H as [H1 H2].
  apply Z.eqb_eq in H1. apply String.eqb_eq in H2.
  apply andb_false_iff. destruct Hne as [Hne|Hne].
  - left. apply Z.eqb_neq. congruence.
  - right. apply String.eqb_neq. congruence.
Qed.

Lemma meta_id_below_next (rows : list MetaRow) (r : MetaRow) :
  In r rows -> meta_id r < next_meta_id rows.
Proof.
  unfold next_meta_id. induction rows as [|x rows IH]; cbn [In fold_right]; [tauto|].
  intros [->|Hin]; [lia|]. specialize (IH Hin). lia.
Qed.

Lemma NoDup_meta_id_eq (rows : list MetaRow) (a b : MetaRow) :
  NoDup (map meta_id rows) -> In a rows -> In b rows ->
  meta_id a = meta_id b -> a = b.
Proof.
  induction rows as [|x rows IH]; simpl; [tauto|].
  intros Hnd Ha Hb E. inversion Hnd as [|? ? Hx Hrest]; subst.
  destruct Ha as [->|Ha], Hb as [->|Hb]; auto.
  - exfalso. apply Hx. rewrite E. now apply in_map.
  - exfalso. apply Hx. rewrite <- E. now apply in_map.
Qed.

Lemma updatePostMeta_get_same (db : Db) (postId : Z) (metaKey metaValue : string) :
  getPostMeta (updatePostMeta db postId metaKey metaValue) postId metaKey
  = Some metaValue.
Proof.
  unfold getPostMeta, updatePostMeta.
  destruct (find (meta_matches postId metaKey) (postmeta db)) as [existing|] eqn:E;
    simpl.
  - rewrite find_map_pred.
    + rewrite E. simpl. rewrite Z.eqb_refl. reflexivity.
    + intro x. destruct (meta_id x =? meta_id existing); reflexivity.
  - rewrite find_app_none by exact E. simpl.
    unfold meta_matches. simpl. rewrite Z.eqb_refl, String.eqb_refl. reflexivity.
Qed.

Lemma deletePostMeta_get_same (db : Db) (postId : Z) (metaKey : string) :
  getPostMeta (deletePostMeta db postId metaKey) postId metaKey = None.
Proof.
  unfold getPostMeta, deletePostMeta. simpl.
  destruct (find (meta_matches postId metaKey)
              (filter (fun r => negb (meta_matches postId metaKey r)) (postmeta db)))
    as [x|] eqn:E; [|reflexivity].
  apply find_some in E. destruct E as [Hin Hm].
  apply filter_In in Hin. destruct Hin as [_ Hn]. rewrite Hm in Hn. discriminate.
Qed.

Lemma updatePostMeta_spec (db : Db) (postId : Z) (metaKey metaValue : string) :
  getPostMeta (updatePostMeta db postId metaKey metaValue) postId metaKey
  = Some metaValue
  /\ (meta_ids_distinct db ->
      meta_ids_distinct (updatePostMeta db postId metaKey metaValue)
      /\ forall j k', j <> postId \/ k' <> metaKey ->
           getPostMeta (updatePostMeta db postId metaKey metaValue) j k'
           = getPostMeta db j k').
Proof.
  unfold getPostMeta, updatePostMeta, meta_ids_distinct.
  destruct (find (meta_matches postId metaKey) (postmeta db)) as [existing|] eqn:E;
    simpl.
  - split.
    + rewrite find_map_pred.
      * rewrite E. simpl. rewrite Z.eqb_refl. reflexivity.
      * intro x. destruct (meta_id x =? meta_id existing); reflexivity.
    + intro Hnd. split.
      * rewrite map_map.
        erewrite map_ext; [exact Hnd|].
        intro x. destruct (meta_id x =? meta_id existing); reflexivity.
      * intros j k' Hne. f_equal. apply find_map_fixed.
        -- intro x. destruct (meta_id x =? meta_id existing); reflexivity.
        -- intros x Hin Hx.
           destruct (Z.eqb_spec (meta_id x) (meta_id existing)) as [Eid|]; [|reflexivity].
           apply find_some in E. destruct E as [Hin' Hm].
           assert (x = existing) by (eapply NoDup_meta_id_eq; eassumption).
           subst x. rewrite (meta_matches_other postId j metaKey k' existing Hne Hm) in Hx.
           discriminate.
  - split.
    + rewrite find_app_none by exact E. simpl.
      unfold meta_matches. simpl. rewrite Z.eqb_refl, String.eqb_refl. reflexivity.
    + intro Hnd. split.
      * rewrite map_app. simpl. apply NoDup_app; [exact Hnd | repeat constructor; tauto |].
        intros y Hy [<-|[]].
        apply in_map_iff in Hy. destruct Hy as [r [Hr Hin]].
        apply meta_id_below_next in Hin. lia.
      * intros j k' Hne. f_equal.
        destruct (find (meta_matches j k') (postmeta db)) as [x|] eqn:Ej.
        -- now apply find_app_some.
        -- rewrite find_app_none by exact Ej. simpl.
           assert (Hm : meta_matches postId metaKey
                          (mkMeta (next_meta_id (postmeta db)) postId metaKey metaValue)
                        = true).
           { unfold meta_matches. simpl. now rewrite Z.eqb_refl, String.eqb_refl. }
           rewrite (meta_matches_other postId j metaKey k' _ Hne Hm). reflexivity.
Qed.

(** X2: [updatePostMeta] followed by [getPostMeta] of the same post and key
    reads the value just written, whether the key was there or not; with
    distinct row keys every other (post, key) reads what it read before; and
    the row keys stay distinct. *)
Theorem X2_updatePostMeta_read_back (db : Db) (postId : Z) (metaKey metaValue : string) :
  getPostMeta (updatePostMeta db postId metaKey metaValue) postId metaKey
  = Some metaValue
  /\ (meta_ids_distinct db ->
      meta_ids_distinct (updatePostMeta db postId metaKey metaValue)
      /\ forall j k', j <> postId \/ k' <> metaKey ->
           getPostMeta (updatePostMeta db postId metaKey metaValue) j k'
           = getPostMeta db j k').
Proof. exact (updatePostMeta_spec db postId metaKey metaValue). Qed.

(** At the reference site the thumbnail of post 43 is rewritten and the
    template of post 42 is unaffected; a new key is inserted for post 42. *)
Lemma X2_updatePostMeta_read_back_witness :
  meta_ids_distinct Site.db0
  /\ getPostMeta (updatePostMeta Site.db0 43 "_thumbnail_id" "51") 43 "_thumbnail_id"
     = Some "51"
  /\ getPostMeta (updatePostMeta Site.db0 42 "mood" "calm") 43 "_thumbnail_id"
     = getPostMeta Site.db0 43 "_thumbnail_id"
  /\ meta_ids_distinct (updatePostMeta Site.db0 42 "mood" "calm").
Proof.
  assert (Hnd : meta_ids_distinct Site.db0).
  { unfold meta_ids_distinct. simpl. repeat constructor; simpl; tauto. }
  split; [exact Hnd|].
  split; [exact (proj1 (X2_updatePostMeta_read_back Site.db0 43 "_thumbnail_id" "51"))|].
  destruct (proj2 (X2_updatePostMeta_read_back Site.db0 42 "mood" "calm") Hnd)
    as [Hnd' Hother].
  split; [|exact Hnd'].
  apply Hother. left. lia.
Defined.

Lemma deletePostMeta_spec (db : Db) (postId : Z) (metaKey : string) :
  getPostMeta (deletePostMeta db postId metaKey) postId metaKey = None
  /\ (forall r, In r (postmeta (deletePostMeta db postId metaKey)) ->
                In r (postmeta db) /\ meta_matches postId metaKey r = false)
  /\ (forall j k', j <> postId \/ k' <> metaKey ->
        getPostMeta (deletePostMeta db postId metaKey) j k' = getPostMeta db j k').
Proof.
  unfold getPostMeta, deletePostMeta. simpl. split; [|split].
  - destruct (find (meta_matches postId metaKey)
                (filter (fun r => negb (meta_matches postId metaKey r)) (postmeta db)))
      as [x|] eqn:E; [|reflexivity].
    apply find_some in E. destruct E as [Hin Hm].
    apply filter_In in Hin. destruct Hin as [_ Hn]. rewrite Hm in Hn. discriminate.
  - intros r Hin. apply filter_In in Hin. destruct Hin as [Hin Hn].
    split; [exact Hin|]. now apply negb_true_iff.
  - intros j k' Hne. f_equal.
    induction (postmeta db) as [|x l IH]; simpl; [reflexivity|].
    destruct (meta_matches postId metaKey x) eqn:Hx; simpl.
    + rewrite (meta_matches_other postId j metaKey k' x Hne Hx). exact IH.
    + destruct (meta_matches j k' x); [reflexivity | exact IH].
Qed.

(** X3: [deletePostMeta] removes every row of the post and key, so the key
    reads [null] afterwards; every other (post, key) reads what it read before,
    and no row is added. *)
Theorem X3_deletePostMeta_removes_key (db : Db) (postId : Z) (metaKey : string) :
  getPostMeta (deletePostMeta db postId metaKey) postId metaKey = None
  /\ (forall r, In r (postmeta (deletePostMeta db postId metaKey)) ->
                In r (postmeta db) /\ meta_matches postId metaKey r = false)
  /\ (forall j k', j <> postId \/ k' <> metaKey ->
        getPostMeta (deletePostMeta db postId metaKey) j k' = getPostMeta db j k').
Proof. exact (deletePostMeta_spec db postId metaKey). Qed.

(** Clearing the thumbnail of post 43 at the reference site. *)
Lemma X3_deletePostMeta_removes_key_witness :
  getPostMeta Site.db0 43 "_thumbnail_id" = Some "50"
  /\ getPostMeta (deletePostMeta Site.db0 43 "_thumbnail_id") 43 "_thumbnail_id" = None
  /\ getPostMeta (deletePostMeta Site.db0 43 "_wp_page_template") 43 "_thumbnail_id"
     = Some "50".
Proof.
  split; [reflexivity|]. split.
  - exact (proj1 (X3_deletePostMeta_removes_key Site.db0 43 "_thumbnail_id")).
  - rewrite (proj2 (proj2 (X3_deletePostMeta_removes_key Site.db0 43 "_wp_page_template")));
      [reflexivity | right; discriminate].
Defined.

Lemma assoc_app {A : Type} (l l' : list (string * A)) (k : string) :
  assoc (l ++ l') k = match assoc l k with Some v => Some v | None => assoc l' k end.
Proof.
  induction l as [|[k' v] l IH]; simpl; [reflexivity|].
  destruct (String.eqb k' k); [reflexivity | exact IH].
Qed.

Lemma assoc_In {A : Type} (l : list (string * A)) (k : string) (v : A) :
  assoc l k = Some v -> In (k, v) l.
Proof.
  induction l as [|[k' v'] l IH]; simpl; [discriminate|].
  destruct (String.eqb_spec k' k) as [->|_].
  - intro H. injection H as ->. now left.
  - intro H. right. now apply IH.
Qed.

Lemma assoc_none_not_key {A : Type} (l : list (string * A)) (k : string) :
  assoc l k = None -> ~ In k (map fst l).
Proof.
  induction l as [|[k' v'] l IH]; simpl; [tauto|].
  destruct (String.eqb_spec k' k) as [->|Hne]; [discriminate|].
  intros H [E|Hin]; [contradiction | now apply IH].
Qed.

Lemma In_assoc_NoDup {A : Type} (l : list (string * A)) (k : string) (v : A) :
  NoDup (map fst l) -> In (k, v) l -> assoc l k = Some v.
Proof.
  induction l as [|[k' v'] l IH]; simpl; [tauto|].
  intros Hnd [E|Hin]; inversion Hnd as [|? ? Hk Hrest]; subst.
  - injection E as -> ->. now rewrite String.eqb_refl.
  - destruct (String.eqb_spec k' k) as [->|_]; [|now apply IH].
    exfalso. apply Hk. change k with (fst (k, v)). now apply in_map.
Qed.

#[local] Opaque Object_prototype_keys.

Lemma key_in_own (acc : list (string * string)) (k : string) :
  key_in acc k = false ->
  assoc acc k = None /\ ~ In k Object_prototype_keys.
Proof.
  unfold key_in. destruct (assoc acc k); [discriminate|].
  intro H. split; [reflexivity|]. intro Hin.
  assert (E : existsb (String.eqb k) Object_prototype_keys = true).
  { apply existsb_exists. exists k. split; [exact Hin | apply String.eqb_refl]. }
  rewrite E in H. discriminate.
Qed.

Lemma getAllPostMeta_rows_keys (rows : list MetaRow) (acc : list (string * string)) :
  NoDup (map fst acc) -> NoDup (map fst (getAllPostMeta_rows rows acc)).
Proof.
  revert acc. induction rows as [|r rows IH]; intros acc Hnd; simpl; [exact Hnd|].
  apply IH. destruct (key_in acc (meta_key r)) eqn:E; [exact Hnd|].
  apply key_in_own in E. destruct E as [E _].
  rewrite map_app. simpl. apply NoDup_app; [exact Hnd | repeat constructor; tauto |].
  intros y Hy [<-|[]]. revert Hy. now apply assoc_none_not_key.
Qed.

(** What the object holds at a key: the own entry if there was one, nothing
    at a name of [Object.prototype], and the first row of the key otherwise. *)
Lemma getAllPostMeta_rows_assoc (rows : list MetaRow) (acc : list (string * string))
    (k : string) :
  assoc (getAllPostMeta_rows rows acc) k
  = match assoc acc k with
    | Some v => Some v
    | None =>
        if existsb (String.eqb k) Object_prototype_keys then None
        else option_map meta_value (find (fun r => String.eqb (meta_key r) k) rows)
    end.
Proof.
  revert acc. induction rows as [|r rows IH]; intro acc; simpl.
  - destruct (assoc acc k); [reflexivity|].
    destruct (existsb (String.eqb k) Object_prototype_keys); reflexivity.
  - rewrite IH. unfold key_in.
    destruct (assoc acc (meta_key r)) eqn:E.
    + destruct (assoc acc k) eqn:Ek; [reflexivity|].
      destruct (String.eqb_spec (meta_key r) k) as [<-|_]; [congruence | reflexivity].
    + destruct (existsb (String.eqb (meta_key r)) Object_prototype_keys) eqn:Ep.
      * destruct (assoc acc k) eqn:Ek; [reflexivity|].
        destruct (String.eqb_spec (meta_key r) k) as [<-|_]; [|reflexivity].
        now rewrite Ep.
      * rewrite assoc_app. simpl.
        destruct (assoc acc k) eqn:Ek; [reflexivity|].
        destruct (String.eqb_spec (meta_key r) k) as [<-|_]; [|reflexivity].
        now rewrite Ep.
Qed.

Lemma find_key_of_post (l : list MetaRow) (i : Z) (k : string) :
  find (fun r => String.eqb (meta_key r) k) (filter (fun r => m_post_id r =? i) l)
  = find (meta_matches i k) l.
Proof.
  unfold meta_matches. induction l as [|r l IH]; simpl; [reflexivity|].
  destruct (m_post_id r =? i); simpl; [|exact IH].
  destruct (String.eqb (meta_key r) k); [reflexivity | exact IH].
Qed.

(** [getAllPostMeta] gives every key that is no name of [Object.prototype]
    the value [getPostMeta] reads, and lists no such name. *)
Lemma getAllPostMeta_agrees (db : Db) (i : Z) (k : string) :
  assoc (getAllPostMeta db i) k
  = if existsb (String.eqb k) Object_prototype_keys then None
    else getPostMeta db i k.
Proof.
  unfold getAllPostMeta, getPostMeta.
  rewrite getAllPostMeta_rows_assoc. simpl. now rewrite find_key_of_post.
Qed.

Lemma NoDup_fst_filter {A : Type} (p : string * A -> bool) (l : list (string * A)) :
  NoDup (map fst l) -> NoDup (map fst (filter p l)).
Proof.
  induction l as [|x l IH]; simpl; [trivial|].
  intro Hnd. inversion Hnd as [|? ? Hx Hrest]; subst.
  destruct (p x); simpl; [|now apply IH].
  constructor; [|now apply IH].
  intro Hin. apply Hx. apply in_map_iff in Hin. destruct Hin as [y [E Hy]].
  apply filter_In in Hy. rewrite <- E. apply in_map. tauto.
Qed.

(** X4: The [meta] object of a response lists each key once; it holds
    exactly the keys of the post that do not begin with an underscore and are
    no property name of [Object.prototype], each with the first value stored
    for it, the one [getPostMeta] reads. Internal keys such as [_thumbnail_id]
    never appear in it, and neither does a key such as [constructor] or
    [toString], which [getAllPostMeta] finds in its empty object already. *)
Theorem X4_response_meta_is_public_meta {rt : Runtime} (db : Db) (post : WpPostRow)
    (context siteUrl : string) (gmtOffset : option Q) :
  let r := buildPostResponse db post context siteUrl gmtOffset in
  NoDup (map fst (r_meta r))
  /\ (forall k v, In (k, v) (r_meta r) <->
                  startsWith "_" k = false
                  /\ ~ In k Object_prototype_keys
                  /\ getPostMeta db (ID post) k = Some v).
Proof.
  simpl.
  assert (Hnd : NoDup (map fst (getAllPostMeta db (ID post)))).
  { unfold getAllPostMeta. apply getAllPostMeta_rows_keys. constructor. }
  split; [now apply NoDup_fst_filter|].
  intros k v. rewrite filter_In. simpl. rewrite negb_true_iff.
  pose proof (getAllPostMeta_agrees db (ID post) k) as Ha.
  destruct (existsb (String.eqb k) Object_prototype_keys) eqn:Ep.
  - split.
    + intros [Hin _]. apply (In_assoc_NoDup _ _ _ Hnd) in Hin. congruence.
    + intros (_ & Hnot & _). exfalso. apply Hnot.
      apply existsb_exists in Ep. destruct Ep as (x & Hx & E).
      apply String.eqb_eq in E. now subst x.
  - assert (Hnot : ~ In k Object_prototype_keys).
    { intro Hin. assert (E : existsb (String.eqb k) Object_prototype_keys = true).
      { apply existsb_exists. exists k. split; [exact Hin | apply String.eqb_refl]. }
      congruence. }
    rewrite <- Ha. split.
    + intros [Hin Hk]. split; [exact Hk|]. split; [exact Hnot|].
      now apply In_assoc_NoDup.
    + intros (Hk & _ & Hget). split; [|exact Hk]. now apply assoc_In.
Qed.

#[local] Transparent Object_prototype_keys.

(** At the reference site, with the keys [mood] and [constructor] added to
    post 43, the response lists [mood] and neither the thumbnail nor
    [constructor]. *)
Lemma X4_response_meta_is_public_meta_witness :
  let db := updatePostMeta (updatePostMeta Site.db0 43 "mood" "calm") 43
              "constructor" "x" in
  let r := buildPostResponse db (Site.a_post 43 1 "publish" "first") "edit"
             "http://example.com" (Some (inject_Z 2)) in
  getPostMeta db 43 "_thumbnail_id" = Some "50"
  /\ getPostMeta db 43 "constructor" = Some "x"
  /\ In ("mood", "calm") (r_meta r)
  /\ ~ In ("_thumbnail_id", "50") (r_meta r)
  /\ ~ In ("constructor", "x") (r_meta r).
Proof.
  intros db r. split; [reflexivity|]. split; [reflexivity|].
  pose proof (proj2 (X4_response_meta_is_public_meta db
                       (Site.a_post 43 1 "publish" "first") "edit"
                       "http://example.com" (Some (inject_Z 2)))) as H.
  split; [|split].
  - apply H. split; [reflexivity|]. split; [|reflexivity].
    simpl. intuition discriminate.
  - intro Hin. apply H in Hin. destruct Hin as [Hk _]. discriminate.
  - intro Hin. apply H in Hin. destruct Hin as (_ & Hnot & _).
    apply Hnot. simpl. tauto.
Defined.

(** ** Capabilities and authentication *)

Lemma mapMetaCap_same_id (cap : string) (u u' : AuthenticatedUser) (post : WpPostRow) :
  id u = id u' -> mapMetaCap cap u post = mapMetaCap cap u' post.
Proof. unfold mapMetaCap. intros ->. reflexivity. Qed.

Lemma mapMetaCap_nonempty (cap : string) (u : AuthenticatedUser) (post : WpPostRow) :
  mapMetaCap cap u post <> [].
Proof. unfold mapMetaCap. repeat break_match; discriminate. Qed.

(** X5: The permission model is additive: a principal holding every
    capability another holds for the same account may do whatever the other may
    ([userCan] for every capability, and so [checkUpdatePermission]); and a
    principal holding no capability at all may do nothing. *)
Theorem X5_permissions_are_additive (u u' : AuthenticatedUser) :
  (caps_included u u' ->
   forall cap post,
     (userCan u cap post = true -> userCan u' cap post = true)
     /\ (forall p, checkUpdatePermission u p = true ->
                   checkUpdatePermission u' p = true))
  /\ (allcaps u = [] ->
      forall cap post p,
        userCan u cap post = false /\ checkUpdatePermission u p = false).
Proof.
  split.
  - intros [Hid Hcaps].
    assert (Hcan : forall cap post,
               userCan u cap post = true -> userCan u' cap post = true).
    { intros cap post. unfold userCan.
      destruct post as [p|]; [|apply Hcaps].
      destruct (existsb (String.eqb cap) ["edit_post"; "delete_post"; "read_post"]);
        [|apply Hcaps].
      rewrite (mapMetaCap_same_id cap u u' p Hid).
      rewrite !forallb_forall. intros H c Hc. apply Hcaps, H, Hc. }
    intros cap post. split; [apply Hcan|].
    intros p. unfold checkUpdatePermission.
    destruct (negb (checkIsPostTypeAllowed (post_type p))); [trivial | apply Hcan].
  - intros Hnone.
    assert (Hcan : forall cap post, userCan u cap post = false).
    { intros cap post. unfold userCan. rewrite Hnone.
      destruct post as [p|]; [|reflexivity].
      destruct (existsb (String.eqb cap) ["edit_post"; "delete_post"; "read_post"]);
        [|reflexivity].
      pose proof (mapMetaCap_nonempty cap u p) as Hne.
      destruct (mapMetaCap cap u p); [contradiction | reflexivity]. }
    intros cap post p. split; [apply Hcan|].
    unfold checkUpdatePermission.
    destruct (negb (checkIsPostTypeAllowed (post_type p))); [reflexivity | apply Hcan].
Qed.

(** The administrator holds what the contributor's role grants: taking
    bob's account with the administrator's capabilities, whatever bob may edit
    remains editable. *)
Lemma X5_permissions_are_additive_witness :
  let bob := Site.principal 2 "bob" in
  let bob_admin := mkUser 2 "bob" "bob@example.com" ["administrator"]
                     [("administrator", true)] (allcaps (Site.principal 1 "alice")) in
  let post := Site.a_post 42 2 "draft" "hello-world" in
  caps_included bob bob_admin
  /\ checkUpdatePermission bob post = true
  /\ checkUpdatePermission bob_admin post = true.
Proof.
  intros bob bob_admin post.
  assert (Hinc : caps_included bob bob_admin).
  { split; [reflexivity|]. intros c H. unfold cap_is_true in H.
    assert (E : allcaps bob = [("edit_posts", true)]) by reflexivity.
    rewrite E in H. cbn [cap_get] in H.
    destruct (String.eqb_spec "edit_posts" c) as [Ec|];
      [subst c; reflexivity | discriminate H]. }
  split; [exact Hinc|]. split; [reflexivity|].
  apply (proj2 (proj1 (X5_permissions_are_additive bob bob_admin) Hinc
                  "edit_post" (Some post))).
  reflexivity.
Defined.

Lemma cap_get_set_true (m : capmap) (k c : string) :
  cap_get (cap_set_true m k) c
  = if String.eqb k c then Some true else cap_get m c.
Proof.
  induction m as [|[k' v] m IH]; simpl.
  - reflexivity.
  - destruct (String.eqb_spec k' k) as [->|Hne]; simpl.
    + destruct (String.eqb k c); reflexivity.
    + rewrite IH. destruct (String.eqb_spec k' c) as [->|_]; [|reflexivity].
      destruct (String.eqb_spec k c) as [->|_]; [contradiction | reflexivity].
Qed.

Lemma cap_set_true_values (m : capmap) (k : string) :
  Forall (fun kv => snd kv = true) m ->
  Forall (fun kv => snd kv = true) (cap_set_true m k).
Proof.
  induction 1 as [|[k' v] m Hv Hm IH]; simpl.
  - repeat constructor.
  - destruct (String.eqb k' k); constructor; simpl; auto.
Qed.

Lemma has_cap_merge (caps : list (string * bool)) (acc : capmap) (c : string) :
  has_cap (fold_left (fun acc' kv => if snd kv : bool then cap_set_true acc' (fst kv)
                                     else acc') caps acc) c = true
  <-> has_cap acc c = true \/ In (c, true) caps.
Proof.
  revert acc. induction caps as [|[k v] caps IH]; intro acc; simpl.
  - tauto.
  - rewrite IH. destruct v; simpl.
    + unfold has_cap at 1. rewrite cap_get_set_true.
      destruct (String.eqb_spec k c) as [->|Hne].
      * split; auto.
      * fold (has_cap acc c). split.
        -- intros [H|H]; auto.
        -- intros [H|[E|H]]; auto. injection E as E. contradiction.
    + split.
      * intros [H|H]; auto.
      * intros [H|[E|H]]; auto. discriminate.
Qed.

Lemma values_merge (caps : list (string * bool)) (acc : capmap) :
  Forall (fun kv => snd kv = true) acc ->
  Forall (fun kv => snd kv = true)
    (fold_left (fun acc' kv => if snd kv : bool then cap_set_true acc' (fst kv)
                               else acc') caps acc).
Proof.
  revert acc. induction caps as [|[k v] caps IH]; intros acc H; simpl; [exact H|].
  apply IH. destruct v; simpl; [now apply cap_set_true_values | exact H].
Qed.

(** X6: The capability set the resolver builds is the union of what the
    assigned roles grant: a capability is held exactly when some role assigned
    to the account (with a true flag) grants it in the role definitions; no
    entry of the set is a denial; and the account's id, login and address are
    carried over as given. *)
Theorem X6_resolved_capabilities_are_union_of_roles (db : Db) (userId : Z)
    (login email : string) :
  let user := resolveUserCapabilities db userId login email in
  (forall c, has_cap (allcaps user) c = true
             <-> role_grants db (getUserCapabilities db userId) c)
  /\ Forall (fun kv => snd kv = true) (allcaps user)
  /\ (forall role, In role (roles user)
                   <-> In (role, true) (getUserCapabilities db userId))
  /\ id user = userId.
Proof.
  simpl. unfold role_grants.
  set (userCaps := getUserCapabilities db userId).
  set (step := fun acc role =>
         match assoc (getRoleDefinitions db) role with
         | Some roleDef =>
             match role_capabilities roleDef with
             | Some caps =>
                 fold_left (fun acc' kv => if snd kv : bool
                                           then cap_set_true acc' (fst kv) else acc')
                           caps acc
             | None => acc
             end
         | None => acc
         end).
  assert (Hroles : forall role,
             In role (map fst (filter (fun kv => snd kv) userCaps))
             <-> In (role, true) userCaps).
  { intro role. rewrite in_map_iff. split.
    - intros [[k v] [E Hin]]. apply filter_In in Hin. simpl in *.
      destruct Hin as [Hin Hv]. subst. exact Hin.
    - intro Hin. exists (role, true). split; [reflexivity|].
      apply filter_In. auto. }
  assert (Hfold : forall rs acc c,
             has_cap (fold_left step rs acc) c = true
             <-> has_cap acc c = true
                 \/ exists role def caps,
                      In role rs
                      /\ assoc (getRoleDefinitions db) role = Some def
                      /\ role_capabilities def = Some caps /\ In (c, true) caps).
  { induction rs as [|role rs IH]; intros acc c; simpl.
    - split; [auto|]. intros [H|(role & def & caps & [] & _)]. exact H.
    - rewrite IH. unfold step.
      destruct (assoc (getRoleDefinitions db) role) as [def|] eqn:Edef.
      + destruct (role_capabilities def) as [caps|] eqn:Ecaps.
        * rewrite has_cap_merge. split.
          -- intros [[H|H]|(r & d & cs & Hin & H1 & H2 & H3)]; auto.
             ++ right. exists role, def, caps. auto.
             ++ right. exists r, d, cs. auto.
          -- intros [H|(r & d & cs & [<-|Hin] & H1 & H2 & H3)]; auto.
             ++ rewrite Edef in H1. injection H1 as <-.
                rewrite Ecaps in H2. injection H2 as <-. auto.
             ++ right. exists r, d, cs. auto.
        * split.
          -- intros [H|(r & d & cs & Hin & H1 & H2 & H3)]; auto.
             right. exists r, d, cs. auto.
          -- intros [H|(r & d & cs & [<-|Hin] & H1 & H2 & H3)]; auto.
             ++ rewrite Edef in H1. injection H1 as <-. congruence.
             ++ right. exists r, d, cs. auto.
      + split.
        * intros [H|(r & d & cs & Hin & H1 & H2 & H3)]; auto.
          right. exists r, d, cs. auto.
        * intros [H|(r & d & cs & [<-|Hin] & H1 & H2 & H3)]; auto.
          -- congruence.
          -- right. exists r, d, cs. auto. }
  assert (Hvals : forall rs acc,
             Forall (fun kv => snd kv = true) acc ->
             Forall (fun kv => snd kv = true) (fold_left step rs acc)).
  { induction rs as [|role rs IH]; intros acc H; simpl; [exact H|].
    apply IH. unfold step.
    destruct (assoc (getRoleDefinitions db) role) as [def|]; [|exact H].
    destruct (role_capabilities def); [now apply values_merge | exact H]. }
  split; [|split; [|split]].
  - intro c. unfold resolveUserCapabilities. simpl. fold userCaps. fold step.
    rewrite Hfold. split.
    + intros [H|(role & def & caps & Hin & H1 & H2 & H3)]; [discriminate|].
      exists role, def, caps. apply Hroles in Hin. auto.
    + intros (role & def & caps & Hin & H1 & H2 & H3).
      right. exists role, def, caps. apply Hroles in Hin. auto.
  - unfold resolveUserCapabilities. simpl. apply Hvals. constructor.
  - exact Hroles.
  - reflexivity.
Qed.

(** X7: The authenticator is sound: whenever it returns a principal, the
    header was a Basic header whose decoded text splits at its first colon into
    a non-empty login and a non-empty secret (white space removed); an account
    with that login exists, one of its stored application-password hashes
    verifies against the secret, and the principal is that account with its
    capabilities resolved. A missing header, or one of another scheme, gives no
    principal. *)
Theorem X7_authentication_is_sound {rt : Runtime} (db : Db) :
  (forall authHeader user,
      authenticateRequest authHeader db = Some user ->
      exists header username rest row ap,
        authHeader = Some header
        /\ startsWith "Basic " header = true
        /\ split_colon (base64_decode (slice_from 6 header)) = Some (username, rest)
        /\ username <> EmptyString /\ strip_spaces rest <> EmptyString
        /\ In row (users db) /\ user_login row = username
        /\ In ap (getApplicationPasswords db (u_ID row))
        /\ bcrypt_compare (strip_spaces rest) (ap_password ap) = true
        /\ user = resolveUserCapabilities db (u_ID row) (user_login row) (user_email row))
  /\ authenticateRequest None db = None
  /\ (forall header, startsWith "Basic " header = false ->
                     authenticateRequest (Some header) db = None).
Proof.
  split; [|split].
  - intros authHeader user H. unfold authenticateRequest in H.
    destruct authHeader as [header|]; [|discriminate].
    destruct (negb (truthy header) || negb (startsWith "Basic " header)) eqn:Eh;
      [discriminate|].
    apply orb_false_iff in Eh. destruct Eh as [_ Eb]. apply negb_false_iff in Eb.
    destruct (split_colon (base64_decode (slice_from 6 header)))
      as [[username rest]|] eqn:Es; [|discriminate].
    destruct (negb (truthy username) || negb (truthy (strip_spaces rest))) eqn:Et;
      [discriminate|].
    apply orb_false_iff in Et. destruct Et as [Eu Ep].
    apply negb_false_iff in Eu, Ep. unfold truthy in Eu, Ep.
    apply negb_true_iff, String.eqb_neq in Eu. apply negb_true_iff, String.eqb_neq in Ep.
    destruct (getUserByLogin db username) as [row|] eqn:Er; [|discriminate].
    unfold getUserByLogin in Er. apply find_some in Er. destruct Er as [Hin Hlogin].
    apply String.eqb_eq in Hlogin.
    destruct (existsb (fun ap => bcrypt_compare (strip_spaces rest) (ap_password ap))
                (getApplicationPasswords db (u_ID row))) eqn:Em; [|discriminate].
    apply existsb_exists in Em. destruct Em as [ap [Hap Hm]].
    simpl in H. injection H as <-.
    exists header, username, rest, row, ap. repeat split; auto.
  - reflexivity.
  - intros header Hb. unfold authenticateRequest.
    rewrite Hb. simpl. rewrite orb_true_r. reflexivity.
Qed.

(** Alice's header at the reference site. *)
Lemma X7_authentication_is_sound_witness :
  authenticateRequest Site.alice Site.db0 = Some (Site.principal 1 "alice")
  /\ exists row, In row (users Site.db0) /\ user_login row = "alice"
                 /\ Site.principal 1 "alice"
                    = resolveUserCapabilities Site.db0 (u_ID row) (user_login row)
                        (user_email row).
Proof.
  assert (Ha : authenticateRequest Site.alice Site.db0
               = Some (Site.principal 1 "alice")) by reflexivity.
  split; [exact Ha|].
  destruct (proj1 (X7_authentication_is_sound Site.db0) Site.alice
              (Site.principal 1 "alice") Ha)
    as (header & username & rest & row & ap & Hh & _ & Hs & _ & _ & Hin & Hl & _ & _ & Hu).
  injection Hh as <-. vm_compute in Hs. injection Hs as <- <-.
  exists row. auto.
Defined.

(** ** The request schema *)

Lemma z_optional_reads {A : Type} (p : list string -> json -> zresult A)
    (R : json -> A -> Prop) (o : list (string * json)) (k : string)
    (field : option A) :
  (forall path j v, p path j = inl v -> R j v) ->
  z_optional p o k = inl field -> reads_as R o k field.
Proof.
  unfold z_optional, reads_as. intros HR H.
  destruct (obj_get o k) as [j|].
  - destruct (p [k] j) as [v|e] eqn:E; [|discriminate].
    injection H as <-. exact (HR _ _ _ E).
  - injection H as <-. exact I.
Qed.

Lemma z_raw_field_value (path : list string) (j : json) (f : raw_field) :
  z_raw_field path j = inl f -> raw_value j f.
Proof.
  unfold z_raw_field, raw_value. destruct j as [| | |s| |kvs]; try discriminate.
  - intro H. injection H as <-. reflexivity.
  - destruct (obj_get kvs "raw") as [[| | |r| |]|]; try discriminate.
    intro H. injection H as <-. reflexivity.
Qed.

Lemma z_string_value (path : list string) (j : json) (s : string) :
  z_string path j = inl s -> string_value j s.
Proof.
  unfold z_string, string_value. destruct j; try discriminate.
  intro H. injection H as <-. reflexivity.
Qed.

Lemma z_string_nullable_value (path : list string) (j : json) (v : option string) :
  z_string_nullable path j = inl v -> nullable_string_value j v.
Proof.
  unfold z_string_nullable, nullable_string_value. destruct j; try discriminate;
    intro H; injection H as <-; reflexivity.
Qed.

Lemma z_boolean_value (path : list string) (j : json) (b : bool) :
  z_boolean path j = inl b -> boolean_value j b.
Proof.
  unfold z_boolean, boolean_value. destruct j; try discriminate.
  intro H. injection H as <-. reflexivity.
Qed.

Lemma z_enum_value (values : list string) (path : list string) (j : json) (s : string) :
  z_enum values path j = inl s -> enum_value values j s.
Proof.
  unfold z_enum, enum_value. destruct j as [| | |x| |]; try discriminate.
  destruct (existsb (String.eqb x) values) eqn:E; [|discriminate].
  intro H. injection H as <-. split; [reflexivity|].
  apply existsb_exists in E. destruct E as (y & Hy & E).
  apply String.eqb_eq in E. now subst y.
Qed.

Lemma Q_int_value (q : Q) (n : Z) : Q_int q = Some n -> (q == inject_Z n)%Q.
Proof.
  unfold Q_int. destruct (Z.eqb_spec (Z.rem (Qnum q) (Zpos (Qden q))) 0) as [E|];
    [|discriminate].
  intro H. injection H as <-. unfold Qeq. simpl.
  apply Z.quot_exact in E; [|discriminate]. lia.
Qed.

Lemma z_int_value (bound : num_bound) (path : list string) (j : json) (n : Z) :
  z_int bound path j = inl n -> integer_value (lowest_of bound) j n.
Proof.
  unfold z_int, integer_value. destruct j as [| |q| | |]; try discriminate.
  destruct (Q_int q) as [m|] eqn:E; [|discriminate].
  apply Q_int_value in E. intro H. exists q. split; [reflexivity|].
  destruct bound; simpl.
  - injection H as <-. now split.
  - destruct (Z.ltb_spec 0 m); [|discriminate]. injection H as <-.
    split; [exact E | lia].
  - destruct (Z.leb_spec 0 m); [|discriminate]. injection H as <-.
    split; [exact E | lia].
Qed.

Lemma z_array_items_value (xs : list json) :
  forall (path : list string) (i : Z) (ns : list Z),
    z_array_items path i xs = inl ns -> Forall2 (integer_value (Some 1)) xs ns.
Proof.
  induction xs as [|x xs IH]; intros path i ns H; simpl in H.
  - injection H as <-. constructor.
  - destruct (z_int Positive (path ++ [Z_to_string i]) x) as [n|] eqn:E;
      [|discriminate].
    destruct (z_array_items path (i + 1) xs) as [ms|] eqn:E'; [|discriminate].
    injection H as <-. constructor.
    + exact (z_int_value Positive _ _ _ E).
    + exact (IH _ _ _ E').
Qed.

Lemma z_id_array_value (path : list string) (j : json) (ns : list Z) :
  z_id_array path j = inl ns -> id_array_value j ns.
Proof.
  unfold z_id_array, id_array_value. destruct j as [| | | |xs|]; try discriminate.
  intro H. exists xs. split; [reflexivity|]. exact (z_array_items_value _ _ _ _ H).
Qed.

Lemma z_record_value (path : list string) (j : json) (entries : list (string * json)) :
  z_record path j = inl entries -> record_value j entries.
Proof.
  unfold z_record, record_value. destruct j as [| | | | |kvs]; try discriminate.
  intro H. injection H as <-. exists kvs. split; reflexivity.
Qed.

(** X8: What the schema lets through, field by field: an accepted body is
    an object all of whose keys are fields of the schema, and every field of
    the parsed patch reads its key of the body: it is [undefined] exactly when
    the key is absent, and otherwise the value at the key is of the type of the
    field and the field holds that value. A title, content or excerpt is the
    string given or the string at [raw] of the object given; status, format and
    the two toggles are strings of their enumerations; [date] and [date_gmt] are
    a string or [null]; author is an integer from 1 on, featured media and
    parent are integers from 0 on, the menu order is any integer; categories
    and tags are arrays of integers from 1 on; and meta is the object given,
    entry by entry, without an entry [__proto__]. *)
Theorem X8_schema_accepts_only_well_formed_patches (rawBody : json)
    (body : PostUpdateInput) :
  postUpdateSchema rawBody = inl body ->
  exists o,
    rawBody = JObj o
    /\ (forall k v, In (k, v) o -> In k schema_keys)
    /\ reads_as raw_value o "title" (title body)
    /\ reads_as raw_value o "content" (content body)
    /\ reads_as raw_value o "excerpt" (excerpt body)
    /\ reads_as (enum_value status_enum) o "status" (b_status body)
    /\ reads_as nullable_string_value o "date" (date body)
    /\ reads_as nullable_string_value o "date_gmt" (date_gmt body)
    /\ reads_as string_value o "slug" (slug body)
    /\ reads_as (integer_value (Some 1)) o "author" (author body)
    /\ reads_as string_value o "password" (password body)
    /\ reads_as (integer_value (Some 0)) o "featured_media" (featured_media body)
    /\ reads_as boolean_value o "sticky" (sticky body)
    /\ reads_as string_value o "template" (template body)
    /\ reads_as (enum_value format_enum) o "format" (format body)
    /\ reads_as (enum_value ["open"; "closed"]) o "comment_status"
         (b_comment_status body)
    /\ reads_as (enum_value ["open"; "closed"]) o "ping_status" (b_ping_status body)
    /\ reads_as (integer_value (Some 0)) o "parent" (parent body)
    /\ reads_as (integer_value None) o "menu_order" (b_menu_order body)
    /\ reads_as id_array_value o "categories" (categories body)
    /\ reads_as id_array_value o "tags" (tags body)
    /\ reads_as record_value o "meta" (meta body).
Proof.
  unfold postUpdateSchema. destruct rawBody as [| | | | |o]; try discriminate.
  destruct (z_optional z_raw_field o "title") as [f1|] eqn:E1; [|discriminate].
  destruct (z_optional z_raw_field o "content") as [f2|] eqn:E2; [|discriminate].
  destruct (z_optional z_raw_field o "excerpt") as [f3|] eqn:E3; [|discriminate].
  destruct (z_optional (z_enum status_enum) o "status") as [f4|] eqn:E4; [|discriminate].
  destruct (z_optional z_string_nullable o "date") as [f5|] eqn:E5; [|discriminate].
  destruct (z_optional z_string_nullable o "date_gmt") as [f6|] eqn:E6; [|discriminate].
  destruct (z_optional z_string o "slug") as [f7|] eqn:E7; [|discriminate].
  destruct (z_optional (z_int Positive) o "author") as [f8|] eqn:E8; [|discriminate].
  destruct (z_optional z_string o "password") as [f9|] eqn:E9; [|discriminate].
  destruct (z_optional (z_int Min0) o "featured_media") as [f10|] eqn:E10; [|discriminate].
  destruct (z_optional z_boolean o "sticky") as [f11|] eqn:E11; [|discriminate].
  destruct (z_optional z_string o "template") as [f12|] eqn:E12; [|discriminate].
  destruct (z_optional (z_enum format_enum) o "format") as [f13|] eqn:E13; [|discriminate].
  destruct (z_optional (z_enum ["open"; "closed"]) o "comment_status") as [f14|] eqn:E14;
    [|discriminate].
  destruct (z_optional (z_enum ["open"; "closed"]) o "ping_status") as [f15|] eqn:E15;
    [|discriminate].
  destruct (z_optional (z_int Min0) o "parent") as [f16|] eqn:E16; [|discriminate].
  destruct (z_optional (z_int NoBound) o "menu_order") as [f17|] eqn:E17; [|discriminate].
  destruct (z_optional z_id_array o "categories") as [f18|] eqn:E18; [|discriminate].
  destruct (z_optional z_id_array o "tags") as [f19|] eqn:E19; [|discriminate].
  destruct (z_optional z_record o "meta") as [f20|] eqn:E20; [|discriminate].
  destruct (forallb (fun kv => existsb (String.eqb (fst kv)) schema_keys) o) eqn:Ek;
    [|discriminate].
  intro H. injection H as <-. exists o.
  cbn [title content excerpt b_status date date_gmt slug author password
       featured_media sticky template format b_comment_status b_ping_status
       parent b_menu_order categories tags meta].
  split; [reflexivity|]. split.
  { intros k v Hin. rewrite forallb_forall in Ek. specialize (Ek _ Hin).
    apply existsb_exists in Ek. destruct Ek as [x [Hx Ex]].
    apply String.eqb_eq in Ex. simpl in Ex. now subst. }
  split; [exact (z_optional_reads _ _ _ _ _ z_raw_field_value E1)|].
  split; [exact (z_optional_reads _ _ _ _ _ z_raw_field_value E2)|].
  split; [exact (z_optional_reads _ _ _ _ _ z_raw_field_value E3)|].
  split; [exact (z_optional_reads _ _ _ _ _ (z_enum_value status_enum) E4)|].
  split; [exact (z_optional_reads _ _ _ _ _ z_string_nullable_value E5)|].
  split; [exact (z_optional_reads _ _ _ _ _ z_string_nullable_value E6)|].
  split; [exact (z_optional_reads _ _ _ _ _ z_string_value E7)|].
  split; [exact (z_optional_reads _ _ _ _ _ (z_int_value Positive) E8)|].
  split; [exact (z_optional_reads _ _ _ _ _ z_string_value E9)|].
  split; [exact (z_optional_reads _ _ _ _ _ (z_int_value Min0) E10)|].
  split; [exact (z_optional_reads _ _ _ _ _ z_boolean_value E11)|].
  split; [exact (z_optional_reads _ _ _ _ _ z_string_value E12)|].
  split; [exact (z_optional_reads _ _ _ _ _ (z_enum_value format_enum) E13)|].
  split; [exact (z_optional_reads _ _ _ _ _ (z_enum_value ["open"; "closed"]) E14)|].
  split; [exact (z_optional_reads _ _ _ _ _ (z_enum_value ["open"; "closed"]) E15)|].
  split; [exact (z_optional_reads _ _ _ _ _ (z_int_value Min0) E16)|].
  split; [exact (z_optional_reads _ _ _ _ _ (z_int_value NoBound) E17)|].
  split; [exact (z_optional_reads _ _ _ _ _ z_id_array_value E18)|].
  split; [exact (z_optional_reads _ _ _ _ _ z_id_array_value E19)|].
  exact (z_optional_reads _ _ _ _ _ z_record_value E20).
Qed.

(** A body with a title under [raw], an author, two categories and a meta
    object that has an entry [__proto__]. *)
Lemma X8_schema_accepts_only_well_formed_patches_witness :
  let o := [("title", JObj [("raw", JStr "Hello"); ("rendered", JStr "x")]);
            ("author", Site.num 2);
            ("categories", JArr [Site.num 1; Site.num 2]);
            ("meta", JObj [("mood", JStr "calm"); ("__proto__", JNull)])] in
  exists body,
    postUpdateSchema (JObj o) = inl body
    /\ title body = Some (WithRaw "Hello") /\ author body = Some 2
    /\ categories body = Some [1; 2] /\ b_status body = None
    /\ meta body = Some [("mood", JStr "calm")]
    /\ reads_as raw_value o "title" (title body)
    /\ reads_as (integer_value (Some 1)) o "author" (author body)
    /\ reads_as record_value o "meta" (meta body).
Proof.
  intro o.
  destruct (postUpdateSchema (JObj o)) as [body|e] eqn:Hparse;
    [|exfalso; vm_compute in Hparse; discriminate].
  exists body. split; [reflexivity|].
  destruct (X8_schema_accepts_only_well_formed_patches (JObj o) body Hparse)
    as (o' & Ho & _ & Ht & _ & _ & _ & _ & _ & _ & Ha & _ & _ & _ & _ & _ & _
        & _ & _ & _ & _ & _ & Hm).
  injection Ho as <-.
  assert (Hbody : postUpdateSchema (JObj o) = inl (patch_of o)) by reflexivity.
  rewrite Hparse in Hbody. injection Hbody as Hbody.
  split; [rewrite Hbody; reflexivity|]. split; [rewrite Hbody; reflexivity|].
  split; [rewrite Hbody; reflexivity|]. split; [rewrite Hbody; reflexivity|].
  split; [rewrite Hbody; reflexivity|].
  split; [exact Ht|]. split; [exact Ha | exact Hm].
Defined.

(** ** The route and the service as a whole *)

(** X9: The route rejects before it touches the store: a post id that
    does not parse, or is not positive, is answered 404 [rest_post_invalid_id]
    whatever the body and the credentials are; with a valid id a body that is
    not JSON is answered 400 [rest_invalid_json]; and with a valid id and a body
    the schema accepts, a request the authenticator gives no principal for is
    answered 401 [rest_not_logged_in]. In all three the store is unchanged. *)
Theorem X9_route_rejects_before_the_store {rt : Runtime} (request : Request) (db : Db) :
  ((parseInt10 (param_postId request) = None
    \/ exists n, parseInt10 (param_postId request) = Some n /\ n <= 0) ->
   exists e, handleUpdate request db = (toResponse e, db)
             /\ code e = "rest_post_invalid_id" /\ status e = 404)
  /\ (forall n, parseInt10 (param_postId request) = Some n -> 0 < n ->
        (req_json request = None ->
         exists e, handleUpdate request db = (toResponse e, db)
                   /\ code e = "rest_invalid_json" /\ status e = 400)
        /\ (forall rawBody body,
              req_json request = Some rawBody ->
              postUpdateSchema rawBody = inl body ->
              authenticateRequest (header_authorization request) db = None ->
              exists e, handleUpdate request db = (toResponse e, db)
                        /\ code e = "rest_not_logged_in" /\ status e = 401)).
Proof.
  split.
  - intros [Hnone | [n [Hn Hle]]]; unfold handleUpdate.
    + rewrite Hnone. eexists. repeat split.
    + rewrite Hn. apply Z.leb_le in Hle. rewrite Hle. eexists. repeat split.
  - intros n Hn Hpos. unfold handleUpdate. rewrite Hn.
    destruct (Z.leb_spec n 0) as [Hle|_]; [lia|]. split.
    + intros ->. eexists. repeat split.
    + intros rawBody body -> -> Hauth.
      unfold withTransaction, transaction_body. rewrite Hauth.
      eexists. repeat split.
Qed.

(** Three rejected requests at the reference site. *)
Lemma X9_route_rejects_before_the_store_witness :
  (exists e, handleUpdate (Site.patch "abc" Site.alice []) Site.db0
             = (toResponse e, Site.db0) /\ status e = 404)
  /\ (exists e, handleUpdate (mkRequest "42" None Site.alice) Site.db0
                = (toResponse e, Site.db0) /\ status e = 400)
  /\ (exists e, handleUpdate (Site.patch "42" (Some "Bearer token") []) Site.db0
                = (toResponse e, Site.db0) /\ status e = 401).
Proof.
  split; [|split].
  - destruct (proj1 (X9_route_rejects_before_the_store
                       (Site.patch "abc" Site.alice []) Site.db0))
      as (e & H & _ & Hs); [left; reflexivity|]. eauto.
  - destruct (proj1 (proj2 (X9_route_rejects_before_the_store
                              (mkRequest "42" None Site.alice) Site.db0)
                       42 eq_refl eq_refl) eq_refl)
      as (e & H & _ & Hs). eauto.
  - destruct (proj2 (proj2 (X9_route_rejects_before_the_store
                              (Site.patch "42" (Some "Bearer token") []) Site.db0)
                       42 eq_refl eq_refl)
                (JObj []) empty_body eq_refl eq_refl eq_refl)
      as (e & H & _ & Hs). eauto.
Defined.

Section ServiceErrors.
Context {rt : Runtime}.

Lemma sideEffects_error (db1 db3 : Db) (postId : Z) (body : PostUpdateInput)
    (e : WpError) :
  sideEffects db1 postId body = (inr e, db3) ->
  code e = "rest_invalid_featured_media" /\ status e = 400
  /\ exists fm, featured_media body = Some fm /\ 0 < fm.
Proof.
  unfold sideEffects.
  destruct (featured_media body) as [fm|]; [|discriminate].
  unfold handleFeaturedMedia.
  destruct (Z.ltb_spec 0 fm) as [Hpos|_]; [|discriminate].
  destruct (negb (isValidAttachment _ fm)); [|discriminate].
  intro H. injection H as <- _. eauto.
Qed.

Lemma persistAndRespond_error (db db' : Db) (postId : Z) (body : PostUpdateInput)
    (existingPost : WpPostRow) (data0 : WpPostUpdateData) (e : WpError) :
  getPostById db postId = Some existingPost ->
  persistAndRespond db postId body existingPost data0 = (inr e, db') ->
  code e = "rest_invalid_featured_media" /\ status e = 400.
Proof.
  intros Hget H. unfold persistAndRespond in H.
  set (data := slugForDraftOrPending db postId existingPost data0) in *.
  pose proof (updatePost_read_same db postId data) as Hread.
  pose proof (updatePost_succeeds db postId data) as Hok.
  destruct (updatePost db postId data) as [ok db1]. simpl in *.
  rewrite Hget in Hok. simpl in Hok. subst ok. simpl in H.
  pose proof (sideEffects_same_rows db1 postId body) as [Hp _].
  destruct (sideEffects db1 postId body) as [[u|e'] db7] eqn:Eside.
  - simpl in Hp.
    assert (Hg : getPostById db7 postId = getPostById db1 postId)
      by (unfold getPostById; now rewrite Hp).
    rewrite Hg, Hread, Hget in H. simpl in H. discriminate.
  - injection H as <- _. apply sideEffects_error in Eside. tauto.
Qed.
End ServiceErrors.

(** X10: An error of the service leaves the store as it was, with one
    exception: every error other than the 400 [rest_invalid_featured_media] of
    the side effects is returned with the store unchanged, so a request that
    fails its lookup, its permission checks or its preparation writes nothing.
    The same holds for the answer of the route. *)
Theorem X10_errors_leave_the_store_unchanged {rt : Runtime} :
  (forall (db db' : Db) (postId : Z) (body : PostUpdateInput)
          (user : AuthenticatedUser) (e : WpError),
      handlePostUpdate db postId body user = (inr e, db') ->
      db' = db \/ (code e = "rest_invalid_featured_media" /\ status e = 400))
  /\ (forall (request : Request) (db : Db),
        http_status (fst (handleUpdate request db)) <> 200 ->
        snd (handleUpdate request db) = db
        \/ exists e, http_body (fst (handleUpdate request db)) = inr e
                     /\ code e = "rest_invalid_featured_media").
Proof.
  assert (Hservice : forall db db' postId body user e,
             handlePostUpdate db postId body user = (inr e, db') ->
             db' = db \/ (code e = "rest_invalid_featured_media" /\ status e = 400)).
  { intros db db' postId body user e H. unfold handlePostUpdate in H.
    destruct (getPostById db postId) as [old|] eqn:Hget.
    - destruct (negb (String.eqb (post_type old) "post")).
      + injection H as <- <-. now left.
      + destruct (checkPermissions db old body user) as [pe|] eqn:Hperm.
        * injection H as <- <-. now left.
        * destruct (prepareItemForDatabase db body old user) as [data0|] eqn:Hprep.
          -- right. exact (persistAndRespond_error _ _ _ _ _ _ _ Hget H).
          -- injection H as <- <-. now left.
    - injection H as <- <-. now left. }
  split; [exact Hservice|].
  intros request db. unfold handleUpdate.
  destruct (parseInt10 (param_postId request)) as [postId|]; [|now left].
  destruct (postId <=? 0); [now left|].
  destruct (req_json request) as [rawBody|]; [|now left].
  destruct (postUpdateSchema rawBody) as [body|]; [|now left].
  unfold withTransaction, transaction_body.
  destruct (authenticateRequest (header_authorization request) db) as [user|];
    [|now left].
  destruct (handlePostUpdate db postId body user) as [[r|e] db'] eqn:Hrun; simpl.
  - intro H. contradiction.
  - intros _. destruct (Hservice _ _ _ _ _ _ Hrun) as [->|[Hc _]];
      [now left | right; eauto].
Qed.

(** Bob's forbidden status change at the reference site is answered 403
    and writes nothing. *)
Lemma X10_errors_leave_the_store_unchanged_witness :
  let request := Site.patch "42" Site.bob [("title", JStr "New");
                                           ("status", JStr "publish")] in
  http_status (fst (handleUpdate request Site.db0)) = 403
  /\ snd (handleUpdate request Site.db0) = Site.db0.
Proof.
  intro request. split; [reflexivity|].
  destruct (proj2 X10_errors_leave_the_store_unchanged request Site.db0)
    as [H | (e & He & Hc)].
  - vm_compute. discriminate.
  - exact H.
  - exfalso. vm_compute in He. injection He as <-. discriminate.
Defined.

Section ServiceSuccess.
Context {rt : Runtime}.

Lemma prepare_author_value (db : Db) (body : PostUpdateInput) (user : AuthenticatedUser)
    (au : option Z) :
  prepare_author db body user = inl au ->
  au = author body
  /\ forall a, author body = Some a -> a = id user \/ userExists db a = true.
Proof.
  unfold prepare_author. destruct (author body) as [a|].
  - destruct (Z.eqb_spec a (id user)) as [->|Hne]; simpl.
    + intro H. injection H as <-. split; [reflexivity|].
      intros a' E. injection E as <-. now left.
    + destruct (userExists db a) eqn:Eu; simpl; [|discriminate].
      intro H. injection H as <-. split; [reflexivity|].
      intros a' E. injection E as <-. now right.
  - intro H. injection H as <-. split; [reflexivity | discriminate].
Qed.

Lemma prepare_password_value (db : Db) (body : PostUpdateInput) (existingPost : WpPostRow)
    (pw : option string) :
  prepare_password db body existingPost = inl pw -> pw = password body.
Proof.
  unfold prepare_password. destruct (password body) as [p|].
  - repeat break_match; try discriminate; intro H; now injection H.
  - intro H. now injection H.
Qed.

Lemma prepare_parent_value (db : Db) (body : PostUpdateInput) (pa : option Z) :
  prepare_parent db body = inl pa ->
  pa = parent body
  /\ forall p, parent body = Some p -> p = 0 \/ exists q, getPostById db p = Some q.
Proof.
  unfold prepare_parent. destruct (parent body) as [p|].
  - destruct (Z.eqb_spec p 0) as [->|Hne].
    + intro H. injection H as <-. split; [reflexivity|].
      intros p' E. injection E as <-. now left.
    + destruct (getPostById db p) as [q|] eqn:Eq; [|discriminate].
      intro H. injection H as <-. apply getPostById_ID in Eq as Hid.
      split; [now rewrite Hid|].
      intros p' E. injection E as <-. right. eauto.
  - intro H. injection H as <-. split; [reflexivity | discriminate].
Qed.

(** The row and the answer of a successful request, by the patch. *)
Lemma handlePostUpdate_success (db db' : Db) (postId : Z) (body : PostUpdateInput)
    (user : AuthenticatedUser) (r : WpPostResponse) :
  handlePostUpdate db postId body user = (inl r, db') ->
  exists old new st,
    getPostById db postId = Some old
    /\ post_type old = "post"
    /\ checkPermissions db old body user = None
    /\ prepare_status body old user = inl st
    /\ prepare_author db body user = inl (author body)
    /\ prepare_password db body old = inl (password body)
    /\ prepare_parent db body = inl (parent body)
    /\ getPostById db' postId = Some new
    /\ r = buildPostResponse db' new "edit" (siteUrl_of db')
             (gmtOffset_of (getOption db' "gmt_offset"))
    /\ ID new = postId /\ post_type new = "post"
    /\ post_title new = or_old (extractRawValue (title body)) (post_title old)
    /\ post_content new = or_old (extractRawValue (content body)) (post_content old)
    /\ post_excerpt new = or_old (extractRawValue (excerpt body)) (post_excerpt old)
    /\ post_status new = or_old st (post_status old)
    /\ post_author new = or_old (author body) (post_author old)
    /\ post_password new = or_old (password body) (post_password old)
    /\ post_parent new = or_old (parent body) (post_parent old)
    /\ menu_order new = or_old (b_menu_order body) (menu_order old)
    /\ comment_status new = or_old (b_comment_status body) (comment_status old)
    /\ ping_status new = or_old (b_ping_status body) (ping_status old).
Proof.
  intro H. apply handlePostUpdate_ok in H.
  destruct H as (old & data0 & Hget & Hty & Hperm & Hprep & Hrun).
  destruct (persistAndRespond_ok _ _ _ _ _ _ _ Hget Hrun) as (Hnew & _ & _ & Hr).
  apply prepareItemForDatabase_inv in Hprep.
  destruct Hprep as (st & au & pw & pa & Hst & Hau & Hpw & _ & Hpa & Hdata).
  destruct (prepare_author_value _ _ _ _ Hau) as [-> _].
  apply prepare_password_value in Hpw as Epw. subst pw.
  destruct (prepare_parent_value _ _ _ Hpa) as [-> _].
  exists old. eexists. exists st.
  split; [exact Hget|]. split; [exact Hty|]. split; [exact Hperm|].
  split; [exact Hst|]. split; [exact Hau|]. split; [exact Hpw|].
  split; [exact Hpa|]. split; [exact Hnew|]. split; [exact Hr|].
  apply getPostById_ID in Hget as Hid.
  assert (Hs : forall c, c <> c_post_name ->
                 data_col c (slugForDraftOrPending db postId old data0)
                 = data_col c data0)
    by (intros c Hc; now apply slugForDraftOrPending_cols).
  pose proof (Hs c_post_title ltac:(discriminate)) as H1.
  pose proof (Hs c_post_content ltac:(discriminate)) as H2.
  pose proof (Hs c_post_excerpt ltac:(discriminate)) as H3.
  pose proof (Hs c_post_status ltac:(discriminate)) as H4.
  pose proof (Hs c_post_author ltac:(discriminate)) as H5.
  pose proof (Hs c_post_password ltac:(discriminate)) as H6.
  pose proof (Hs c_post_parent ltac:(discriminate)) as H7.
  pose proof (Hs c_menu_order ltac:(discriminate)) as H8.
  pose proof (Hs c_comment_status ltac:(discriminate)) as H9.
  pose proof (Hs c_ping_status ltac:(discriminate)) as H10.
  subst data0. simpl in H1, H2, H3, H4, H5, H6, H7, H8, H9, H10.
  cbn [ID post_type post_title post_content post_excerpt post_status post_author
       post_password post_parent menu_order comment_status ping_status apply_update].
  repeat match goal with
         | H : option_map _ ?x = option_map _ ?y |- _ =>
             assert (x = y)
               by (destruct x, y; simpl in H; try discriminate H;
                   try (injection H as ->); reflexivity);
             clear H
         end.
  repeat match goal with E : _ = _ :> option _ |- _ => rewrite E; clear E end.
  repeat split; assumption.
Qed.
End ServiceSuccess.

(** X11: No update succeeds without its capabilities: after a successful
    request the principal may edit the post as it was; held [edit_others_posts]
    if the patch names another author; held [edit_others_posts] or
    [publish_posts] if the patch makes the post sticky; held [publish_posts] if
    the patch changes the status to private, publish or future; and held one of
    the assignment, management or [edit_posts] capabilities for each taxonomy
    the patch assigns terms of. *)
Theorem X11_success_implies_capabilities {rt : Runtime} (db db' : Db) (postId : Z)
    (body : PostUpdateInput) (user : AuthenticatedUser) (r : WpPostResponse) :
  handlePostUpdate db postId body user = (inl r, db') ->
  exists old,
    getPostById db postId = Some old
    /\ checkUpdatePermission user old = true
    /\ (forall a, author body = Some a -> a <> id user ->
                  has_cap (allcaps user) "edit_others_posts" = true)
    /\ (sticky body = Some true ->
        has_cap (allcaps user) "edit_others_posts" = true
        \/ has_cap (allcaps user) "publish_posts" = true)
    /\ (forall st, b_status body = Some st -> st <> post_status old ->
                   In st ["private"; "publish"; "future"] ->
                   has_cap (allcaps user) "publish_posts" = true)
    /\ (nonempty_list (categories body) = true ->
        has_cap (allcaps user) "assign_categories" = true
        \/ has_cap (allcaps user) "manage_categories" = true
        \/ has_cap (allcaps user) "edit_posts" = true)
    /\ (nonempty_list (tags body) = true ->
        has_cap (allcaps user) "assign_post_tags" = true
        \/ has_cap (allcaps user) "manage_post_tags" = true
        \/ has_cap (allcaps user) "edit_posts" = true).
Proof.
  intro H. apply handlePostUpdate_success in H.
  destruct H as (old & new & st & Hget & _ & Hperm & Hst & _).
  exists old. split; [exact Hget|].
  unfold checkPermissions in Hperm.
  destruct (checkUpdatePermission user old) eqn:E1; simpl in Hperm; [|discriminate].
  split; [reflexivity|].
  destruct (match author body with
            | Some a => negb (a =? id user)
                        && negb (has_cap (allcaps user) "edit_others_posts")
            | None => false
            end) eqn:E2; [discriminate|].
  destruct (is_true (sticky body)
            && negb (has_cap (allcaps user) "edit_others_posts")
            && negb (has_cap (allcaps user) "publish_posts")) eqn:E3; [discriminate|].
  destruct (negb (checkAssignTermsPermission db body user)) eqn:E4; [discriminate|].
  apply negb_false_iff in E4. unfold checkAssignTermsPermission in E4.
  split; [|split; [|split; [|split]]].
  - intros a Ha Hne. rewrite Ha in E2.
    apply andb_false_iff in E2. destruct E2 as [E|E].
    + apply negb_false_iff, Z.eqb_eq in E. contradiction.
    + now apply negb_false_iff in E.
  - intros Hs. rewrite Hs in E3. simpl in E3.
    destruct (has_cap (allcaps user) "edit_others_posts"); [now left|].
    destruct (has_cap (allcaps user) "publish_posts"); [now right | discriminate].
  - intros s Hs Hne Hin. unfold prepare_status in Hst. rewrite Hs in Hst.
    destruct (String.eqb_spec s (post_status old)) as [|_]; [contradiction|].
    simpl in Hst.
    destruct (validateAndNormalizeStatus s user) as [x|] eqn:Ev; [|discriminate].
    unfold validateAndNormalizeStatus in Ev.
    destruct Hin as [<-|[<-|[<-|[]]]]; simpl in Ev;
      destruct (has_cap (allcaps user) "publish_posts"); try reflexivity;
      discriminate.
  - intros Hc. rewrite Hc in E4. simpl in E4.
    destruct (has_cap (allcaps user) "assign_categories"); [auto|].
    destruct (has_cap (allcaps user) "manage_categories"); [auto|].
    destruct (has_cap (allcaps user) "edit_posts"); [auto | discriminate].
  - intros Ht. rewrite Ht in E4.
    destruct (has_cap (allcaps user) "assign_post_tags"); [auto|].
    destruct (has_cap (allcaps user) "manage_post_tags"); [auto|].
    destruct (has_cap (allcaps user) "edit_posts"); [auto|].
    match type of E4 with (if ?c then _ else _) = _ => destruct c end;
      simpl in E4; discriminate.
Qed.

(** The administrator publishes bob's draft and makes it sticky. *)
Lemma X11_success_implies_capabilities_witness :
  let user := Site.principal 1 "alice" in
  let body := patch_of [("status", JStr "publish"); ("sticky", JBool true)] in
  exists r db',
    handlePostUpdate Site.db0 42 body user = (inl r, db')
    /\ has_cap (allcaps user) "publish_posts" = true.
Proof.
  intros user body.
  destruct (handlePostUpdate Site.db0 42 body user) as [[r|e] db'] eqn:Hrun.
  - exists r, db'. split; [reflexivity|].
    destruct (X11_success_implies_capabilities Site.db0 db' 42 body user r Hrun)
      as (old & Hget & _ & _ & _ & Hst & _).
    vm_compute in Hget. injection Hget as <-.
    apply (Hst "publish"); [reflexivity | discriminate | simpl; auto].
  - exfalso. vm_compute in Hrun. discriminate.
Defined.

(** X12: A successful request never stores a reference it did not check:
    the parent the patch names is stored as given and is 0 or the id of a row
    that exists; the author the patch names is stored as given and is the
    requesting principal or an account that exists. *)
Theorem X12_stored_references_exist {rt : Runtime} (db db' : Db) (postId : Z)
    (body : PostUpdateInput) (user : AuthenticatedUser) (r : WpPostResponse) :
  handlePostUpdate db postId body user = (inl r, db') ->
  exists new,
    getPostById db' postId = Some new
    /\ (forall p, parent body = Some p ->
                  post_parent new = p
                  /\ (p = 0 \/ exists q, getPostById db p = Some q))
    /\ (forall a, author body = Some a ->
                  post_author new = a /\ r_author r = a
                  /\ (a = id user \/ userExists db a = true)).
Proof.
  intro H. apply handlePostUpdate_success in H.
  destruct H as (old & new & st & _ & _ & _ & _ & Hau & _ & Hpa & Hnew & Hr & _ & _
                 & _ & _ & _ & _ & Hauthor & _ & Hparent & _).
  exists new. split; [exact Hnew|]. split.
  - intros p Hp. rewrite Hparent, Hp. split; [reflexivity|].
    exact (proj2 (prepare_parent_value _ _ _ Hpa) p Hp).
  - intros a Ha. subst r. simpl. rewrite Hauthor, Ha.
    split; [reflexivity|]. split; [reflexivity|].
    exact (proj2 (prepare_author_value _ _ _ _ Hau) a Ha).
Qed.

(** The administrator hands bob's draft to carol and files it under post 43. *)
Lemma X12_stored_references_exist_witness :
  let user := Site.principal 1 "alice" in
  let body := patch_of [("author", Site.num 3); ("parent", Site.num 43)] in
  exists r db',
    handlePostUpdate Site.db0 42 body user = (inl r, db')
    /\ r_author r = 3 /\ userExists Site.db0 3 = true.
Proof.
  intros user body.
  destruct (handlePostUpdate Site.db0 42 body user) as [[r|e] db'] eqn:Hrun.
  - exists r, db'. split; [reflexivity|].
    destruct (X12_stored_references_exist Site.db0 db' 42 body user r Hrun)
      as (new & _ & _ & Hau).
    destruct (Hau 3 eq_refl) as (_ & Hr & _). split; [exact Hr | reflexivity].
  - exfalso. vm_compute in Hrun. discriminate.
Defined.

(** X13: The response of a successful request reflects the row just
    written: it carries the id and the type of the post; the raw title, content
    and excerpt, the comment and ping toggles, the author and the password are
    those of the patch where the patch has the field and those of the old row
    where it has not; and when the resulting password is not empty the rendered
    content and excerpt are empty and flagged protected, the raw values still
    being exposed. *)
Theorem X13_response_reflects_the_patch {rt : Runtime} (db db' : Db) (postId : Z)
    (body : PostUpdateInput) (user : AuthenticatedUser) (r : WpPostResponse) :
  handlePostUpdate db postId body user = (inl r, db') ->
  exists old,
    getPostById db postId = Some old
    /\ r_id r = postId /\ r_type r = "post"
    /\ r_title_raw r = or_old (extractRawValue (title body)) (post_title old)
    /\ r_content_raw r = or_old (extractRawValue (content body)) (post_content old)
    /\ r_excerpt_raw r = or_old (extractRawValue (excerpt body)) (post_excerpt old)
    /\ r_comment_status r = or_old (b_comment_status body) (comment_status old)
    /\ r_ping_status r = or_old (b_ping_status body) (ping_status old)
    /\ r_author r = or_old (author body) (post_author old)
    /\ r_password r = Some (or_old (password body) (post_password old))
    /\ r_content_protected r = truthy (or_old (password body) (post_password old))
    /\ r_excerpt_protected r = r_content_protected r
    /\ (r_content_protected r = true ->
        r_content_rendered r = EmptyString /\ r_excerpt_rendered r = EmptyString)
    /\ (r_content_protected r = false ->
        r_content_rendered r = r_content_raw r
        /\ r_excerpt_rendered r = r_excerpt_raw r).
Proof.
  intro H. apply handlePostUpdate_success in H.
  destruct H as (old & new & st & Hget & _ & _ & _ & _ & _ & _ & _ & Hr & Hid & Hty
                 & Ht & Hc & He & _ & Ha & Hpw & _ & _ & Hcs & Hps).
  exists old. split; [exact Hget|]. subst r. simpl.
  rewrite Hid, Hty, Ht, Hc, He, Ha, Hpw, Hcs, Hps.
  repeat (split; [reflexivity|]).
  split; intro Hp; rewrite Hp; split; reflexivity.
Qed.

(** Bob retitles his draft. *)
Lemma X13_response_reflects_the_patch_witness :
  let user := Site.principal 2 "bob" in
  let body := patch_of [("title", JObj [("raw", JStr "Hello")])] in
  exists r db',
    handlePostUpdate Site.db0 42 body user = (inl r, db')
    /\ r_title_raw r = "Hello" /\ r_content_raw r = "Some text".
Proof.
  intros user body.
  destruct (handlePostUpdate Site.db0 42 body user) as [[r|e] db'] eqn:Hrun.
  - exists r, db'. split; [reflexivity|].
    destruct (X13_response_reflects_the_patch Site.db0 db' 42 body user r Hrun)
      as (old & Hget & _ & _ & Ht & Hc & _).
    vm_compute in Hget. injection Hget as <-. split; [exact Ht | exact Hc].
  - exfalso. vm_compute in Hrun. discriminate.
Defined.

Lemma extractRawValue_bare (f : option raw_field) :
  extractRawValue (option_map Bare (extractRawValue f)) = extractRawValue f.
Proof. destruct f as [[s|s]|]; reflexivity. Qed.

(** X14: The two forms of a title, content or excerpt are interchangeable:
    the service answers a patch, and leaves the store, exactly as it does for
    the same patch with each of the three fields written as a bare string. *)
Theorem X14_raw_field_forms_are_interchangeable {rt : Runtime} (db : Db) (postId : Z)
    (body : PostUpdateInput) (user : AuthenticatedUser) :
  handlePostUpdate db postId (bare_fields body) user
  = handlePostUpdate db postId body user.
Proof.
  unfold handlePostUpdate.
  destruct (getPostById db postId) as [old|]; [|reflexivity].
  destruct (negb (String.eqb (post_type old) "post")); [reflexivity|].
  change (checkPermissions db old (bare_fields body) user)
    with (checkPermissions db old body user).
  destruct (checkPermissions db old body user); [reflexivity|].
  assert (E : prepareItemForDatabase db (bare_fields body) old user
              = prepareItemForDatabase db body old user).
  { unfold prepareItemForDatabase.
    change (title (bare_fields body))
      with (option_map Bare (extractRawValue (title body))).
    change (content (bare_fields body))
      with (option_map Bare (extractRawValue (content body))).
    change (excerpt (bare_fields body))
      with (option_map Bare (extractRawValue (excerpt body))).
    rewrite !extractRawValue_bare. reflexivity. }
  rewrite E. destruct (prepareItemForDatabase db body old user); reflexivity.
Qed.

(** ** Featured media, sticky posts and terms *)

(** X15: The featured media of a patch, as the response reads it back: a
    positive id of an attachment is recorded under [_thumbnail_id] and the
    response built from the resulting store reports that id; a positive id that
    is no attachment is answered 400 [rest_invalid_featured_media] and records
    nothing; 0 removes the key and the response reports 0. *)
Theorem X15_featured_media_is_read_back {rt : Runtime} (db : Db) (featuredMedia : Z)
    (post : WpPostRow) (context siteUrl : string) (gmtOffset : option Q) :
  let answer := handleFeaturedMedia db featuredMedia (ID post) in
  let r := buildPostResponse (snd answer) post context siteUrl gmtOffset in
  (0 < featuredMedia -> isValidAttachment db featuredMedia = true ->
   fst answer = inl tt
   /\ getPostMeta (snd answer) (ID post) "_thumbnail_id"
      = Some (Z_to_string featuredMedia)
   /\ r_featured_media r = Some featuredMedia)
  /\ (0 < featuredMedia -> isValidAttachment db featuredMedia = false ->
      exists e, answer = (inr e, db)
                /\ code e = "rest_invalid_featured_media" /\ status e = 400)
  /\ (featuredMedia <= 0 ->
      fst answer = inl tt
      /\ getPostMeta (snd answer) (ID post) "_thumbnail_id" = None
      /\ r_featured_media r = Some 0).
Proof.
  unfold handleFeaturedMedia. split; [|split].
  - intros Hpos Hvalid. apply Z.ltb_lt in Hpos. rewrite Hpos, Hvalid. simpl.
    split; [reflexivity|].
    rewrite updatePostMeta_get_same. split; [reflexivity|].
    destruct (parseInt10_printed featuredMedia) as [Hp Ht]. now rewrite Ht.
  - intros Hpos Hinvalid. apply Z.ltb_lt in Hpos. rewrite Hpos, Hinvalid. simpl.
    eexists. repeat split.
  - intros Hle. destruct (Z.ltb_spec 0 featuredMedia) as [|_]; [lia|]. simpl.
    split; [reflexivity|].
    rewrite deletePostMeta_get_same. split; reflexivity.
Qed.

(** The attachment 50 becomes the thumbnail of post 42; 999 is refused. *)
Lemma X15_featured_media_is_read_back_witness :
  let post := Site.a_post 42 2 "draft" "hello-world" in
  r_featured_media
    (buildPostResponse (snd (handleFeaturedMedia Site.db0 50 42)) post "edit"
       "http://example.com" None) = Some 50
  /\ (exists e, handleFeaturedMedia Site.db0 999 42 = (inr e, Site.db0)
                /\ code e = "rest_invalid_featured_media" /\ status e = 400)
  /\ getPostMeta (snd (handleFeaturedMedia Site.db0 0 43)) 43 "_thumbnail_id" = None.
Proof.
  intro post. split; [|split].
  - apply (proj1 (X15_featured_media_is_read_back Site.db0 50 post "edit"
                    "http://example.com" None)); [lia | reflexivity].
  - apply (proj1 (proj2 (X15_featured_media_is_read_back Site.db0 999 post "edit"
                           "http://example.com" None))); [lia | reflexivity].
  - apply (proj2 (proj2 (X15_featured_media_is_read_back Site.db0 0
                           (Site.a_post 43 1 "publish" "first") "edit"
                           "http://example.com" None))). lia.
Defined.

Lemma includes_remove_first_other (x y : Z) (l : list Z) :
  y <> x -> includes (remove_first x l) y = includes l y.
Proof.
  intro Hne. unfold includes. induction l as [|z l IH]; simpl; [reflexivity|].
  destruct (Z.eqb_spec z x) as [->|Hzx]; simpl.
  - destruct (Z.eqb_spec y x); [contradiction | reflexivity].
  - now rewrite IH.
Qed.

Lemma remove_first_not_In (x : Z) (l : list Z) :
  NoDup l -> ~ In x (remove_first x l).
Proof.
  induction 1 as [|z l Hz Hl IH]; simpl; [tauto|].
  destruct (Z.eqb_spec z x) as [->|Hzx]; [exact Hz|].
  intros [E|Hin]; [contradiction | now apply IH].
Qed.

(** The registry after [handleStickyStatus], as [getStickyPosts] reads it. *)
Lemma getStickyPosts_after (db : Db) (postId : Z) (sticky : bool) :
  getStickyPosts (handleStickyStatus db postId sticky)
  = if sticky then
      if includes (getStickyPosts db) postId then getStickyPosts db
      else getStickyPosts db ++ (if 0 <? postId then [postId] else [])
    else
      if includes (getStickyPosts db) postId
      then remove_first postId (getStickyPosts db)
      else getStickyPosts db.
Proof.
  unfold handleStickyStatus.
  destruct sticky, (includes (getStickyPosts db) postId); simpl; try reflexivity.
  - apply getStickyPosts_pushed.
  - rewrite getStickyPosts_setStickyPosts. apply filter_positive_id.
    apply remove_first_positive, getStickyPosts_positive.
Qed.

(** X16: The sticky flag reads back what was set: a post with a positive
    id made sticky is sticky afterwards; in a registry without duplicates a post
    made unsticky is not sticky afterwards; and in both directions every other
    post is sticky exactly if it was. *)
Theorem X16_sticky_flag_reads_back (db : Db) (postId : Z) :
  (0 < postId -> isSticky (handleStickyStatus db postId true) postId = true)
  /\ (NoDup (getStickyPosts db) ->
      isSticky (handleStickyStatus db postId false) postId = false)
  /\ (forall (sticky : bool) (j : Z), j <> postId ->
        isSticky (handleStickyStatus db postId sticky) j = isSticky db j).
Proof.
  unfold isSticky. split; [|split].
  - intro Hpos. rewrite getStickyPosts_after.
    destruct (includes (getStickyPosts db) postId) eqn:Hin; [exact Hin|].
    apply Z.ltb_lt in Hpos. rewrite Hpos.
    apply includes_true, in_or_app. right. now left.
  - intro Hnd. rewrite getStickyPosts_after.
    destruct (includes (getStickyPosts db) postId) eqn:Hin; [|exact Hin].
    apply includes_false. now apply remove_first_not_In.
  - intros sticky j Hne. rewrite getStickyPosts_after.
    destruct sticky, (includes (getStickyPosts db) postId); try reflexivity.
    + unfold includes. rewrite existsb_app.
      destruct (0 <? postId); simpl; [|now rewrite orb_false_r].
      destruct (Z.eqb_spec j postId); [contradiction|]. now rewrite !orb_false_r.
    + now apply includes_remove_first_other.
Qed.

(** Post 42 is made sticky and post 43 unsticky at the reference site. *)
Lemma X16_sticky_flag_reads_back_witness :
  isSticky Site.db0 43 = true /\ isSticky Site.db0 42 = false
  /\ isSticky (handleStickyStatus Site.db0 42 true) 42 = true
  /\ isSticky (handleStickyStatus Site.db0 42 true) 43 = true
  /\ isSticky (handleStickyStatus Site.db0 43 false) 43 = false.
Proof.
  split; [reflexivity|]. split; [reflexivity|].
  destruct (X16_sticky_flag_reads_back Site.db0 42) as (H1 & _ & H3).
  destruct (X16_sticky_flag_reads_back Site.db0 43) as (_ & H2 & _).
  split; [apply H1; lia|]. split.
  - rewrite H3; [reflexivity | lia].
  - apply H2. repeat constructor. simpl. tauto.
Defined.

(** ** Terms of an object *)

Lemma tt_identity_map_eq (f : TermTaxonomyRow -> TermTaxonomyRow)
    (l : list TermTaxonomyRow) :
  (forall tt, tt_identity (f tt) = tt_identity tt) ->
  map tt_identity (map f l) = map tt_identity l.
Proof. intro H. rewrite map_map. apply map_ext. exact H. Qed.

Lemma tt_identity_In (l l' : list TermTaxonomyRow) (tt : TermTaxonomyRow) :
  map tt_identity l = map tt_identity l' -> In tt l ->
  exists tt', In tt' l' /\ tt_identity tt' = tt_identity tt.
Proof.
  intros E Hin. apply (in_map tt_identity) in Hin. rewrite E in Hin.
  apply in_map_iff in Hin. destruct Hin as (x & Hx & Hin). now exists x.
Qed.

Lemma tt_identity_fields (a b : TermTaxonomyRow) :
  tt_identity a = tt_identity b ->
  term_taxonomy_id a = term_taxonomy_id b /\ tt_term_id a = tt_term_id b
  /\ taxonomy a = taxonomy b.
Proof. unfold tt_identity. intro E. injection E. intros. repeat split; assumption. Qed.

(** The join of [getObjectTerms], by its rows. *)
Lemma getObjectTerms_In (db : Db) (objectId : Z) (tax : string) (k : Z) :
  In k (map wt_term_id (getObjectTerms db objectId tax)) <->
  exists t tt tr,
    In t (terms db) /\ In tt (term_taxonomy db) /\ In tr (term_relationships db)
    /\ term_id t = tt_term_id tt /\ taxonomy tt = tax
    /\ term_taxonomy_id tt = r_term_taxonomy_id tr /\ object_id tr = objectId
    /\ k = term_id t.
Proof.
  unfold getObjectTerms. rewrite in_map_iff. split.
  - intros (x & Hk & Hx). apply in_flat_map in Hx. destruct Hx as (t & Ht & Hx).
    apply in_flat_map in Hx. destruct Hx as (tt & Htt & Hx).
    destruct ((term_id t =? tt_term_id tt) && String.eqb (taxonomy tt) tax) eqn:E1;
      [|destruct Hx].
    apply in_flat_map in Hx. destruct Hx as (tr & Htr & Hx).
    destruct ((term_taxonomy_id tt =? r_term_taxonomy_id tr)
              && (object_id tr =? objectId)) eqn:E2; [|destruct Hx].
    destruct Hx as [<-|[]]. simpl in Hk.
    apply andb_true_iff in E1. destruct E1 as [E1 E1'].
    apply andb_true_iff in E2. destruct E2 as [E2 E2'].
    apply Z.eqb_eq in E1, E2, E2'. apply String.eqb_eq in E1'.
    exists t, tt, tr. repeat split; try assumption. now symmetry.
  - intros (t & tt & tr & Ht & Htt & Htr & E1 & E1' & E2 & E2' & Hk).
    exists (mkWpTerm (term_id t) (t_name t) (t_slug t) (taxonomy tt)
              (tt_description tt) (tt_parent tt) (tt_count tt)).
    split; [now symmetry|].
    apply in_flat_map. exists t. split; [exact Ht|].
    apply in_flat_map. exists tt. split; [exact Htt|].
    rewrite E1, Z.eqb_refl, <- E1', String.eqb_refl. simpl.
    apply in_flat_map. exists tr. split; [exact Htr|].
    rewrite E2, E2', !Z.eqb_refl. simpl. now left.
Qed.

Lemma currentRelations_In (db : Db) (objectId : Z) (tax : string) (a : Z) :
  In a (map fst (currentRelations db objectId tax)) <->
  exists tr tt,
    In tr (term_relationships db) /\ In tt (term_taxonomy db)
    /\ object_id tr = objectId /\ r_term_taxonomy_id tr = term_taxonomy_id tt
    /\ taxonomy tt = tax /\ a = r_term_taxonomy_id tr.
Proof.
  unfold currentRelations. rewrite in_map_iff. split.
  - intros (x & Hk & Hx). apply in_flat_map in Hx. destruct Hx as (tr & Htr & Hx).
    destruct (object_id tr =? objectId) eqn:E0; [|destruct Hx].
    apply in_flat_map in Hx. destruct Hx as (tt & Htt & Hx).
    destruct ((r_term_taxonomy_id tr =? term_taxonomy_id tt)
              && String.eqb (taxonomy tt) tax) eqn:E1; [|destruct Hx].
    destruct Hx as [<-|[]]. simpl in Hk.
    apply andb_true_iff in E1. destruct E1 as [E1 E1'].
    apply Z.eqb_eq in E0, E1. apply String.eqb_eq in E1'.
    exists tr, tt. repeat split; try assumption. now symmetry.
  - intros (tr & tt & Htr & Htt & E0 & E1 & E1' & Hk).
    exists (r_term_taxonomy_id tr, tt_term_id tt). split; [now symmetry|].
    apply in_flat_map. exists tr. split; [exact Htr|].
    rewrite E0, Z.eqb_refl.
    apply in_flat_map. exists tt. split; [exact Htt|].
    rewrite E1, Z.eqb_refl, <- E1', String.eqb_refl. simpl. now left.
Qed.

(** What one turn of the loop leaves alone, and what it adds. *)
Lemma insert_relationship_frame (db : Db) (objectId : Z) (tax : string) (termId : Z) :
  let db' := insert_relationship db objectId tax termId in
  posts db' = posts db /\ postmeta db' = postmeta db /\ terms db' = terms db
  /\ options db' = options db /\ sticky_posts db' = sticky_posts db
  /\ users db' = users db
  /\ map tt_identity (term_taxonomy db') = map tt_identity (term_taxonomy db)
  /\ (forall tr, In tr (term_relationships db) -> In tr (term_relationships db'))
  /\ (forall tr, In tr (term_relationships db') ->
        In tr (term_relationships db)
        \/ exists row, In row (term_taxonomy db) /\ tt_term_id row = termId
                       /\ taxonomy row = tax
                       /\ tr = mkRel objectId (term_taxonomy_id row) 0)
  /\ (forall row, In row (term_taxonomy db) -> tt_term_id row = termId ->
        taxonomy row = tax ->
        exists row', In row' (term_taxonomy db) /\ tt_term_id row' = termId
                     /\ taxonomy row' = tax
                     /\ exists tr, In tr (term_relationships db')
                                   /\ object_id tr = objectId
                                   /\ r_term_taxonomy_id tr = term_taxonomy_id row')
  /\ (forall j, j <> objectId -> relationships_of db' j = relationships_of db j)
  /\ (Forall (fun tt => 0 <= tt_count tt) (term_taxonomy db) ->
      Forall (fun tt => 0 <= tt_count tt) (term_taxonomy db')).
Proof.
  unfold insert_relationship.
  destruct (find (fun tt => (tt_term_id tt =? termId) && String.eqb (taxonomy tt) tax)
              (term_taxonomy db)) as [row|] eqn:Hfind.
  - pose proof (find_some _ _ Hfind) as [Hrow Hp].
    apply andb_true_iff in Hp. destruct Hp as [Hp1 Hp2].
    apply Z.eqb_eq in Hp1. apply String.eqb_eq in Hp2.
    cbv zeta. simpl.
    repeat (split; [reflexivity|]).
    split; [apply tt_identity_map_eq; intro tt;
            destruct (term_taxonomy_id tt =? term_taxonomy_id row); reflexivity|].
    split; [|split; [|split; [|split]]].
    + intros tr Hin.
      destruct (existsb _ (term_relationships db)); [exact Hin|].
      apply in_or_app. now left.
    + intros tr Hin.
      destruct (existsb _ (term_relationships db)); [now left|].
      apply in_app_or in Hin. destruct Hin as [Hin|[<-|[]]]; [now left|].
      right. exists row. repeat split; assumption.
    + intros _ _ _ _. exists row. repeat split; try assumption.
      destruct (existsb (fun tr => (object_id tr =? objectId)
                           && (r_term_taxonomy_id tr =? term_taxonomy_id row))
                  (term_relationships db)) eqn:Hex.
      * apply existsb_exists in Hex. destruct Hex as (tr & Hin & Hb).
        apply andb_true_iff in Hb. destruct Hb as [Hb1 Hb2].
        apply Z.eqb_eq in Hb1, Hb2. exists tr. repeat split; assumption.
      * exists (mkRel objectId (term_taxonomy_id row) 0).
        split; [apply in_or_app; right; now left|]. split; reflexivity.
    + intros j Hj. unfold relationships_of. simpl.
      destruct (existsb _ (term_relationships db)); [reflexivity|].
      rewrite filter_app. simpl.
      destruct (Z.eqb_spec objectId j) as [E|_]; [now symmetry in E|].
      apply app_nil_r.
    + intro Hall. apply Forall_forall. intros tt Hin.
      apply in_map_iff in Hin. destruct Hin as (tt0 & <- & Hin0).
      rewrite Forall_forall in Hall. specialize (Hall tt0 Hin0).
      destruct (term_taxonomy_id tt0 =? term_taxonomy_id row); simpl; lia.
  - cbv zeta. repeat (split; [reflexivity|]).
    split; [tauto|]. split; [tauto|]. split; [|split; [reflexivity | tauto]].
    intros row Hrow E1 E2. exfalso.
    apply (find_none _ _ Hfind) in Hrow.
    rewrite E1, E2, Z.eqb_refl, String.eqb_refl in Hrow. discriminate.
Qed.

(** The first half of [setObjectTerms]: the relationships of the object in
    the taxonomy are deleted and their counters decremented. *)
Lemma setObjectTerms_nil_frame (db : Db) (objectId : Z) (tax : string) :
  let db' := setObjectTerms db objectId [] tax in
  posts db' = posts db /\ postmeta db' = postmeta db /\ terms db' = terms db
  /\ options db' = options db /\ sticky_posts db' = sticky_posts db
  /\ users db' = users db
  /\ map tt_identity (term_taxonomy db') = map tt_identity (term_taxonomy db)
  /\ (forall tr, In tr (term_relationships db') <->
        In tr (term_relationships db)
        /\ ~ (object_id tr = objectId
              /\ In (r_term_taxonomy_id tr) (map fst (currentRelations db objectId tax))))
  /\ (forall j, j <> objectId -> relationships_of db' j = relationships_of db j)
  /\ (Forall (fun tt => 0 <= tt_count tt) (term_taxonomy db) ->
      Forall (fun tt => 0 <= tt_count tt) (term_taxonomy db')).
Proof.
  unfold setObjectTerms. cbn [fold_left]. cbv zeta.
  destruct (map fst (currentRelations db objectId tax)) as [|c cs] eqn:Hcur.
  - repeat (split; [reflexivity|]).
    split; [|split; [reflexivity | tauto]].
    intro tr. split; [|tauto]. intro Hin. split; [exact Hin|]. intros [_ []].
  - remember (c :: cs) as cur eqn:Hc. clear Hc Hcur. simpl.
    repeat (split; [reflexivity|]).
    split; [apply tt_identity_map_eq; intro tt;
            destruct (includes cur (term_taxonomy_id tt)); reflexivity|].
    split; [|split].
    + intro tr. rewrite filter_In. split.
      * intros [Hin Hb]. split; [exact Hin|]. intros [E Hc].
        apply includes_true in Hc. rewrite E, Z.eqb_refl, Hc in Hb. discriminate.
      * intros [Hin Hn]. split; [exact Hin|].
        destruct (Z.eqb_spec (object_id tr) objectId) as [E|_]; [|reflexivity].
        destruct (includes cur (r_term_taxonomy_id tr)) eqn:Hc; [|reflexivity].
        exfalso. apply Hn. split; [exact E|]. apply includes_true. exact Hc.
    + intros j Hj. unfold relationships_of. simpl.
      induction (term_relationships db) as [|tr l IH]; [reflexivity|]. simpl.
      destruct (Z.eqb_spec (object_id tr) objectId) as [E|Hne]; simpl.
      * destruct (includes cur (r_term_taxonomy_id tr)); simpl.
        -- rewrite IH. destruct (Z.eqb_spec (object_id tr) j) as [E'|_];
             [congruence | reflexivity].
        -- now rewrite IH.
      * now rewrite IH.
    + intro Hall. apply Forall_forall. intros tt Hin.
      apply in_map_iff in Hin. destruct Hin as (tt0 & <- & Hin0).
      rewrite Forall_forall in Hall. specialize (Hall tt0 Hin0).
      destruct (includes cur (term_taxonomy_id tt0)); simpl; lia.
Qed.

Lemma setObjectTerms_loop (db : Db) (objectId : Z) (termIds : list Z) (tax : string) :
  setObjectTerms db objectId termIds tax
  = fold_left (fun d termId => insert_relationship d objectId tax termId) termIds
      (setObjectTerms db objectId [] tax).
Proof. reflexivity. Qed.

(** An invariant of the loop over [termIds]. *)
Lemma insert_relationship_fold (objectId : Z) (tax : string) (P : Db -> Prop) :
  (forall d termId, P d -> P (insert_relationship d objectId tax termId)) ->
  forall (termIds : list Z) (d : Db),
    P d -> P (fold_left (fun d termId => insert_relationship d objectId tax termId)
                termIds d).
Proof.
  intros Hstep termIds. induction termIds as [|k ks IH]; intros d Hd; [exact Hd|].
  simpl. apply IH, Hstep, Hd.
Qed.

Lemma termExists_iff (db : Db) (termId : Z) (tax : string) :
  termExists db termId tax = true <->
  exists t tt, In t (terms db) /\ In tt (term_taxonomy db)
               /\ term_id t = termId /\ term_id t = tt_term_id tt /\ taxonomy tt = tax.
Proof.
  unfold termExists. rewrite existsb_exists. split.
  - intros (t & Ht & Hb). apply andb_true_iff in Hb. destruct Hb as [E Hb].
    apply existsb_exists in Hb. destruct Hb as (tt & Htt & Hb).
    apply andb_true_iff in Hb. destruct Hb as [E1 E2].
    apply Z.eqb_eq in E, E1. apply String.eqb_eq in E2.
    exists t, tt. repeat split; assumption.
  - intros (t & tt & Ht & Htt & E & E1 & E2). exists t. split; [exact Ht|].
    rewrite E, Z.eqb_refl. simpl. apply existsb_exists. exists tt.
    split; [exact Htt|]. rewrite <- E, E1, Z.eqb_refl, E2, String.eqb_refl. reflexivity.
Qed.

Lemma NoDup_map_injective {A B : Type} (f : A -> B) (l : list A) (x y : A) :
  NoDup (map f l) -> In x l -> In y l -> f x = f y -> x = y.
Proof.
  induction l as [|a l IH]; simpl; [tauto|].
  intros Hnd Hx Hy E. inversion Hnd as [|? ? Hnotin Hnd']; subst.
  destruct Hx as [<-|Hx], Hy as [<-|Hy].
  - reflexivity.
  - exfalso. apply Hnotin. rewrite E. now apply in_map.
  - exfalso. apply Hnotin. rewrite <- E. now apply in_map.
  - now apply IH.
Qed.

Section SetObjectTerms.
Variables (db : Db) (objectId : Z) (tax : string).

Lemma terms_frame_start :
  terms_frame db objectId tax (setObjectTerms db objectId [] tax).
Proof.
  destruct (setObjectTerms_nil_frame db objectId tax)
    as (H1 & H2 & H3 & H4 & H5 & H6 & H7 & H8 & H9 & H10).
  unfold terms_frame. repeat (split; [assumption|]).
  split; [|exact H10].
  intros tr Hin Hother. apply H8. split; [exact Hin|]. intros [_ Hc].
  apply currentRelations_In in Hc.
  destruct Hc as (tr' & tt & _ & Htt & _ & E1 & E2 & E3).
  apply (Hother tt Htt); [congruence | exact E2].
Qed.

Lemma terms_frame_step (d : Db) (termId : Z) :
  terms_frame db objectId tax d ->
  terms_frame db objectId tax (insert_relationship d objectId tax termId).
Proof.
  intros (H1 & H2 & H3 & H4 & H5 & H6 & H7 & H8 & H9 & H10).
  destruct (insert_relationship_frame d objectId tax termId)
    as (I1 & I2 & I3 & I4 & I5 & I6 & I7 & I8 & _ & _ & I11 & I12).
  unfold terms_frame.
  repeat (split; [congruence|]).
  split; [|split].
  - intros j Hj. rewrite I11 by exact Hj. now apply H8.
  - intros tr Hin Hother. apply I8. now apply H9.
  - intro Hall. apply I12. now apply H10.
Qed.

Lemma setObjectTerms_terms_frame (termIds : list Z) :
  terms_frame db objectId tax (setObjectTerms db objectId termIds tax).
Proof.
  rewrite setObjectTerms_loop.
  apply (insert_relationship_fold objectId tax (terms_frame db objectId tax)
           terms_frame_step).
  apply terms_frame_start.
Qed.

Lemma from_termIds_start (termIds : list Z) :
  from_termIds db objectId tax termIds (setObjectTerms db objectId [] tax).
Proof.
  destruct (setObjectTerms_nil_frame db objectId tax)
    as (_ & _ & H3 & _ & _ & _ & H7 & H8 & _).
  split; [exact H3|]. split; [exact H7|].
  intros tr Hin Hobj tt Htt E1 E2. exfalso.
  apply H8 in Hin. destruct Hin as [Hin Hn]. apply Hn. split; [exact Hobj|].
  apply currentRelations_In. exists tr, tt. repeat split; try assumption.
  now symmetry.
Qed.

Lemma from_termIds_step (termIds : list Z) (d : Db) (termId : Z) :
  In termId termIds ->
  from_termIds db objectId tax termIds d ->
  from_termIds db objectId tax termIds (insert_relationship d objectId tax termId).
Proof.
  intros Hk (H1 & H2 & H3).
  destruct (insert_relationship_frame d objectId tax termId)
    as (_ & _ & I3 & _ & _ & _ & I7 & _ & I9 & _).
  split; [congruence|]. split; [congruence|].
  intros tr Hin Hobj tt Htt E1 E2.
  apply I9 in Hin. destruct Hin as [Hin | (row & Hrow & R1 & R2 & ->)].
  - now apply (H3 tr Hin Hobj tt).
  - destruct (tt_identity_In _ _ row H2 Hrow) as (row0 & Hrow0 & Hid).
    apply tt_identity_fields in Hid. destruct Hid as (Ha & Hb & Hc).
    exists row0. split; [exact Hrow0|]. split; [congruence|].
    split; [congruence|]. simpl. exact Ha.
Qed.

Lemma from_termIds_fold (termIds : list Z) :
  forall (rest : list Z) (d : Db),
    (forall k, In k rest -> In k termIds) ->
    from_termIds db objectId tax termIds d ->
    from_termIds db objectId tax termIds
      (fold_left (fun d termId => insert_relationship d objectId tax termId) rest d).
Proof.
  induction rest as [|k ks IH]; intros d Hsub Hd; [exact Hd|].
  simpl. apply IH.
  - intros k' Hk'. apply Hsub. now right.
  - apply from_termIds_step; [apply Hsub; now left | exact Hd].
Qed.

Lemma related_to_step (termId k : Z) (d : Db) :
  related_to db objectId tax termId d ->
  related_to db objectId tax termId (insert_relationship d objectId tax k).
Proof.
  intros (row & tr & H1 & H2 & H3 & H4 & H5 & H6).
  destruct (insert_relationship_frame d objectId tax k)
    as (_ & _ & _ & _ & _ & _ & _ & I8 & _).
  exists row, tr. repeat split; try assumption. now apply I8.
Qed.

Lemma related_to_fold (termId : Z) :
  forall (rest : list Z) (d : Db),
    map tt_identity (term_taxonomy d) = map tt_identity (term_taxonomy db) ->
    In termId rest ->
    (exists row, In row (term_taxonomy db) /\ tt_term_id row = termId
                 /\ taxonomy row = tax) ->
    related_to db objectId tax termId
      (fold_left (fun d termId => insert_relationship d objectId tax termId) rest d).
Proof.
  induction rest as [|k ks IH]; intros d Hid Hin Hrow; [destruct Hin|].
  simpl.
  destruct (insert_relationship_frame d objectId tax k)
    as (_ & _ & _ & _ & _ & _ & I7 & _ & _ & I10 & _).
  destruct Hin as [->|Hin].
  - apply (insert_relationship_fold objectId tax (related_to db objectId tax termId)
             (fun d0 k0 => related_to_step termId k0 d0)).
    destruct Hrow as (row & Hrow & R1 & R2).
    destruct (tt_identity_In _ _ row (eq_sym Hid) Hrow) as (rowd & Hrowd & Hidd).
    apply tt_identity_fields in Hidd. destruct Hidd as (Ha & Hb & Hc).
    assert (Rd1 : tt_term_id rowd = termId) by congruence.
    assert (Rd2 : taxonomy rowd = tax) by congruence.
    destruct (I10 rowd Hrowd Rd1 Rd2)
      as (row' & Hrow' & R1' & R2' & tr & Htr & T1 & T2).
    destruct (tt_identity_In _ _ row' Hid Hrow') as (row0 & Hrow0 & Hid0).
    apply tt_identity_fields in Hid0. destruct Hid0 as (Ha0 & Hb0 & Hc0).
    exists row0, tr. repeat split; try assumption; congruence.
  - apply IH; [congruence | exact Hin | exact Hrow].
Qed.

End SetObjectTerms.

Lemma setObjectTerms_nil_clears (db : Db) (objectId : Z) (tax : string) :
  getObjectTerms (setObjectTerms db objectId [] tax) objectId tax = [].
Proof.
  destruct (getObjectTerms (setObjectTerms db objectId [] tax) objectId tax)
    as [|x l] eqn:E; [reflexivity|]. exfalso.
  assert (Hin : In (wt_term_id x)
                  (map wt_term_id
                     (getObjectTerms (setObjectTerms db objectId [] tax) objectId tax))).
  { rewrite E. now left. }
  apply getObjectTerms_In in Hin.
  destruct Hin as (t & tt & tr & _ & Htt & Htr & _ & E2 & E3 & E4 & _).
  destruct (setObjectTerms_nil_frame db objectId tax)
    as (_ & _ & _ & _ & _ & _ & H7 & H8 & _).
  apply H8 in Htr. destruct Htr as [Htr Hn]. apply Hn. split; [exact E4|].
  destruct (tt_identity_In _ _ tt H7 Htt) as (tt0 & Htt0 & Hid).
  apply tt_identity_fields in Hid. destruct Hid as (Ha & _ & Hc).
  apply currentRelations_In. exists tr, tt0. repeat split; try assumption; congruence.
Qed.

Lemma getObjectTerms_elem (db : Db) (objectId : Z) (tax : string) (x : WpTerm) :
  In x (getObjectTerms db objectId tax) ->
  exists t, In t (terms db) /\ wt_term_id x = term_id t /\ wt_slug x = t_slug t.
Proof.
  unfold getObjectTerms. intro Hx.
  apply in_flat_map in Hx. destruct Hx as (t & Ht & Hx).
  apply in_flat_map in Hx. destruct Hx as (tt & Htt & Hx).
  destruct ((term_id t =? tt_term_id tt) && String.eqb (taxonomy tt) tax);
    [|destruct Hx].
  apply in_flat_map in Hx. destruct Hx as (tr & Htr & Hx).
  destruct ((term_taxonomy_id tt =? r_term_taxonomy_id tr)
            && (object_id tr =? objectId)); [|destruct Hx].
  destruct Hx as [<-|[]]. exists t. repeat split. exact Ht.
Qed.

Lemma setObjectTerms_read_back (db : Db) (objectId : Z) (termIds : list Z)
    (tax : string) (k : Z) :
  (NoDup (map term_taxonomy_id (term_taxonomy db)) ->
   In k (map wt_term_id
           (getObjectTerms (setObjectTerms db objectId termIds tax) objectId tax)) ->
   In k termIds /\ termExists db k tax = true)
  /\ (In k termIds -> termExists db k tax = true ->
      In k (map wt_term_id
              (getObjectTerms (setObjectTerms db objectId termIds tax) objectId tax))).
Proof.
  split.
  - intros Hnd Hin.
    assert (Hinv : from_termIds db objectId tax termIds
                     (setObjectTerms db objectId termIds tax)).
    { rewrite setObjectTerms_loop. apply from_termIds_fold; [tauto|].
      apply from_termIds_start. }
    destruct Hinv as (H1 & H2 & H3).
    apply getObjectTerms_In in Hin.
    destruct Hin as (t & tt & tr & Ht & Htt & Htr & E1 & E2 & E3 & E4 & ->).
    destruct (tt_identity_In _ _ tt H2 Htt) as (tt0 & Htt0 & Hid).
    apply tt_identity_fields in Hid. destruct Hid as (Ha & Hb & Hc).
    assert (F1 : term_taxonomy_id tt0 = r_term_taxonomy_id tr) by congruence.
    assert (F2 : taxonomy tt0 = tax) by congruence.
    destruct (H3 tr Htr E4 tt0 Htt0 F1 F2) as (row & Hrow & R1 & R2 & R3).
    assert (row = tt0).
    { apply (NoDup_map_injective term_taxonomy_id (term_taxonomy db));
        try assumption. congruence. }
    subst row. split; [congruence|].
    apply termExists_iff. exists t, tt0. rewrite <- H1.
    repeat split; try assumption; congruence.
  - intros Hin Hex. apply termExists_iff in Hex.
    destruct Hex as (t & tt & Ht & Htt & E & E1 & E2).
    destruct (setObjectTerms_terms_frame db objectId tax termIds)
      as (_ & _ & G3 & _ & _ & _ & G7 & _).
    destruct (setObjectTerms_nil_frame db objectId tax)
      as (_ & _ & _ & _ & _ & _ & H7 & _).
    assert (Hrel : related_to db objectId tax k
                     (setObjectTerms db objectId termIds tax)).
    { rewrite setObjectTerms_loop. apply related_to_fold; [exact H7 | exact Hin |].
      exists tt. repeat split; [exact Htt | congruence | exact E2]. }
    destruct Hrel as (row & tr & R1 & R2 & R3 & R4 & R5 & R6).
    destruct (tt_identity_In _ _ row (eq_sym G7) R1) as (row' & Hrow' & Hid).
    apply tt_identity_fields in Hid. destruct Hid as (Ha & Hb & Hc).
    apply getObjectTerms_In. exists t, row', tr. rewrite G3.
    repeat split; try assumption; congruence.
Qed.

Lemma getPostFormatTermId_some (db : Db) (f : string) (k : Z) :
  getPostFormatTermId db f = Some k ->
  termExists db k "post_format" = true
  /\ exists t, In t (terms db) /\ term_id t = k
               /\ t_slug t = ("post-format-" ++ f)%string.
Proof.
  unfold getPostFormatTermId. intro E.
  destruct (find _ (terms db)) as [t|] eqn:Hfind; [|discriminate].
  simpl in E. injection E as <-.
  apply find_some in Hfind. destruct Hfind as [Ht Hb].
  apply andb_true_iff in Hb. destruct Hb as [Hs Hex].
  apply String.eqb_eq in Hs. split.
  - unfold termExists. apply existsb_exists. exists t. split; [exact Ht|].
    rewrite Z.eqb_refl. exact Hex.
  - exists t. repeat split; assumption.
Qed.

(** X17: What [setObjectTerms] leaves alone: posts, post meta, terms,
    options, the sticky registry and users are untouched; a row of
    [term_taxonomy] changes in its counter only (no row is added, removed or
    moved); the relationships of every other object are as they were; a
    relationship of the same object to a term of another taxonomy is kept; and
    counters that were non-negative stay non-negative. *)
Theorem X17_setObjectTerms_touches_one_object_and_taxonomy (db : Db) (objectId : Z)
    (termIds : list Z) (tax : string) :
  let db' := setObjectTerms db objectId termIds tax in
  posts db' = posts db /\ postmeta db' = postmeta db /\ terms db' = terms db
  /\ options db' = options db /\ sticky_posts db' = sticky_posts db
  /\ users db' = users db
  /\ map tt_identity (term_taxonomy db') = map tt_identity (term_taxonomy db)
  /\ (forall j, j <> objectId -> relationships_of db' j = relationships_of db j)
  /\ (forall tr, In tr (term_relationships db) ->
        (forall tt, In tt (term_taxonomy db) ->
           term_taxonomy_id tt = r_term_taxonomy_id tr -> taxonomy tt <> tax) ->
        In tr (term_relationships db'))
  /\ (Forall (fun tt => 0 <= tt_count tt) (term_taxonomy db) ->
      Forall (fun tt => 0 <= tt_count tt) (term_taxonomy db')).
Proof. exact (setObjectTerms_terms_frame db objectId tax termIds). Qed.

(** Post 42 is moved to the category News: post 43 keeps its category and
    the counters stay non-negative. *)
Lemma X17_setObjectTerms_touches_one_object_and_taxonomy_witness :
  let db' := setObjectTerms Site.db0 42 [2] "category" in
  relationships_of db' 43 = relationships_of Site.db0 43
  /\ Forall (fun tt => 0 <= tt_count tt) (term_taxonomy db')
  /\ map tt_count (term_taxonomy db') = [1; 1; 0].
Proof.
  destruct (X17_setObjectTerms_touches_one_object_and_taxonomy Site.db0 42 [2]
              "category") as (_ & _ & _ & _ & _ & _ & _ & H8 & _ & H10).
  split; [apply H8; lia|]. split; [|reflexivity].
  apply H10. repeat constructor; simpl; lia.
Defined.

(** X18: [setObjectTerms] followed by [getObjectTerms] gives the terms that
    were asked for and exist in the taxonomy, and no other: where
    [term_taxonomy_id] is a key of [term_taxonomy], a term id is among the
    terms of the object in the taxonomy exactly if it is in [termIds] and
    [termExists] holds of it; ids of no term of the taxonomy are skipped. *)
Theorem X18_setObjectTerms_then_getObjectTerms (db : Db) (objectId : Z)
    (termIds : list Z) (tax : string) (k : Z) :
  NoDup (map term_taxonomy_id (term_taxonomy db)) ->
  In k (map wt_term_id
          (getObjectTerms (setObjectTerms db objectId termIds tax) objectId tax))
  <-> In k termIds /\ termExists db k tax = true.
Proof.
  intro Hnd.
  destruct (setObjectTerms_read_back db objectId termIds tax k) as [H1 H2].
  split; [now apply H1 | intros [Ha Hb]; now apply H2].
Qed.

(** Post 42 is given the categories 2 and 7, of which 7 does not exist. *)
Lemma X18_setObjectTerms_then_getObjectTerms_witness :
  NoDup (map term_taxonomy_id (term_taxonomy Site.db0))
  /\ map wt_term_id
       (getObjectTerms (setObjectTerms Site.db0 42 [2; 7] "category") 42 "category")
     = [2]
  /\ (In 7 (map wt_term_id
             (getObjectTerms (setObjectTerms Site.db0 42 [2; 7] "category") 42
                "category"))
      <-> In 7 [2; 7] /\ termExists Site.db0 7 "category" = true).
Proof.
  assert (Hnd : NoDup (map term_taxonomy_id (term_taxonomy Site.db0))).
  { repeat constructor; simpl; lia. }
  split; [exact Hnd|]. split; [reflexivity|].
  apply (X18_setObjectTerms_then_getObjectTerms Site.db0 42 [2; 7] "category" 7 Hnd).
Defined.

(** X19: The post format reads back what was set: after
    [handlePostFormat] with "standard" or the empty string [getPostFormat]
    answers "standard"; with a format whose term [post-format-<format>] exists
    (term ids and [term_taxonomy_id] being keys of their tables) it answers
    that format; a format without a term leaves the store as it was. *)
Theorem X19_post_format_reads_back (db : Db) (postId : Z) (format : string) :
  getPostFormat (handlePostFormat db postId "standard") postId = "standard"
  /\ getPostFormat (handlePostFormat db postId EmptyString) postId = "standard"
  /\ (NoDup (map term_id (terms db)) ->
      NoDup (map term_taxonomy_id (term_taxonomy db)) ->
      format <> "standard" -> format <> EmptyString ->
      forall k, getPostFormatTermId db format = Some k -> k <> 0 ->
        getPostFormat (handlePostFormat db postId format) postId = format)
  /\ (format <> "standard" -> format <> EmptyString ->
      getPostFormatTermId db format = None ->
      handlePostFormat db postId format = db).
Proof.
  split; [|split; [|split]].
  - unfold handlePostFormat, getPostFormat. simpl.
    now rewrite setObjectTerms_nil_clears.
  - unfold handlePostFormat, getPostFormat. simpl.
    now rewrite setObjectTerms_nil_clears.
  - intros Hterms Htt Hstd Hempty k Hk Hk0.
    unfold handlePostFormat, getPostFormat.
    destruct (String.eqb_spec format "standard") as [|_]; [contradiction|].
    destruct (String.eqb_spec format EmptyString) as [|_]; [contradiction|].
    cbn [orb]. rewrite Hk.
    destruct (Z.eqb_spec k 0) as [|_]; [contradiction|]. cbn [negb].
    apply getPostFormatTermId_some in Hk.
    destruct Hk as (Hex & t0 & Ht0 & Hid0 & Hslug0).
    destruct (setObjectTerms_read_back db postId [k] "post_format" k) as [_ Hback].
    destruct (getObjectTerms (setObjectTerms db postId [k] "post_format") postId
                "post_format") as [|x l] eqn:E.
    + exfalso. apply Hback; [now left | exact Hex].
    + assert (Hx : In x (getObjectTerms (setObjectTerms db postId [k] "post_format")
                           postId "post_format")) by (rewrite E; now left).
      apply getObjectTerms_elem in Hx. destruct Hx as (t & Ht & Hxid & Hxslug).
      destruct (setObjectTerms_terms_frame db postId "post_format" [k])
        as (_ & _ & G3 & _).
      rewrite G3 in Ht.
      destruct (setObjectTerms_read_back db postId [k] "post_format" (wt_term_id x))
        as [Hfwd _].
      destruct (Hfwd Htt) as [[Hkx|[]] _]; [rewrite E; now left|].
      assert (t = t0).
      { apply (NoDup_map_injective term_id (terms db)); try assumption. congruence. }
      subst t. rewrite Hxslug, Hslug0. reflexivity.
  - intros Hstd Hempty Hnone. unfold handlePostFormat.
    destruct (String.eqb_spec format "standard") as [|_]; [contradiction|].
    destruct (String.eqb_spec format EmptyString) as [|_]; [contradiction|].
    cbn [orb]. now rewrite Hnone.
Qed.

(** Post 42 is given the format aside and post 43 the format gallery, which
    has no term at the reference site. *)
Lemma X19_post_format_reads_back_witness :
  getPostFormat (handlePostFormat Site.db0 42 "aside") 42 = "aside"
  /\ getPostFormat (handlePostFormat (handlePostFormat Site.db0 42 "aside") 42
                      "standard") 42 = "standard"
  /\ handlePostFormat Site.db0 43 "gallery" = Site.db0.
Proof.
  split; [|split].
  - destruct (X19_post_format_reads_back Site.db0 42 "aside") as (_ & _ & H & _).
    apply (H ltac:(repeat constructor; simpl; lia)
             ltac:(repeat constructor; simpl; lia)
             ltac:(discriminate) ltac:(discriminate) 3 eq_refl ltac:(lia)).
  - apply (X19_post_format_reads_back (handlePostFormat Site.db0 42 "aside") 42
             EmptyString).
  - destruct (X19_post_format_reads_back Site.db0 43 "gallery") as (_ & _ & _ & H).
    apply H; [discriminate | discriminate | reflexivity].
Defined.

(** ** The meta entries of a patch *)

Lemma deletePostMeta_distinct (db : Db) (postId : Z) (metaKey : string) :
  meta_ids_distinct db -> meta_ids_distinct (deletePostMeta db postId metaKey).
Proof.
  unfold meta_ids_distinct, deletePostMeta. simpl.
  induction (postmeta db) as [|x l IH]; simpl; [trivial|].
  intro Hnd. inversion Hnd as [|? ? Hx Hl]; subst.
  destruct (negb (meta_matches postId metaKey x)); simpl; [|now apply IH].
  constructor; [|now apply IH].
  intro Hin. apply Hx. apply in_map_iff in Hin. destruct Hin as (y & Hy & Hin).
  apply filter_In in Hin. apply in_map_iff. exists y. tauto.
Qed.

Section HandleMeta.
Context {rt : Runtime}.

Lemma handleMeta_cons (db : Db) (postId : Z) (k : string) (v : json)
    (entries : list (string * json)) :
  handleMeta db postId ((k, v) :: entries)
  = handleMeta (match v with
                | JNull => db
                | _ => updatePostMeta db postId k (js_String v)
                end) postId entries.
Proof. unfold handleMeta. simpl. destruct v; reflexivity. Qed.

Lemma handleMeta_spec (entries : list (string * json)) :
  forall (db : Db) (postId : Z),
    meta_ids_distinct db -> NoDup (map fst entries) ->
    let db' := handleMeta db postId entries in
    meta_ids_distinct db'
    /\ (forall k v, In (k, v) entries -> v <> JNull ->
                    getPostMeta db' postId k = Some (js_String v))
    /\ (forall j k, j <> postId \/ ~ In k (map fst entries)
                               \/ In (k, JNull) entries ->
                    getPostMeta db' j k = getPostMeta db j k).
Proof.
  induction entries as [|[k0 v0] entries IH]; intros db postId Hd Hnd.
  - simpl. split; [exact Hd|]. split; [intros k v []|reflexivity].
  - cbv zeta. rewrite handleMeta_cons.
    set (d1 := match v0 with
               | JNull => db
               | _ => updatePostMeta db postId k0 (js_String v0)
               end).
    simpl in Hnd. inversion Hnd as [|? ? Hk0 Hnd']; subst.
    assert (Hd1 : meta_ids_distinct d1).
    { subst d1. destruct v0; try exact Hd;
        apply (proj2 (updatePostMeta_spec db postId k0 _)); exact Hd. }
    assert (Hsame : v0 <> JNull ->
                    getPostMeta d1 postId k0 = Some (js_String v0)).
    { intro Hv. subst d1. destruct v0; try contradiction;
        apply (proj1 (updatePostMeta_spec db postId k0 _)). }
    assert (Hother : forall j k, j <> postId \/ k <> k0 \/ v0 = JNull ->
                                 getPostMeta d1 j k = getPostMeta db j k).
    { intros j k Hne. subst d1. destruct v0; try reflexivity;
        apply (proj2 (updatePostMeta_spec db postId k0 _)); try exact Hd;
        destruct Hne as [Hne|[Hne|Hne]]; try discriminate; tauto. }
    destruct (IH d1 postId Hd1 Hnd') as (I1 & I2 & I3).
    split; [exact I1|]. split.
    + intros k v [E|Hin] Hv.
      * injection E as -> ->. rewrite I3 by tauto. now apply Hsame.
      * now apply I2.
    + intros j k Hne. simpl in Hne.
      destruct Hne as [Hne|[Hne|[E|Hin]]].
      * rewrite I3 by tauto. apply Hother. tauto.
      * rewrite I3 by tauto. apply Hother. right. left. intro E. apply Hne. now left.
      * injection E as -> ->. rewrite I3 by tauto. apply Hother. tauto.
      * rewrite I3 by tauto. apply Hother. right. left. intros ->.
        apply Hk0. apply in_map_iff. exists (k0, JNull). now split.
Qed.

(** X20: The meta entries of a patch, as read back: with distinct row
    keys in the store and distinct keys in the object, every entry whose value
    is not [null] is stored for the post under its key as [String(value)],
    whatever the key is, keys with a leading underscore included; an entry
    whose value is [null] deletes nothing: its key reads what it read before;
    and every key that is not in the object, and every other post, reads what
    it read before. *)
Theorem X20_meta_entries_are_read_back (db : Db) (postId : Z)
    (entries : list (string * json)) :
  meta_ids_distinct db -> NoDup (map fst entries) ->
  let db' := handleMeta db postId entries in
  meta_ids_distinct db'
  /\ (forall k v, In (k, v) entries -> v <> JNull ->
                  getPostMeta db' postId k = Some (js_String v))
  /\ (forall k, In (k, JNull) entries ->
                getPostMeta db' postId k = getPostMeta db postId k)
  /\ (forall j k, j <> postId \/ ~ In k (map fst entries) ->
                  getPostMeta db' j k = getPostMeta db j k).
Proof.
  intros Hd Hnd. destruct (handleMeta_spec entries db postId Hd Hnd) as (H1 & H2 & H3).
  split; [exact H1|]. split; [exact H2|]. split.
  - intros k Hin. apply H3. tauto.
  - intros j k Hne. apply H3. tauto.
Qed.

End HandleMeta.

(** Post 42 is given a mood, a thumbnail through the meta object and a
    [null] entry. *)
Lemma X20_meta_entries_are_read_back_witness :
  let entries := [("mood", JStr "calm"); ("_thumbnail_id", JStr "50");
                  ("_wp_page_template", JNull)] in
  let db' := handleMeta Site.db0 42 entries in
  getPostMeta db' 42 "mood" = Some "calm"
  /\ getPostMeta db' 42 "_thumbnail_id" = Some "50"
  /\ getPostMeta db' 42 "_wp_page_template" = getPostMeta Site.db0 42 "_wp_page_template"
  /\ getPostMeta db' 43 "_thumbnail_id" = getPostMeta Site.db0 43 "_thumbnail_id".
Proof.
  intros entries db'.
  assert (Hd : meta_ids_distinct Site.db0).
  { unfold meta_ids_distinct. repeat constructor; simpl; lia. }
  assert (Hnd : NoDup (map fst entries)).
  { repeat constructor; simpl; intuition discriminate. }
  destruct (X20_meta_entries_are_read_back Site.db0 42 entries Hd Hnd)
    as (_ & H2 & H3 & H4).
  split; [|split; [|split]].
  - apply (H2 "mood" (JStr "calm")); [simpl; tauto | discriminate].
  - apply (H2 "_thumbnail_id" (JStr "50")); [simpl; tauto | discriminate].
  - apply H3. simpl. tauto.
  - apply H4. left. lia.
Defined.

(** ** Side effects, as the response reports them *)

Lemma includes_after (reg : list Z) (postId : Z) (sticky : bool) :
  let reg' := if sticky then
                if includes reg postId then reg
                else reg ++ (if 0 <? postId then [postId] else [])
              else
                if includes reg postId then remove_first postId reg else reg in
  (sticky = true -> 0 < postId -> includes reg' postId = true)
  /\ (sticky = false -> NoDup reg -> includes reg' postId = false)
  /\ (forall j, j <> postId -> includes reg' j = includes reg j).
Proof.
  cbv zeta. split; [|split].
  - intros -> Hpos. destruct (includes reg postId) eqn:Hin; [exact Hin|].
    apply Z.ltb_lt in Hpos. rewrite Hpos.
    apply includes_true, in_or_app. right. now left.
  - intros -> Hnd. destruct (includes reg postId) eqn:Hin; [|exact Hin].
    apply includes_false. now apply remove_first_not_In.
  - intros j Hne. destruct sticky, (includes reg postId); try reflexivity.
    + unfold includes. rewrite existsb_app.
      destruct (0 <? postId); simpl; [|now rewrite orb_false_r].
      destruct (Z.eqb_spec j postId); [contradiction|]. now rewrite !orb_false_r.
    + now apply includes_remove_first_other.
Qed.

Lemma getStickyPosts_field (d d' : Db) :
  sticky_posts d = sticky_posts d' -> getStickyPosts d = getStickyPosts d'.
Proof. unfold getStickyPosts. now intros ->. Qed.

Lemma getPostMeta_field (d d' : Db) (j : Z) (k : string) :
  postmeta d = postmeta d' -> getPostMeta d j k = getPostMeta d' j k.
Proof. unfold getPostMeta. now intros ->. Qed.

Lemma meta_ids_distinct_field (d d' : Db) :
  postmeta d = postmeta d' -> meta_ids_distinct d' -> meta_ids_distinct d.
Proof. unfold meta_ids_distinct. now intros ->. Qed.

Lemma updatePostMeta_sticky (d : Db) (i : Z) (k v : string) :
  sticky_posts (updatePostMeta d i k v) = sticky_posts d.
Proof. unfold updatePostMeta. destruct (find _ _); reflexivity. Qed.

Lemma handleStickyStatus_postmeta (d : Db) (i : Z) (s : bool) :
  postmeta (handleStickyStatus d i s) = postmeta d.
Proof.
  unfold handleStickyStatus.
  destruct s, (includes (getStickyPosts d) i); reflexivity.
Qed.

Lemma handlePostFormat_fields (d : Db) (i : Z) (f : string) :
  postmeta (handlePostFormat d i f) = postmeta d
  /\ sticky_posts (handlePostFormat d i f) = sticky_posts d.
Proof.
  unfold handlePostFormat.
  destruct (String.eqb f "standard" || String.eqb f EmptyString).
  - destruct (setObjectTerms_terms_frame d i "post_format" [])
      as (_ & H2 & _ & _ & H5 & _). now split.
  - destruct (getPostFormatTermId d f) as [k|]; [|now split].
    destruct (negb (k =? 0)); [|now split].
    destruct (setObjectTerms_terms_frame d i "post_format" [k])
      as (_ & H2 & _ & _ & H5 & _). now split.
Qed.

Lemma handleTerms_fields (d : Db) (i : Z) (body : PostUpdateInput) :
  postmeta (handleTerms d i body) = postmeta d
  /\ sticky_posts (handleTerms d i body) = sticky_posts d.
Proof.
  unfold handleTerms.
  set (d1 := match categories body with
             | Some cs => setObjectTerms d i cs "category"
             | None => d
             end).
  assert (H1 : postmeta d1 = postmeta d /\ sticky_posts d1 = sticky_posts d).
  { subst d1. destruct (categories body) as [cs|]; [|now split].
    destruct (setObjectTerms_terms_frame d i "category" cs)
      as (_ & H2 & _ & _ & H5 & _). now split. }
  destruct (tags body) as [ts|]; [|exact H1].
  destruct (setObjectTerms_terms_frame d1 i "post_tag" ts)
    as (_ & H2 & _ & _ & H5 & _).
  destruct H1 as [Ha Hb]. split; congruence.
Qed.

Section SideEffects.
Context {rt : Runtime}.

Lemma handleMeta_sticky (entries : list (string * json)) :
  forall (d : Db) (i : Z), sticky_posts (handleMeta d i entries) = sticky_posts d.
Proof.
  induction entries as [|[k v] entries IH]; intros d i; [reflexivity|].
  rewrite handleMeta_cons, IH. destruct v; try reflexivity; apply updatePostMeta_sticky.
Qed.

(** The registry and the internal meta keys after the side effects. *)
Lemma sideEffects_reads (db1 db7 : Db) (postId : Z) (body : PostUpdateInput) :
  sideEffects db1 postId body = (inl tt, db7) ->
  getStickyPosts db7
  = getStickyPosts (match sticky body with
                    | Some s => handleStickyStatus db1 postId s
                    | None => db1
                    end)
  /\ (meta_ids_distinct db1 ->
      (forall es, meta body = Some es ->
                  NoDup (map fst es) /\ ~ In "_thumbnail_id" (map fst es)) ->
      forall fm, featured_media body = Some fm ->
        getPostMeta db7 postId "_thumbnail_id"
        = if 0 <? fm then Some (Z_to_string fm) else None)
  /\ (meta_ids_distinct db1 ->
      (forall es, meta body = Some es ->
                  NoDup (map fst es) /\ ~ In "_wp_page_template" (map fst es)) ->
      forall t, template body = Some t ->
        getPostMeta db7 postId "_wp_page_template" = Some t).
Proof.
  unfold sideEffects.
  set (db2 := match format body with Some f => _ | None => _ end).
  assert (F2 : postmeta db2 = postmeta db1 /\ sticky_posts db2 = sticky_posts db1).
  { subst db2. destruct (format body); [apply handlePostFormat_fields | now split]. }
  destruct F2 as [M2 S2].
  set (media := match featured_media body with Some fm => _ | None => _ end).
  assert (F3 : forall u db3, media = (inl u, db3) ->
            sticky_posts db3 = sticky_posts db1
            /\ (meta_ids_distinct db1 -> meta_ids_distinct db3)
            /\ (forall fm, featured_media body = Some fm ->
                  getPostMeta db3 postId "_thumbnail_id"
                  = if 0 <? fm then Some (Z_to_string fm) else None)).
  { intros u db3 E. subst media. destruct (featured_media body) as [fm|].
    - unfold handleFeaturedMedia in E. destruct (0 <? fm) eqn:Hfm.
      + destruct (negb (isValidAttachment db2 fm)); [discriminate|].
        injection E as _ <-. split; [now rewrite updatePostMeta_sticky|]. split.
        * intro Hd. apply (proj2 (updatePostMeta_spec db2 postId _ _)).
          now apply (meta_ids_distinct_field db2 db1).
        * intros fm' Efm. injection Efm as <-. rewrite Hfm.
          apply (proj1 (updatePostMeta_spec db2 postId _ _)).
      + injection E as _ <-. split; [exact S2|]. split.
        * intro Hd. apply deletePostMeta_distinct.
          now apply (meta_ids_distinct_field db2 db1).
        * intros fm' Efm. injection Efm as <-. rewrite Hfm.
          apply (proj1 (deletePostMeta_spec db2 postId _)).
    - injection E as _ <-. split; [exact S2|]. split.
      + intro Hd. now apply (meta_ids_distinct_field db2 db1).
      + intros fm' Efm. discriminate. }
  destruct media as [[u|e] db3]; [|discriminate].
  destruct (F3 u db3 eq_refl) as (S3 & D3 & T3). clear F3.
  set (db4 := match sticky body with Some s => _ | None => _ end).
  assert (M4 : postmeta db4 = postmeta db3).
  { subst db4. destruct (sticky body); [apply handleStickyStatus_postmeta | reflexivity]. }
  assert (S4 : getStickyPosts db4
               = getStickyPosts (match sticky body with
                                 | Some s => handleStickyStatus db1 postId s
                                 | None => db1
                                 end)).
  { subst db4. destruct (sticky body) as [s|]; [|now apply getStickyPosts_field].
    rewrite !getStickyPosts_after. now rewrite (getStickyPosts_field db3 db1 S3). }
  set (db5 := match template body with Some t => _ | None => _ end).
  assert (S5 : sticky_posts db5 = sticky_posts db4).
  { subst db5. destruct (template body); [apply updatePostMeta_sticky | reflexivity]. }
  set (db6 := handleTerms db5 postId body).
  destruct (handleTerms_fields db5 postId body) as [M6 S6]. fold db6 in M6, S6.
  set (db7' := match meta body with Some entries => _ | None => _ end).
  assert (S7 : sticky_posts db7' = sticky_posts db6).
  { subst db7'. destruct (meta body); [apply handleMeta_sticky | reflexivity]. }
  intro E. injection E as <-.
  assert (D4 : meta_ids_distinct db1 -> meta_ids_distinct db4).
  { intro Hd. apply (meta_ids_distinct_field db4 db3 M4). now apply D3. }
  assert (D5 : meta_ids_distinct db1 -> meta_ids_distinct db5).
  { intro Hd. subst db5. destruct (template body); [|now apply D4].
    apply (proj2 (updatePostMeta_spec db4 postId _ _)). now apply D4. }
  assert (R7 : meta_ids_distinct db1 ->
               forall k, (forall es, meta body = Some es ->
                            NoDup (map fst es) /\ ~ In k (map fst es)) ->
                         getPostMeta db7' postId k = getPostMeta db5 postId k).
  { intros Hd k Hk. rewrite <- (getPostMeta_field db6 db5 postId k M6).
    subst db7'. destruct (meta body) as [es|]; [|reflexivity].
    destruct (Hk es eq_refl) as [Hnd Hnot].
    apply (handleMeta_spec es db6 postId); [|exact Hnd | tauto].
    apply (meta_ids_distinct_field db6 db5 M6). now apply D5. }
  split; [|split].
  - rewrite (getStickyPosts_field db7' db6 S7), (getStickyPosts_field db6 db5 S6),
      (getStickyPosts_field db5 db4 S5). exact S4.
  - intros Hd Hmeta fm Efm. rewrite (R7 Hd _ Hmeta).
    rewrite <- (T3 fm Efm), <- (getPostMeta_field db4 db3 postId _ M4).
    subst db5. destruct (template body) as [t|]; [|reflexivity].
    apply (proj2 (updatePostMeta_spec db4 postId _ _)); [now apply D4|].
    right. discriminate.
  - intros Hd Hmeta t Et. rewrite (R7 Hd _ Hmeta).
    subst db5. rewrite Et. apply (proj1 (updatePostMeta_spec db4 postId _ _)).
Qed.

End SideEffects.

Section ResponseSideEffects.
Context {rt : Runtime}.

Lemma persistAndRespond_sideEffects (db db' : Db) (postId : Z) (body : PostUpdateInput)
    (existingPost : WpPostRow) (data0 : WpPostUpdateData) (r : WpPostResponse) :
  persistAndRespond db postId body existingPost data0 = (inl r, db') ->
  exists db1,
    postmeta db1 = postmeta db /\ sticky_posts db1 = sticky_posts db
    /\ sideEffects db1 postId body = (inl tt, db').
Proof.
  unfold persistAndRespond. intro H.
  set (data := slugForDraftOrPending db postId existingPost data0) in *.
  pose proof (updatePost_tables db postId data) as (T1 & _ & _ & _ & _ & T6 & _).
  destruct (updatePost db postId data) as [ok db1]. simpl in *.
  destruct (negb ok); [discriminate|].
  exists db1. split; [exact T1|]. split; [exact T6|].
  destruct (sideEffects db1 postId body) as [[[]|e] db7]; [|discriminate].
  destruct (getPostById db7 postId); [|discriminate].
  injection H as _ <-. reflexivity.
Qed.

(** X21: The response of a successful request reports the side effects
    the patch asked for. [sticky: true] for a post with a positive id is
    answered sticky, [sticky: false] in a registry without duplicates is answered
    not sticky, and without the field the flag is the one the post had. With
    distinct row keys in [postmeta] and a meta object (of distinct keys) that
    does not name the internal key itself, [featured_media] is answered as
    given (0 when it was cleared) and [template] as given. *)
Theorem X21_response_reports_the_side_effects (db db' : Db) (postId : Z)
    (body : PostUpdateInput) (user : AuthenticatedUser) (r : WpPostResponse) :
  handlePostUpdate db postId body user = (inl r, db') ->
  (sticky body = Some true -> 0 < postId -> r_sticky r = true)
  /\ (sticky body = Some false -> NoDup (getStickyPosts db) -> r_sticky r = false)
  /\ (sticky body = None -> r_sticky r = isSticky db postId)
  /\ (meta_ids_distinct db ->
      (forall es, meta body = Some es ->
                  NoDup (map fst es) /\ ~ In "_thumbnail_id" (map fst es)) ->
      forall fm, featured_media body = Some fm ->
        r_featured_media r = Some (Z.max fm 0))
  /\ (meta_ids_distinct db ->
      (forall es, meta body = Some es ->
                  NoDup (map fst es) /\ ~ In "_wp_page_template" (map fst es)) ->
      forall t, template body = Some t -> r_template r = t).
Proof.
  intro H.
  destruct (handlePostUpdate_success _ _ _ _ _ _ H)
    as (old & new & st & _ & _ & _ & _ & _ & _ & _ & _ & Hr & Hid & _).
  apply handlePostUpdate_ok in H.
  destruct H as (old' & data0 & _ & _ & _ & _ & Hrun).
  apply persistAndRespond_sideEffects in Hrun.
  destruct Hrun as (db1 & M1 & S1 & Hside).
  apply sideEffects_reads in Hside. destruct Hside as (Hreg & Hthumb & Htemplate).
  assert (Hsticky : r_sticky r = includes (getStickyPosts db') postId).
  { rewrite Hr. simpl. rewrite Hid. reflexivity. }
  assert (Hfm : r_featured_media r
                = match getPostMeta db' postId "_thumbnail_id" with
                  | Some s => if truthy s then parseInt10 s else Some 0
                  | None => Some 0
                  end).
  { rewrite Hr. simpl. rewrite Hid. reflexivity. }
  assert (Htp : r_template r
                = match getPostMeta db' postId "_wp_page_template" with
                  | Some s => s
                  | None => EmptyString
                  end).
  { rewrite Hr. simpl. rewrite Hid. reflexivity. }
  assert (Hd1 : meta_ids_distinct db -> meta_ids_distinct db1).
  { apply meta_ids_distinct_field. exact M1. }
  split; [|split; [|split; [|split]]].
  - intros Es Hpos. rewrite Hsticky, Hreg, Es, getStickyPosts_after.
    rewrite (getStickyPosts_field db1 db S1).
    now apply (includes_after (getStickyPosts db) postId true).
  - intros Es Hnd. rewrite Hsticky, Hreg, Es, getStickyPosts_after.
    rewrite (getStickyPosts_field db1 db S1).
    now apply (includes_after (getStickyPosts db) postId false).
  - intros Es. rewrite Hsticky, Hreg, Es.
    now rewrite (getStickyPosts_field db1 db S1).
  - intros Hd Hmeta fm Efm. rewrite Hfm, (Hthumb (Hd1 Hd) Hmeta fm Efm).
    destruct (Z.ltb_spec 0 fm) as [Hpos|Hle].
    + destruct (parseInt10_printed fm) as [Hp Ht]. rewrite Ht, Hp. f_equal. lia.
    + f_equal. lia.
  - intros Hd Hmeta t Et. now rewrite Htp, (Htemplate (Hd1 Hd) Hmeta t Et).
Qed.

End ResponseSideEffects.

(** alice makes the draft 42 sticky, gives it the picture 50 and a template. *)
Lemma X21_response_reports_the_side_effects_witness :
  let user := Site.principal 1 "alice" in
  let body := patch_of [("featured_media", Site.num 50); ("sticky", JBool true);
                        ("template", JStr "wide")] in
  exists r db',
    handlePostUpdate Site.db0 42 body user = (inl r, db')
    /\ r_sticky r = true /\ r_featured_media r = Some 50 /\ r_template r = "wide".
Proof.
  intros user body.
  destruct (handlePostUpdate Site.db0 42 body user) as [[r|e] db'] eqn:Hrun.
  - exists r, db'. split; [reflexivity|].
    destruct (X21_response_reports_the_side_effects Site.db0 db' 42 body user r Hrun)
      as (H1 & _ & _ & H4 & H5).
    assert (Hd : meta_ids_distinct Site.db0).
    { unfold meta_ids_distinct. repeat constructor; simpl; lia. }
    assert (Hmeta : forall k es, meta body = Some es ->
                      NoDup (map fst es) /\ ~ In k (map fst es)).
    { intros k es E. vm_compute in E. discriminate E. }
    split; [apply H1; [reflexivity | lia]|]. split.
    + apply (H4 Hd (Hmeta _) 50 eq_refl).
    + apply (H5 Hd (Hmeta _) "wide" eq_refl).
  - exfalso. vm_compute in Hrun. discriminate.
Defined.

(** ** Dates that cannot be used *)

Section UnusableDates.
Context {rt : Runtime}.

Lemma handlePostUpdate_dates (db db' : Db) (postId : Z) (body : PostUpdateInput)
    (user : AuthenticatedUser) (r : WpPostResponse) :
  handlePostUpdate db postId body user = (inl r, db') ->
  exists old new,
    getPostById db postId = Some old /\ getPostById db' postId = Some new
    /\ post_date new
       = or_old (fst (prepare_dates body (gmtOffset_of (getOption db "gmt_offset"))))
           (post_date old)
    /\ post_date_gmt new
       = or_old (snd (prepare_dates body (gmtOffset_of (getOption db "gmt_offset"))))
           (post_date_gmt old).
Proof.
  intro H. apply handlePostUpdate_ok in H.
  destruct H as (old & data0 & Hget & _ & _ & Hprep & Hrun).
  destruct (persistAndRespond_ok _ _ _ _ _ _ _ Hget Hrun) as (Hnew & _).
  apply prepareItemForDatabase_inv in Hprep.
  destruct Hprep as (st & au & pw & pa & _ & _ & _ & _ & _ & Hdata).
  exists old. eexists. split; [exact Hget|]. split; [exact Hnew|].
  pose proof (slugForDraftOrPending_cols db postId old data0 c_post_date
                ltac:(discriminate)) as H1.
  pose proof (slugForDraftOrPending_cols db postId old data0 c_post_date_gmt
                ltac:(discriminate)) as H2.
  subst data0. simpl in H1, H2. cbn [post_date post_date_gmt apply_update].
  repeat match goal with
         | H : option_map _ ?x = option_map _ ?y |- _ =>
             assert (x = y)
               by (destruct x, y; simpl in H; try discriminate H;
                   try (injection H as ->); reflexivity);
             clear H
         end.
  repeat match goal with E : _ = _ :> option _ |- _ => rewrite E; clear E end.
  split; reflexivity.
Qed.

(** X22: Dates that cannot be used. A [date] (or, without it, a
    [date_gmt]) that the runtime's [Date] does not parse is dropped without an
    error: a request that succeeds leaves both date columns as they were. And
    when the [gmt_offset] option of the site is a text that is no number, a
    successful request with a local date that parses stores the date as given
    and the text [NaN-NaN-NaN NaN:NaN:NaN] in [post_date_gmt], and answers
    [NaN-NaN-NaNTNaN:NaN:NaN] as [date_gmt]. *)
Theorem X22_unusable_dates :
  (forall (db db' : Db) (postId : Z) (body : PostUpdateInput)
          (user : AuthenticatedUser) (r : WpPostResponse) (s : string),
      handlePostUpdate db postId body user = (inl r, db') ->
      date body = Some (Some s)
      \/ (date body = None /\ date_gmt body = Some (Some s)) ->
      Date_parse s = None ->
      exists old new,
        getPostById db postId = Some old /\ getPostById db' postId = Some new
        /\ post_date new = post_date old
        /\ post_date_gmt new = post_date_gmt old)
  /\ (forall (db db' : Db) (postId : Z) (body : PostUpdateInput)
             (user : AuthenticatedUser) (r : WpPostResponse)
             (offset s : string) (t : Z),
        handlePostUpdate db postId body user = (inl r, db') ->
        getOption db "gmt_offset" = Some offset ->
        truthy offset = true -> parseFloat offset = None ->
        date body = Some (Some s) -> Date_parse s = Some t ->
        exists new,
          getPostById db' postId = Some new
          /\ post_date new = formatMysqlDatetime (Some t)
          /\ post_date_gmt new = "NaN-NaN-NaN NaN:NaN:NaN"
          /\ r_date_gmt r = Some "NaN-NaN-NaNTNaN:NaN:NaN").
Proof.
  split.
  - intros db db' postId body user r s H Hd Hp.
    apply handlePostUpdate_dates in H.
    destruct H as (old & new & Hget & Hnew & H1 & H2).
    exists old, new. split; [exact Hget|]. split; [exact Hnew|].
    assert (E : prepare_dates body (gmtOffset_of (getOption db "gmt_offset"))
                = (None, None)).
    { unfold prepare_dates, restGetDateWithGmt.
      destruct Hd as [Hd | [Hd Hg]].
      - now rewrite Hd, Hp.
      - now rewrite Hd, Hg, Hp. }
    rewrite E in H1, H2. split; assumption.
  - intros db db' postId body user r offset s t H Ho Ht Hf Hd Hp.
    destruct (dates_after_update _ _ _ _ _ _ H)
      as (old & new & _ & Hnew & H1 & H2 & _ & Hr).
    assert (E : prepare_dates body (gmtOffset_of (getOption db "gmt_offset"))
                = (Some (formatMysqlDatetime (Some t)),
                   Some "NaN-NaN-NaN NaN:NaN:NaN")).
    { unfold prepare_dates, restGetDateWithGmt, gmtOffset_of.
      rewrite Hd, Hp, Ho, Ht, Hf. reflexivity. }
    rewrite E in H1, H2. simpl in H1, H2.
    exists new. split; [exact Hnew|]. split; [exact H1|]. split; [exact H2|].
    rewrite Hr, H2. reflexivity.
Qed.

End UnusableDates.

(** bob sends [not-a-date] for his draft 42; and he sends a date at a site
    whose offset reads [abc]. *)
Lemma X22_unusable_dates_witness :
  let user := Site.principal 2 "bob" in
  let site := mkDb (posts Site.db0) (postmeta Site.db0) (terms Site.db0)
                (term_taxonomy Site.db0) (term_relationships Site.db0)
                [("gmt_offset", "abc")] (sticky_posts Site.db0) (users Site.db0)
                (user_capabilities Site.db0) (user_roles Site.db0)
                (application_passwords Site.db0) in
  (exists r db' new,
     handlePostUpdate Site.db0 42 (patch_of [("date", JStr "not-a-date")]) user
     = (inl r, db')
     /\ getPostById db' 42 = Some new
     /\ post_date new = "2024-01-15 10:30:00"
     /\ post_date_gmt new = "2024-01-15 08:30:00")
  /\ (exists r db' new,
        handlePostUpdate site 42 (patch_of [("date", JStr "2024-03-01T12:00:00")])
          user = (inl r, db')
        /\ getPostById db' 42 = Some new
        /\ post_date new = "2024-03-01 12:00:00"
        /\ post_date_gmt new = "NaN-NaN-NaN NaN:NaN:NaN"
        /\ r_date_gmt r = Some "NaN-NaN-NaNTNaN:NaN:NaN").
Proof.
  intros user site. split.
  - destruct (handlePostUpdate Site.db0 42 (patch_of [("date", JStr "not-a-date")])
                user) as [[r|e] db'] eqn:Hrun.
    + destruct (proj1 X22_unusable_dates Site.db0 db' 42 _ user r "not-a-date" Hrun)
        as (old & new & Hget & Hnew & H1 & H2); [left; reflexivity | reflexivity |].
      exists r, db', new. split; [reflexivity|]. split; [exact Hnew|].
      vm_compute in Hget. injection Hget as <-. split; [exact H1 | exact H2].
    + exfalso. vm_compute in Hrun. discriminate.
  - destruct (handlePostUpdate site 42
                (patch_of [("date", JStr "2024-03-01T12:00:00")]) user)
      as [[r|e] db'] eqn:Hrun.
    + destruct (proj2 X22_unusable_dates site db' 42 _ user r "abc"
                  "2024-03-01T12:00:00" 1709294400000 Hrun)
        as (new & Hnew & H1 & H2 & H3); try reflexivity.
      exists r, db', new. split; [reflexivity|]. split; [exact Hnew|].
      split; [exact H1|]. split; [exact H2 | exact H3].
    + exfalso. vm_compute in Hrun. discriminate.
Defined.

(** ** The slug in the store *)

Lemma uniquePostSlug_free (db : Db) (s postStatus postType : string)
    (postId postParent : Z) :
  checkSlugExists db s postType postId postParent = false ->
  uniquePostSlug db s postId postStatus postType postParent = s.
Proof.
  intro H. unfold uniquePostSlug.
  change (2 + List.length (posts db))%nat with (S (S (List.length (posts db)))).
  cbn [uniquePostSlug_loop]. now rewrite H.
Qed.

Lemma checkSlugExists_rows (f : WpPostRow -> WpPostRow)
    (db db' : Db) (s postType : string) (postId postParent : Z) :
  (forall p, ID (f p) = ID p) ->
  posts db' = map (fun p => if ID p =? postId then f p else p) (posts db) ->
  checkSlugExists db' s postType postId postParent
  = checkSlugExists db s postType postId postParent.
Proof.
  intros Hid Hposts. unfold checkSlugExists. rewrite Hposts. clear Hposts.
  induction (posts db) as [|p l IH]; simpl; [reflexivity|].
  rewrite IH. f_equal.
  destruct (ID p =? postId) eqn:E; [|now rewrite E].
  rewrite Hid, E. simpl. now rewrite !andb_false_r.
Qed.

Section StoredSlug.
Context {rt : Runtime}.

Lemma persistAndRespond_posts (db db' : Db) (postId : Z) (body : PostUpdateInput)
    (existingPost : WpPostRow) (data0 : WpPostUpdateData) (r : WpPostResponse) :
  persistAndRespond db postId body existingPost data0 = (inl r, db') ->
  posts db'
  = map (fun p => if ID p =? postId
                  then apply_update
                         (slugForDraftOrPending db postId existingPost data0) p
                  else p) (posts db).
Proof.
  unfold persistAndRespond. intro H.
  set (data := slugForDraftOrPending db postId existingPost data0) in *.
  assert (Hp : posts (snd (updatePost db postId data))
               = map (fun p => if ID p =? postId then apply_update data p else p)
                   (posts db)) by reflexivity.
  destruct (updatePost db postId data) as [ok db1]. simpl in *.
  destruct (negb ok); [discriminate|].
  pose proof (sideEffects_same_rows db1 postId body) as [Hrows _].
  destruct (sideEffects db1 postId body) as [[[]|e] db7]; [|discriminate].
  simpl in Hrows.
  destruct (getPostById db7 postId); [|discriminate].
  injection H as _ <-. congruence.
Qed.

(** X23: The slug in the store. [uniquePostSlug] is idempotent: the slug
    it returns is returned unchanged when handed back. And after a successful
    request that supplies a non-empty slug and leaves the post a draft or
    pending, no other row of the resulting store with the type and the parent
    of the post has the slug of the post. *)
Theorem X23_stored_slug_is_unique :
  (forall (db : Db) (s postStatus postStatus' postType : string)
          (postId postParent : Z),
      uniquePostSlug db
        (uniquePostSlug db s postId postStatus postType postParent)
        postId postStatus' postType postParent
      = uniquePostSlug db s postId postStatus postType postParent)
  /\ (forall (db db' : Db) (postId : Z) (body : PostUpdateInput)
             (user : AuthenticatedUser) (r : WpPostResponse) (name : string),
        slug body = Some name -> truthy name = true ->
        handlePostUpdate db postId body user = (inl r, db') ->
        exists new,
          getPostById db' postId = Some new
          /\ (In (post_status new) ["draft"; "pending"] ->
              forall p, In p (posts db') -> ID p <> postId ->
                        post_type p = post_type new ->
                        post_parent p = post_parent new ->
                        post_name p <> post_name new)).
Proof.
  split.
  - intros db s postStatus postStatus' postType postId postParent.
    apply uniquePostSlug_free.
    apply (uniquePostSlug_first_free db s postType postId postParent postStatus).
  - intros db db' postId body user r name Hslug Hname H.
    destruct (slug_after_update _ _ _ _ _ _ _ Hslug H) as (new & Hnew & Hstored).
    exists new. split; [exact Hnew|].
    intros Hst p Hin Hid Hty Hpa Heq.
    assert (Hb : existsb (String.eqb (post_status new)) ["draft"; "pending"] = true).
    { apply existsb_exists. exists (post_status new). split; [exact Hst|].
      apply String.eqb_refl. }
    rewrite Hname, Hb in Hstored. simpl in Hstored.
    pose proof (uniquePostSlug_first_free db name (post_type new) postId
                  (post_parent new) "publish") as [Hfree _].
    rewrite <- Hstored in Hfree.
    apply handlePostUpdate_ok in H.
    destruct H as (old & data0 & _ & _ & _ & _ & Hrun).
    apply persistAndRespond_posts in Hrun.
    rewrite <- (checkSlugExists_rows
                  (apply_update (slugForDraftOrPending db postId old data0))
                  db db' (post_name new) (post_type new) postId (post_parent new)
                  (fun q => eq_refl) Hrun) in Hfree.
    assert (Hc : checkSlugExists db' (post_name new) (post_type new) postId
                   (post_parent new) = true).
    { apply checkSlugExists_collides. exists p. repeat split; assumption. }
    rewrite Hc in Hfree. discriminate.
Qed.

End StoredSlug.

(** The administrator gives the draft 42 the slug of post 43. *)
Lemma X23_stored_slug_is_unique_witness :
  let user := Site.principal 1 "alice" in
  let body := patch_of [("slug", JStr "first")] in
  exists r db' new,
    handlePostUpdate Site.db0 42 body user = (inl r, db')
    /\ getPostById db' 42 = Some new
    /\ post_name new = "first-3"
    /\ forall p, In p (posts db') -> ID p <> 42 ->
                 post_type p = post_type new -> post_parent p = post_parent new ->
                 post_name p <> post_name new.
Proof.
  intros user body.
  destruct (handlePostUpdate Site.db0 42 body user) as [[r|e] db'] eqn:Hrun.
  - destruct (proj2 X23_stored_slug_is_unique Site.db0 db' 42 body user r "first"
                eq_refl eq_refl Hrun) as (new & Hnew & Huniq).
    exists r, db', new. split; [reflexivity|]. split; [exact Hnew|].
    assert (E : getPostById db' 42
                = getPostById (snd (handlePostUpdate Site.db0 42 body user)) 42)
      by (now rewrite Hrun).
    rewrite Hnew in E. vm_compute in E. injection E as ->.
    split; [reflexivity|]. apply Huniq. simpl. tauto.
  - exfalso. vm_compute in Hrun. discriminate.
Defined.

(** ** What a request never alters *)

Lemma same_accounts_refl (db : Db) : same_accounts db db.
Proof. repeat split. Qed.

Lemma same_accounts_trans (a b c : Db) :
  same_accounts a b -> same_accounts b c -> same_accounts a c.
Proof.
  unfold same_accounts.
  intros (A1 & A2 & A3 & A4 & A5 & A6) (B1 & B2 & B3 & B4 & B5 & B6).
  repeat split; congruence.
Qed.

Lemma insert_relationship_accounts (d : Db) (i : Z) (tax : string) (k : Z) :
  same_accounts d (insert_relationship d i tax k).
Proof.
  unfold insert_relationship. destruct (find _ (term_taxonomy d)); repeat split.
Qed.

Lemma setObjectTerms_accounts (d : Db) (i : Z) (ts : list Z) (tax : string) :
  same_accounts d (setObjectTerms d i ts tax).
Proof.
  rewrite setObjectTerms_loop.
  apply (insert_relationship_fold i tax (same_accounts d)).
  - intros d' k H. eapply same_accounts_trans; [exact H|].
    apply insert_relationship_accounts.
  - unfold setObjectTerms. cbn [fold_left].
    destruct (map fst (currentRelations d i tax)); repeat split.
Qed.

Lemma updatePostMeta_accounts (d : Db) (i : Z) (k v : string) :
  same_accounts d (updatePostMeta d i k v).
Proof. unfold updatePostMeta. destruct (find _ (postmeta d)); repeat split. Qed.

Lemma handleStickyStatus_accounts (d : Db) (i : Z) (s : bool) :
  same_accounts d (handleStickyStatus d i s).
Proof.
  unfold handleStickyStatus.
  destruct s, (includes (getStickyPosts d) i); repeat split.
Qed.

Lemma handlePostFormat_accounts (d : Db) (i : Z) (f : string) :
  same_accounts d (handlePostFormat d i f).
Proof.
  unfold handlePostFormat.
  destruct (String.eqb f "standard" || String.eqb f EmptyString);
    [apply setObjectTerms_accounts|].
  destruct (getPostFormatTermId d f) as [k|]; [|apply same_accounts_refl].
  destruct (negb (k =? 0)); [apply setObjectTerms_accounts | apply same_accounts_refl].
Qed.

Lemma handleFeaturedMedia_accounts (d : Db) (fm i : Z) :
  same_accounts d (snd (handleFeaturedMedia d fm i)).
Proof.
  unfold handleFeaturedMedia. destruct (0 <? fm).
  - destruct (negb (isValidAttachment d fm)); simpl;
      [apply same_accounts_refl | apply updatePostMeta_accounts].
  - repeat split.
Qed.

Lemma handleTerms_accounts (d : Db) (i : Z) (body : PostUpdateInput) :
  same_accounts d (handleTerms d i body).
Proof.
  unfold handleTerms.
  eapply same_accounts_trans with
    (b := match categories body with
          | Some cs => setObjectTerms d i cs "category"
          | None => d
          end).
  - destruct (categories body); [apply setObjectTerms_accounts | apply same_accounts_refl].
  - destruct (tags body); [apply setObjectTerms_accounts | apply same_accounts_refl].
Qed.

Section NeverAltered.
Context {rt : Runtime}.

Lemma handleMeta_accounts (entries : list (string * json)) :
  forall (d : Db) (i : Z), same_accounts d (handleMeta d i entries).
Proof.
  induction entries as [|[k v] entries IH]; intros d i; [apply same_accounts_refl|].
  rewrite handleMeta_cons. eapply same_accounts_trans; [|apply IH].
  destruct v; try apply same_accounts_refl; apply updatePostMeta_accounts.
Qed.

Lemma sideEffects_accounts (db1 : Db) (postId : Z) (body : PostUpdateInput) :
  same_accounts db1 (snd (sideEffects db1 postId body)).
Proof.
  unfold sideEffects.
  set (db2 := match format body with Some f => _ | None => _ end).
  assert (H2 : same_accounts db1 db2).
  { subst db2. destruct (format body);
      [apply handlePostFormat_accounts | apply same_accounts_refl]. }
  set (media := match featured_media body with Some fm => _ | None => _ end).
  assert (H3 : same_accounts db1 (snd media)).
  { subst media. destruct (featured_media body) as [fm|]; [|exact H2].
    eapply same_accounts_trans; [exact H2 | apply handleFeaturedMedia_accounts]. }
  destruct media as [[u|e] db3]; simpl in *; [|exact H3].
  eapply same_accounts_trans; [exact H3|].
  eapply same_accounts_trans with
    (b := match sticky body with
          | Some s => handleStickyStatus db3 postId s
          | None => db3
          end).
  { destruct (sticky body);
      [apply handleStickyStatus_accounts | apply same_accounts_refl]. }
  match goal with |- same_accounts ?d4 _ => set (db4 := d4) end.
  eapply same_accounts_trans with
    (b := match template body with
          | Some t => updatePostMeta db4 postId "_wp_page_template" t
          | None => db4
          end).
  { destruct (template body);
      [apply updatePostMeta_accounts | apply same_accounts_refl]. }
  match goal with |- same_accounts ?d5 _ => set (db5 := d5) end.
  eapply same_accounts_trans; [apply (handleTerms_accounts db5 postId body)|].
  destruct (meta body); [apply handleMeta_accounts | apply same_accounts_refl].
Qed.

Lemma handlePostUpdate_accounts (db : Db) (postId : Z) (body : PostUpdateInput)
    (user : AuthenticatedUser) :
  same_accounts db (snd (handlePostUpdate db postId body user)).
Proof.
  unfold handlePostUpdate.
  destruct (getPostById db postId) as [old|]; [|apply same_accounts_refl].
  destruct (negb (String.eqb (post_type old) "post")); [apply same_accounts_refl|].
  destruct (checkPermissions db old body user); [apply same_accounts_refl|].
  destruct (prepareItemForDatabase db body old user) as [data0|];
    [|apply same_accounts_refl].
  unfold persistAndRespond.
  set (data := slugForDraftOrPending db postId old data0).
  assert (H1 : same_accounts db (snd (updatePost db postId data))) by (repeat split).
  destruct (updatePost db postId data) as [ok db1]. simpl in H1.
  destruct (negb ok); [exact H1|].
  pose proof (sideEffects_accounts db1 postId body) as H7.
  destruct (sideEffects db1 postId body) as [[u|e] db7]; simpl in H7.
  - destruct (getPostById db7 postId); simpl;
      eapply same_accounts_trans; eassumption.
  - simpl. eapply same_accounts_trans; eassumption.
Qed.

Lemma authenticateRequest_accounts (db db' : Db) (authHeader : option string) :
  same_accounts db db' ->
  authenticateRequest authHeader db' = authenticateRequest authHeader db.
Proof.
  intros (A1 & A2 & A3 & A4 & _ & _).
  unfold authenticateRequest, getUserByLogin, getApplicationPasswords,
    resolveUserCapabilities, getUserCapabilities, getRoleDefinitions.
  now rewrite A1, A2, A3, A4.
Qed.

Lemma same_accounts_unaltered (db db' : Db) :
  same_accounts db db' -> accounts_unaltered db db'.
Proof.
  intros (A1 & A2 & A3 & A4 & A5 & A6). unfold accounts_unaltered.
  repeat (split; [assumption|]).
  intros name _. unfold getOption. now rewrite A5.
Qed.

(** X24: What a request never alters. Whatever the request and its
    outcome are, the service and the route leave the accounts, their role
    assignments, the role definitions, the application passwords, the terms and
    every option other than [sticky_posts] as they were; so every
    [Authorization] header authenticates after the request exactly as it did
    before, to the same principal with the same capabilities. *)
Theorem X24_request_never_alters_accounts (db : Db) :
  (forall (postId : Z) (body : PostUpdateInput) (user : AuthenticatedUser),
      accounts_unaltered db (snd (handlePostUpdate db postId body user)))
  /\ (forall (request : Request),
        accounts_unaltered db (snd (handleUpdate request db))
        /\ forall authHeader,
             authenticateRequest authHeader (snd (handleUpdate request db))
             = authenticateRequest authHeader db).
Proof.
  split; [intros; apply same_accounts_unaltered, handlePostUpdate_accounts|].
  intro request.
  assert (H : same_accounts db (snd (handleUpdate request db))).
  { unfold handleUpdate.
    destruct (parseInt10 (param_postId request)) as [postId|];
      [|apply same_accounts_refl].
    destruct (postId <=? 0); [apply same_accounts_refl|].
    destruct (req_json request) as [rawBody|]; [|apply same_accounts_refl].
    destruct (postUpdateSchema rawBody) as [body|]; [|apply same_accounts_refl].
    unfold withTransaction, transaction_body.
    destruct (authenticateRequest (header_authorization request) db) as [user|];
      [|apply same_accounts_refl].
    pose proof (handlePostUpdate_accounts db postId body user) as Hs.
    destruct (handlePostUpdate db postId body user) as [[r|e] db']; exact Hs. }
  split; [now apply same_accounts_unaltered|].
  intro authHeader. now apply authenticateRequest_accounts.
Qed.

End NeverAltered.

(** The administrator makes post 42 sticky: the registry changes, and the
    address of the site and bob's credentials read as before. *)
Lemma X24_request_never_alters_accounts_witness :
  let request := Site.patch "42" Site.alice [("sticky", JBool true)] in
  let db' := snd (handleUpdate request Site.db0) in
  Site.status_of (handleUpdate request Site.db0) = 200
  /\ isSticky Site.db0 42 = false /\ isSticky db' 42 = true
  /\ getOption db' "siteurl" = getOption Site.db0 "siteurl"
  /\ authenticateRequest Site.bob db' = authenticateRequest Site.bob Site.db0.
Proof.
  intros request db'.
  split; [reflexivity|]. split; [reflexivity|]. split; [reflexivity|].
  destruct (proj2 (X24_request_never_alters_accounts Site.db0) request)
    as ((_ & _ & _ & _ & _ & Hopt) & Hauth).
  split; [apply Hopt; discriminate | apply Hauth].
Defined.

(** ** C6: exactly the provided columns are written *)

Section ProvidedColumns.
Context {rt : Runtime}.

Lemma prepare_status_value (body : PostUpdateInput) (old : WpPostRow)
    (user : AuthenticatedUser) (st' : option string) (st : string) :
  prepare_status body old user = inl st' ->
  b_status body = Some st ->
  (st = post_status old /\ or_old st' (post_status old) = st)
  \/ (st <> post_status old
      /\ validateAndNormalizeStatus st user = inl (or_old st' (post_status old))).
Proof.
  unfold prepare_status. intros H Est. rewrite Est in H.
  destruct (String.eqb_spec st (post_status old)) as [E|Hne]; simpl in H.
  - injection H as <-. left. split; [exact E | now symmetry].
  - right. split; [exact Hne|].
    destruct (validateAndNormalizeStatus st user) as [x|e]; [|discriminate].
    injection H as <-. reflexivity.
Qed.

Lemma prepare_dates_local (body : PostUpdateInput) (off : option Q) (s : string)
    (t : Z) :
  date body = Some (Some s) -> Date_parse s = Some t ->
  prepare_dates body off
  = (Some (formatMysqlDatetime (Some t)),
     Some (formatMysqlDatetime (shift_hours (Some t) (-1) off))).
Proof.
  intros Hd Hp. unfold prepare_dates, restGetDateWithGmt. now rewrite Hd, Hp.
Qed.

Lemma prepare_dates_gmt (body : PostUpdateInput) (off : option Q) (s : string)
    (t : Z) :
  date body = None -> date_gmt body = Some (Some s) -> Date_parse s = Some t ->
  prepare_dates body off
  = (Some (formatMysqlDatetime (shift_hours (Some t) 1 off)),
     Some (formatMysqlDatetime (Some t))).
Proof.
  intros Hd Hg Hp. unfold prepare_dates, restGetDateWithGmt. now rewrite Hd, Hg, Hp.
Qed.

End ProvidedColumns.

(** C6: For every valid patch containing only a subset of the recognized
    fields, exactly the columns of the provided fields are written in the post
    row. [updatePost] gives every column of its set the value of the set, sets
    [post_modified] and [post_modified_gmt] to the current time whatever the
    set is (also when it is empty), and leaves every other column, and every
    other row, as it was. After a successful request a column whose field the
    patch does not carry holds its prior value, the two timestamps hold the
    current time, and every column whose field the patch carries holds the
    value of the patch: the title, content and excerpt given (bare or under
    [raw]), the author, password, parent, menu order and the two toggles given,
    the status given as the normalizer returns it (the status itself when it is
    the current one), both date columns as derived from the date that is taken
    when it parses (the zero date for [null]), and the slug given, made unique
    when the post is left a draft or pending. *)
Theorem C6_update_writes_exactly_provided_columns {rt : Runtime} :
  (forall (db : Db) (postId : Z) (data : WpPostUpdateData) (old : WpPostRow),
      getPostById db postId = Some old ->
      fst (updatePost db postId data) = true
      /\ exists new,
          getPostById (snd (updatePost db postId data)) postId = Some new
          /\ (forall c v, data_col c data = Some v -> col c new = v)
          /\ (forall c, data_col c data = None -> is_timestamp c = false ->
                        col c new = col c old)
          /\ post_modified new = NOW
          /\ post_modified_gmt new = UTC_TIMESTAMP
          /\ (forall j, j <> postId ->
                getPostById (snd (updatePost db postId data)) j = getPostById db j))
  /\ (forall (db db' : Db) (postId : Z) (body : PostUpdateInput)
             (user : AuthenticatedUser) (r : WpPostResponse),
        handlePostUpdate db postId body user = (inl r, db') ->
        exists old new,
          getPostById db postId = Some old
          /\ getPostById db' postId = Some new
          /\ (forall c, patch_col c body = false -> is_timestamp c = false ->
                        col c new = col c old)
          /\ post_modified new = NOW
          /\ post_modified_gmt new = UTC_TIMESTAMP
          /\ (forall j, j <> postId -> getPostById db' j = getPostById db j))
  /\ (forall (db db' : Db) (postId : Z) (body : PostUpdateInput)
             (user : AuthenticatedUser) (r : WpPostResponse),
        handlePostUpdate db postId body user = (inl r, db') ->
        exists old new,
          getPostById db postId = Some old
          /\ getPostById db' postId = Some new
          /\ (forall s, title body = Some (Bare s) \/ title body = Some (WithRaw s) ->
                        post_title new = s)
          /\ (forall s, content body = Some (Bare s) \/ content body = Some (WithRaw s) ->
                        post_content new = s)
          /\ (forall s, excerpt body = Some (Bare s) \/ excerpt body = Some (WithRaw s) ->
                        post_excerpt new = s)
          /\ (forall st, b_status body = Some st ->
                (st = post_status old /\ post_status new = st)
                \/ (st <> post_status old
                    /\ validateAndNormalizeStatus st user = inl (post_status new)))
          /\ (forall s t, date body = Some (Some s) -> Date_parse s = Some t ->
                post_date new = formatMysqlDatetime (Some t)
                /\ post_date_gmt new
                   = formatMysqlDatetime
                       (shift_hours (Some t) (-1)
                          (gmtOffset_of (getOption db "gmt_offset"))))
          /\ (forall s t, date body = None -> date_gmt body = Some (Some s) ->
                Date_parse s = Some t ->
                post_date new
                = formatMysqlDatetime
                    (shift_hours (Some t) 1 (gmtOffset_of (getOption db "gmt_offset")))
                /\ post_date_gmt new = formatMysqlDatetime (Some t))
          /\ (date body = Some None
              \/ (date body = None /\ date_gmt body = Some None) ->
              post_date new = ZERO_DATE /\ post_date_gmt new = ZERO_DATE)
          /\ (forall name, slug body = Some name ->
                post_name new
                = if truthy name
                     && existsb (String.eqb (post_status new)) ["draft"; "pending"]
                  then uniquePostSlug db name postId "publish" (post_type new)
                         (post_parent new)
                  else name)
          /\ (forall a, author body = Some a -> post_author new = a)
          /\ (forall p, password body = Some p -> post_password new = p)
          /\ (forall p, parent body = Some p -> post_parent new = p)
          /\ (forall m, b_menu_order body = Some m -> menu_order new = m)
          /\ (forall s, b_comment_status body = Some s -> comment_status new = s)
          /\ (forall s, b_ping_status body = Some s -> ping_status new = s)).
Proof.
  split; [|split].
  - intros db postId data old Hget. split.
    + rewrite updatePost_succeeds, Hget. reflexivity.
    + exists (apply_update data old). rewrite updatePost_read_same, Hget.
      repeat split.
      * intros c v. apply apply_update_provided.
      * intros c. apply apply_update_absent.
      * intros j Hj. now apply updatePost_read_other.
  - intros db db' postId body user r H.
    apply handlePostUpdate_ok in H.
    destruct H as (old & data0 & Hget & _ & _ & Hprep & Hrun).
    destruct (persistAndRespond_ok _ _ _ _ _ _ _ Hget Hrun) as (Hnew & Hother & _ & _).
    exists old. eexists. split; [exact Hget|]. split; [exact Hnew|].
    repeat split.
    + intros c Hc Ht. apply apply_update_absent; [|exact Ht].
      apply slugForDraftOrPending_none. eapply prepare_columns; eassumption.
    + exact Hother.
  - intros db db' postId body user r H.
    destruct (handlePostUpdate_success _ _ _ _ _ _ H)
      as (old & new & st & Hget & _ & _ & Hst & _ & _ & _ & Hnew & _ & _ & _
          & Ht & Hc & He & Hs & Ha & Hpw & Hpa & Hm & Hcs & Hps).
    destruct (dates_after_update _ _ _ _ _ _ H)
      as (old' & new' & Hget' & Hnew' & Hd & Hdg & _).
    rewrite Hget in Hget'. injection Hget' as <-.
    rewrite Hnew in Hnew'. injection Hnew' as <-.
    exists old, new. split; [exact Hget|]. split; [exact Hnew|].
    split; [intros s [E|E]; rewrite Ht, E; reflexivity|].
    split; [intros s [E|E]; rewrite Hc, E; reflexivity|].
    split; [intros s [E|E]; rewrite He, E; reflexivity|].
    split.
    { intros x Hx. rewrite Hs.
      destruct (prepare_status_value _ _ _ _ _ Hst Hx) as [[E1 E2]|[E1 E2]];
        [left | right]; split; assumption. }
    split.
    { intros s t E Hp. rewrite Hd, Hdg, (prepare_dates_local _ _ _ _ E Hp).
      split; reflexivity. }
    split.
    { intros s t E Eg Hp. rewrite Hd, Hdg, (prepare_dates_gmt _ _ _ _ E Eg Hp).
      split; reflexivity. }
    split.
    { intro E. rewrite Hd, Hdg. unfold prepare_dates.
      destruct E as [E|[E Eg]]; [rewrite E | rewrite E, Eg]; split; reflexivity. }
    split.
    { intros name Hname.
      destruct (slug_after_update _ _ _ _ _ _ _ Hname H) as (new' & Hnew' & Hn).
      rewrite Hnew in Hnew'. injection Hnew' as <-. exact Hn. }
    split; [intros a E; rewrite Ha, E; reflexivity|].
    split; [intros p E; rewrite Hpw, E; reflexivity|].
    split; [intros p E; rewrite Hpa, E; reflexivity|].
    split; [intros m E; rewrite Hm, E; reflexivity|].
    split; [intros s E; rewrite Hcs, E; reflexivity|].
    intros s E. rewrite Hps, E. reflexivity.
Qed.

(** At the reference site bob sends a title under [raw], a content, a
    menu order and a comment toggle for his draft 42: the four columns hold the
    values sent, the two timestamps the current time, and the excerpt, the
    status, the slug and the author are as they were. *)
Lemma C6_update_writes_exactly_provided_columns_witness :
  let user := Site.principal 2 "bob" in
  let body := patch_of [("title", JObj [("raw", JStr "Hello")]);
                        ("content", JStr "Body"); ("menu_order", Site.num 3);
                        ("comment_status", JStr "closed")] in
  getPostById Site.db0 42 = Some (Site.a_post 42 2 "draft" "hello-world")
  /\ fst (updatePost Site.db0 42
            (mkUpdateData (Some "Hello") None None None None None None None
               None None None None None)) = true
  /\ exists r db' new,
      handlePostUpdate Site.db0 42 body user = (inl r, db')
      /\ getPostById db' 42 = Some new
      /\ post_title new = "Hello" /\ post_content new = "Body"
      /\ menu_order new = 3 /\ comment_status new = "closed"
      /\ post_modified new = "2024-06-01 12:00:00"
      /\ post_excerpt new = EmptyString /\ post_status new = "draft"
      /\ post_name new = "hello-world" /\ post_author new = 2.
Proof.
  intros user body.
  assert (Hget : getPostById Site.db0 42
                 = Some (Site.a_post 42 2 "draft" "hello-world")) by reflexivity.
  split; [exact Hget|].
  split; [exact (proj1 (proj1 C6_update_writes_exactly_provided_columns
                          Site.db0 42 _ _ Hget))|].
  destruct (handlePostUpdate Site.db0 42 body user) as [[r|e] db'] eqn:Hrun.
  - destruct (proj2 (proj2 C6_update_writes_exactly_provided_columns)
                Site.db0 db' 42 body user r Hrun)
      as (old & new & Hold & Hnew & Ht & Hc & _ & _ & _ & _ & _ & _ & _ & _ & _
          & Hm & Hcs & _).
    destruct (proj1 (proj2 C6_update_writes_exactly_provided_columns)
                Site.db0 db' 42 body user r Hrun)
      as (old' & new' & Hold' & Hnew' & Hframe & Hmod & _).
    rewrite Hnew in Hnew'. injection Hnew' as <-.
    rewrite Hget in Hold'. injection Hold' as <-.
    exists r, db', new. split; [reflexivity|]. split; [exact Hnew|].
    split; [apply Ht; right; reflexivity|].
    split; [apply Hc; left; reflexivity|].
    split; [apply Hm; reflexivity|].
    split; [apply Hcs; reflexivity|].
    split; [exact Hmod|].
    pose proof (Hframe c_post_excerpt eq_refl eq_refl) as F1.
    pose proof (Hframe c_post_status eq_refl eq_refl) as F2.
    pose proof (Hframe c_post_name eq_refl eq_refl) as F3.
    pose proof (Hframe c_post_author eq_refl eq_refl) as F4.
    simpl in F1, F2, F3, F4.
    injection F1 as F1. injection F2 as F2. injection F3 as F3. injection F4 as F4.
    repeat split; assumption.
  - exfalso. vm_compute in Hrun. discriminate.
Defined.
